(** * ah-rambo-backend: controllers for articles and users

    A shallow embedding of the Express controllers
    [server/controllers/Articles.js] and [server/controllers/Users.js]
    together with the Sequelize model [server/database/models/article.js].

    The controllers are sequences of awaited ORM calls that read and
    write database tables and answer with a JSON response.  They are
    embedded in a state-and-exception monad over a [World] holding the
    tables, the responses sent so far on [res], and a fault plan: every
    awaited call to the ORM or to an external service consumes one entry
    of the plan and throws when the entry is [true].  A run with the
    empty plan is a run in which no call failed.

    A string is a sequence of characters with codes below 256, one
    [ascii] for each character.  The uniqueness constraints of the
    database are not part of the model: the properties speak of what a
    write leaves when the database accepts it. *)

From Stdlib Require Import ZArith String List Ascii Lia Bool.
From stdpp Require Import base option list strings gmap pretty.

Local Open Scope string_scope.
Local Open Scope list_scope.
Local Open Scope Z_scope.

(** ** JavaScript values *)

Module JS.

#[warnings="-register-all"] Inductive json : Type :=
| JNull
| JBool (b : bool)
| JNum (n : Z)
| JStr (s : string)
| JArr (l : list json)
| JObj (o : gmap string json).

(** A property read [o.k]: [None] is JavaScript's [undefined]. *)
Definition value := option json.

(** [String.prototype.toLowerCase]: among the characters with codes
    below 256 the capitals are the letters A to Z and the letters from
    U+00C0 to U+00DE, the sign U+00D7 excepted; each has its small
    letter 32 places further on. *)
Definition lower_char (c : ascii) : ascii :=
  let n := N_of_ascii c in
  if (((65 <=? n) && (n <=? 90))
      || ((192 <=? n) && (n <=? 222) && negb (n =? 215)))%N
  then ascii_of_N (n + 32) else c.

Fixpoint toLowerCase (s : string) : string :=
  match s with
  | EmptyString => EmptyString
  | String c r => String (lower_char c) (toLowerCase r)
  end.

(** [Array.prototype.join] with separator [sep]. *)
Fixpoint join (sep : string) (l : list string) : string :=
  match l with
  | [] => ""
  | [x] => x
  | x :: r => x +:+ sep +:+ join sep r
  end.

(** The string conversion applied by [+=] with a string operand. An
    array converts to its elements joined by commas, [null] and
    [undefined] elements giving the empty string. *)
Fixpoint toString (v : json) : string :=
  match v with
  | JNull => "null"
  | JBool true => "true"
  | JBool false => "false"
  | JNum n => pretty n
  | JStr s => s
  | JArr l =>
      join "," (List.map (fun e => match e with JNull => "" | _ => toString e end) l)
  | JObj _ => "[object Object]"
  end.

Definition valueToString (v : value) : string :=
  match v with
  | None => "undefined"
  | Some j => toString j
  end.

(** Truthiness, as tested by [if (v)] and [!v]. *)
Definition truthy (v : value) : bool :=
  match v with
  | None | Some JNull => false
  | Some (JBool b) => b
  | Some (JNum n) => negb (n =? 0)
  | Some (JStr s) => negb (String.eqb s EmptyString)
  | Some (JArr _) | Some (JObj _) => true
  end.

(** [v === 'text'] *)
Definition is_str (v : value) (s : string) : bool :=
  match v with
  | Some (JStr t) => String.eqb t s
  | _ => false
  end.

(** [v === undefined] *)
Definition is_undefined (v : value) : bool :=
  match v with None => true | Some _ => false end.

Definition is_Some_b {A} (o : option A) : bool :=
  match o with Some _ => true | None => false end.

Definition opt_str (o : option string) : json :=
  match o with Some s => JStr s | None => JNull end.

Definition opt_num (o : option Z) : json :=
  match o with Some n => JNum n | None => JNull end.

End JS.
Export JS.

(** ** Database rows *)

(** A row of the [Likes] or of the [Dislikes] table: both tables have the
    columns [userId], [contentType] and [contentId]. *)
Record Reaction := mkReaction {
  r_userId : Z;
  r_contentType : string;
  r_contentId : Z
}.

(** A row of the [Articles] table, with the attributes of
    [models/article.js]. *)
Record ArticleRow := mkArticle {
  a_id : Z;
  a_slug : string;
  a_title : string;
  a_description : option string;
  a_image : option string;
  a_articleBody : option string;
  a_authorId : Z;
  a_categoryId : Z;
  a_likesCount : Z;
  a_dislikesCount : Z;
  a_publishedAt : option Z;
  a_isArchived : bool
}.

Record CategoryRow := mkCategory { c_id : Z; c_name : string }.

Record TagRow := mkTag { t_id : Z; t_name : string }.

Record SessionRow := mkSession {
  s_userId : Z;
  s_token : string;
  s_expiresAt : Z;
  s_userAgent : string;
  s_ipAddress : string;
  s_devicePlatform : string;
  s_active : option bool
}.

Record ResetPasswordRow := mkResetPassword { rp_token : string; rp_userId : Z }.

(** A row of the [Users] table: its primary key and its other attributes. *)
Record UserRow := mkUser { usr_id : Z; usr_values : gmap string json }.

Record DB := mkDB {
  Articles_t : list ArticleRow;
  Likes_t : list Reaction;
  Dislikes_t : list Reaction;
  Categories_t : list CategoryRow;
  Tags_t : list TagRow;
  ArticleTags_t : list (Z * Z);
  Users_t : list UserRow;
  Sessions_t : list SessionRow;
  ResetPasswords_t : list ResetPasswordRow
}.

Definition set_Articles (f : list ArticleRow -> list ArticleRow) (d : DB) : DB :=
  mkDB (f (Articles_t d)) (Likes_t d) (Dislikes_t d) (Categories_t d) (Tags_t d)
       (ArticleTags_t d) (Users_t d) (Sessions_t d) (ResetPasswords_t d).

Definition set_Likes (f : list Reaction -> list Reaction) (d : DB) : DB :=
  mkDB (Articles_t d) (f (Likes_t d)) (Dislikes_t d) (Categories_t d) (Tags_t d)
       (ArticleTags_t d) (Users_t d) (Sessions_t d) (ResetPasswords_t d).

Definition set_Dislikes (f : list Reaction -> list Reaction) (d : DB) : DB :=
  mkDB (Articles_t d) (Likes_t d) (f (Dislikes_t d)) (Categories_t d) (Tags_t d)
       (ArticleTags_t d) (Users_t d) (Sessions_t d) (ResetPasswords_t d).

Definition set_Tags (f : list TagRow -> list TagRow) (d : DB) : DB :=
  mkDB (Articles_t d) (Likes_t d) (Dislikes_t d) (Categories_t d) (f (Tags_t d))
       (ArticleTags_t d) (Users_t d) (Sessions_t d) (ResetPasswords_t d).

Definition set_ArticleTags (f : list (Z * Z) -> list (Z * Z)) (d : DB) : DB :=
  mkDB (Articles_t d) (Likes_t d) (Dislikes_t d) (Categories_t d) (Tags_t d)
       (f (ArticleTags_t d)) (Users_t d) (Sessions_t d) (ResetPasswords_t d).

Definition set_Users (f : list UserRow -> list UserRow) (d : DB) : DB :=
  mkDB (Articles_t d) (Likes_t d) (Dislikes_t d) (Categories_t d) (Tags_t d)
       (ArticleTags_t d) (f (Users_t d)) (Sessions_t d) (ResetPasswords_t d).

Definition set_Sessions (f : list SessionRow -> list SessionRow) (d : DB) : DB :=
  mkDB (Articles_t d) (Likes_t d) (Dislikes_t d) (Categories_t d) (Tags_t d)
       (ArticleTags_t d) (Users_t d) (f (Sessions_t d)) (ResetPasswords_t d).

Definition set_ResetPasswords (f : list ResetPasswordRow -> list ResetPasswordRow) (d : DB) : DB :=
  mkDB (Articles_t d) (Likes_t d) (Dislikes_t d) (Categories_t d) (Tags_t d)
       (ArticleTags_t d) (Users_t d) (Sessions_t d) (f (ResetPasswords_t d)).

(** ** Responses and the world *)

Record Response := mkResponse { status : Z; body : json }.

Record World := mkWorld {
  db : DB;
  faults : list bool;
  sent : list Response;
  headers : list (string * string);
  clock : Z
}.

Definition with_db (d : DB) (w : World) : World :=
  mkWorld d (faults w) (sent w) (headers w) (clock w).

Definition with_faults (fs : list bool) (w : World) : World :=
  mkWorld (db w) fs (sent w) (headers w) (clock w).

(** ** The controller monad: state and exceptions *)

Inductive Result (A : Type) : Type :=
| Ok (a : A)
| Throw.
Arguments Ok {A} a.
Arguments Throw {A}.

Definition M (A : Type) : Type := World -> Result A * World.

#[global] Instance M_ret : MRet M := fun A a w => (Ok a, w).

#[global] Instance M_bind : MBind M := fun A B k m w =>
  match m w with
  | (Ok a, w') => k a w'
  | (Throw, w') => (Throw, w')
  end.

(** [throw] raises an exception, as a [TypeError] does. *)
Definition throw {A} : M A := fun w => (Throw, w).

(** [try { body } catch (error) { handler }] *)
Definition try_catch {A} (body handler : M A) : M A := fun w =>
  match body w with
  | (Ok a, w') => (Ok a, w')
  | (Throw, w') => handler w'
  end.

(** A call to an [async] function whose promise is neither awaited nor
    returned: its effects happen, a rejection is not seen by the caller. *)
Definition detached {A} (m : M A) : M unit := fun w =>
  match m w with
  | (_, w') => (Ok tt, w')
  end.

Definition next_fault (w : World) : bool :=
  match faults w with
  | b :: _ => b
  | [] => false
  end.

(** An awaited ORM call: it throws when the fault plan says so, and
    otherwise runs the query [q] on the tables. *)
Definition orm {A} (q : DB -> A * DB) : M A := fun w =>
  let w' := with_faults (tail (faults w)) w in
  if next_fault w then (Throw, w')
  else let '(a, d) := q (db w) in (Ok a, with_db d w').

(** An awaited call to an external service ([bcrypt], image upload). *)
Definition service {A} (a : A) : M A := orm (fun d => (a, d)).

(** [Date.now()] *)
Definition Date_now : M Z := fun w => (Ok (clock w), w).

(** ** helpers/serverResponse *)

Module Http.

(** Modelled from the spec: [serverResponse(res, code, payload)] of
    [helpers/serverResponse] is not among the sources; it answers the
    request with the status code and the payload as the JSON body. *)
Definition serverResponse (code : Z) (payload : json) : M unit := fun w =>
  (Ok tt, mkWorld (db w) (faults w) (sent w ++ [mkResponse code payload])
                  (headers w) (clock w)).

Definition generic_error : json :=
  JObj {[ "error" := JStr "Something went wrong" ]}.

(** Modelled from the spec: [serverError(res)] of [helpers/serverResponse]
    is not among the sources; it answers with the generic status 500 and
    an [error] payload, whose text the sources do not give. *)
Definition serverError : M unit := serverResponse 500 generic_error.

(** [res.set(name, value)] *)
Definition res_set (name value : string) : M unit := fun w =>
  (Ok tt, mkWorld (db w) (faults w) (sent w) ((name, value) :: headers w) (clock w)).

(** [{ error: text }] and [{ message: text }] *)
Definition error_body (text : string) : json := JObj {[ "error" := JStr text ]}.
Definition message_body (text : string) : json := JObj {[ "message" := JStr text ]}.

End Http.
Export Http.

(** ** Requests *)

(** [req.user], set by the authentication middleware from a [Users] row. *)
Record ReqUser := mkReqUser { u_id : Z; u_email : string; u_verified : bool }.

Record Params := mkParams { p_slug : string; p_email : string; p_token : string }.

Record Request := mkRequest {
  req_body : gmap string json;
  req_params : Params;
  req_user : ReqUser;
  req_file : option string;
  req_ip : string;
  req_userAgent : string
}.

(** The libraries and helpers the controllers call that are not part of
    the sources: [bcryptjs], [sequelize-slugify], and the helpers
    [generateToken], [expiryDate], [getUserAgent], [imageUpload] and
    [verifyResetPasswordToken] of [server/helpers]. [imageUpload(req)]
    uploads the file of the request and answers its URL. [row_order] is
    the order in which the database hands out the rows of a query that
    has no [ORDER BY]. *)
Record Externals := mkExternals {
  bcrypt_hash : string -> Z -> string;
  generateToken : Z -> string -> string;
  expiryDate : string -> Z;
  getUserAgent : Request -> string * string;
  imageUpload : string -> string;
  slugify : string -> list string -> string;
  verifyResetPasswordToken : string -> option Z;
  row_order : forall A : Type, list A -> list A
}.
Arguments row_order _ {A} _.

(** ** Sequelize models *)

(** Attribute reads on a plain object. *)
Definition str_attr (o : gmap string json) (k : string) : option string :=
  match o !! k with Some (JStr s) => Some s | _ => None end.

Definition num_attr (o : gmap string json) (k : string) : option Z :=
  match o !! k with Some (JNum n) => Some n | _ => None end.

Definition bool_attr (o : gmap string json) (k : string) : option bool :=
  match o !! k with Some (JBool b) => Some b | _ => None end.

(** The next value of a serial primary key. *)
Definition next_id (ids : list Z) : Z := 1 + List.fold_right Z.max 0 ids.

(** [{ where: { userId, contentType, contentId } }] on a reaction table. *)
Definition reaction_where (userId : Z) (contentType : string) (contentId : Z)
    (r : Reaction) : bool :=
  (r_userId r =? userId) && String.eqb (r_contentType r) contentType
  && (r_contentId r =? contentId).

(** The rows an article's [hasMany] association ranges over: foreign key
    [contentId], scope [contentType: 'article']. *)
Definition of_article (articleId : Z) (r : Reaction) : bool :=
  (r_contentId r =? articleId) && String.eqb (r_contentType r) "article".

Module Like.

(** [Like.destroy({ where: { userId, contentType, contentId } })] *)
Definition destroy (userId : Z) (contentType : string) (contentId : Z) : M unit :=
  orm (fun d =>
    (tt, set_Likes (List.filter (fun r => negb (reaction_where userId contentType contentId r))) d)).

End Like.

Module Dislike.

(** [Dislike.destroy({ where: { userId, contentType, contentId } })] *)
Definition destroy (userId : Z) (contentType : string) (contentId : Z) : M unit :=
  orm (fun d =>
    (tt, set_Dislikes (List.filter (fun r => negb (reaction_where userId contentType contentId r))) d)).

End Dislike.

Module Category.

(** [Category.findOne({ where: { name } })] *)
Definition findOne (name : string) : M (option CategoryRow) :=
  orm (fun d => (List.find (fun c => String.eqb (c_name c) name) (Categories_t d), d)).

End Category.

Module Article.

(** [Article.findOne({ where: { slug } })] *)
Definition findOne (slug : string) : M (option ArticleRow) :=
  orm (fun d => (List.find (fun a => String.eqb (a_slug a) slug) (Articles_t d), d)).

(** [Article.findBySlug] of [models/article.js]. *)
Definition findBySlug (slug : string) : M (option ArticleRow) :=
  article ← findOne slug;
  match article with
  | Some a => mret (Some a)
  | None => mret None
  end.

(** [Article.update(values, { where, returning: true })]: [values] is
    applied to every row selected by [where]; the result is the list of
    the rows written. *)
Definition update (values : ArticleRow -> ArticleRow) (where_ : ArticleRow -> bool)
    : M (list ArticleRow) :=
  orm (fun d =>
    (List.map values (List.filter where_ (Articles_t d)),
     set_Articles (List.map (fun a => if where_ a then values a else a)) d)).

Definition where_id (id : Z) (a : ArticleRow) : bool := a_id a =? id.

Definition set_likesCount (n : Z) (a : ArticleRow) : ArticleRow :=
  mkArticle (a_id a) (a_slug a) (a_title a) (a_description a) (a_image a)
            (a_articleBody a) (a_authorId a) (a_categoryId a) n (a_dislikesCount a)
            (a_publishedAt a) (a_isArchived a).

Definition set_dislikesCount (n : Z) (a : ArticleRow) : ArticleRow :=
  mkArticle (a_id a) (a_slug a) (a_title a) (a_description a) (a_image a)
            (a_articleBody a) (a_authorId a) (a_categoryId a) (a_likesCount a) n
            (a_publishedAt a) (a_isArchived a).

(** The association methods that [Article.hasMany(models.Like, ...)] and
    [Article.hasMany(models.Dislike, ...)] add to an article instance. *)

(** [article.getLikes({ where: { userId } })] *)
Definition getLikes (article : ArticleRow) (userId : Z) : M (list Reaction) :=
  orm (fun d =>
    (List.filter (fun r => of_article (a_id article) r && (r_userId r =? userId)) (Likes_t d), d)).

(** [article.getDislikes({ where: { userId } })] *)
Definition getDislikes (article : ArticleRow) (userId : Z) : M (list Reaction) :=
  orm (fun d =>
    (List.filter (fun r => of_article (a_id article) r && (r_userId r =? userId)) (Dislikes_t d), d)).

(** [article.countLikes()] *)
Definition countLikes (article : ArticleRow) : M Z :=
  orm (fun d => (Z.of_nat (length (List.filter (of_article (a_id article)) (Likes_t d))), d)).

(** [article.countDislikes()] *)
Definition countDislikes (article : ArticleRow) : M Z :=
  orm (fun d => (Z.of_nat (length (List.filter (of_article (a_id article)) (Dislikes_t d))), d)).

(** [article.createLike({ userId })] *)
Definition createLike (article : ArticleRow) (userId : Z) : M unit :=
  orm (fun d => (tt, set_Likes (fun l => l ++ [mkReaction userId "article" (a_id article)]) d)).

(** [article.createDislike({ userId })] *)
Definition createDislike (article : ArticleRow) (userId : Z) : M unit :=
  orm (fun d => (tt, set_Dislikes (fun l => l ++ [mkReaction userId "article" (a_id article)]) d)).

(** The text of a [title]: the type [STRING] takes a string, and a
    number, which it stores as its decimal text. *)
Definition title_text (v : value) : option string :=
  match v with
  | Some (JStr t) => Some t
  | Some (JNum n) => Some (pretty n)
  | _ => None
  end.

(** The validations of [models/article.js]: the text of [title] has 2 to
    250 characters; the counts are integers not less than 0, and not
    above the greatest value of an [INTEGER] column. *)
Definition title_ok (v : value) : bool :=
  match title_text v with
  | Some t => (2 <=? String.length t)%nat && (String.length t <=? 250)%nat
  | None => false
  end.

Definition count_ok (v : value) : bool :=
  match v with
  | None => true
  | Some (JNum n) => (0 <=? n) && (n <=? 2147483647)
  | Some _ => false
  end.

Definition default_image : string :=
  "http://res.cloudinary.com/teamrambo50/image/upload/v1565884519/fazaithupzfod35wxwys.png".

(** The row [Article.create(values)] inserts: the attributes of the
    model are read from [values], absent ones take their default. An
    [id] and a [slug] that [values] carry are kept; without them the
    primary key is the next serial value and the slug is made from the
    title by [sequelize-slugify]. *)
Definition build (ext : Externals) (existing : list ArticleRow) (values : gmap string json)
    : ArticleRow :=
  let title := default "" (title_text (values !! "title")) in
  mkArticle (default (next_id (List.map a_id existing)) (num_attr values "id"))
            (default (slugify ext title (List.map a_slug existing)) (str_attr values "slug"))
            title
            (str_attr values "description")
            (Some (default default_image (str_attr values "image")))
            (str_attr values "articleBody")
            (default 0 (num_attr values "authorId"))
            (default 0 (num_attr values "categoryId"))
            (default 0 (num_attr values "likesCount"))
            (default 0 (num_attr values "dislikesCount"))
            (num_attr values "publishedAt")
            (default false (bool_attr values "isArchived")).

(** [Article.create(values)]: a validation error is thrown before the
    row is inserted. *)
Definition create (ext : Externals) (values : gmap string json) : M ArticleRow :=
  if title_ok (values !! "title")
     && is_Some_b (num_attr values "authorId") && is_Some_b (num_attr values "categoryId")
     && count_ok (values !! "likesCount") && count_ok (values !! "dislikesCount")
  then orm (fun d =>
         let row := build ext (Articles_t d) values in
         (row, set_Articles (fun l => l ++ [row]) d))
  else throw.

(** The attributes of [values] written over a row by [Article.update]:
    an attribute that is absent ([undefined]) is left as it is, and
    [null] clears a nullable one. The primary key is an attribute like
    the others: an [id] that [values] carry is written. *)
Definition assign (values : gmap string json) (a : ArticleRow) : ArticleRow :=
  let opt_over (k : string) (old : option string) : option string :=
    match values !! k with
    | Some (JStr s) => Some s
    | Some JNull => None
    | _ => old
    end in
  mkArticle (default (a_id a) (num_attr values "id"))
            (default (a_slug a) (str_attr values "slug"))
            (default (a_title a) (title_text (values !! "title")))
            (opt_over "description" (a_description a))
            (opt_over "image" (a_image a))
            (opt_over "articleBody" (a_articleBody a))
            (default (a_authorId a) (num_attr values "authorId"))
            (default (a_categoryId a) (num_attr values "categoryId"))
            (default (a_likesCount a) (num_attr values "likesCount"))
            (default (a_dislikesCount a) (num_attr values "dislikesCount"))
            (match values !! "publishedAt" with
             | Some (JNum t) => Some t
             | Some JNull => None
             | _ => a_publishedAt a
             end)
            (default (a_isArchived a) (bool_attr values "isArchived")).

(** [Article.update(values, { where, returning: true })] with an object
    of values: the values are validated, then written. *)
Definition update_values (values : gmap string json) (where_ : ArticleRow -> bool)
    : M (list ArticleRow) :=
  if (is_undefined (values !! "title") || title_ok (values !! "title"))
     && count_ok (values !! "likesCount") && count_ok (values !! "dislikesCount")
  then update (assign values) where_
  else throw.

(** [Article.findAndCountAll({ where: { authorId } })]: the number of
    the rows selected, and the rows, in the order the database hands
    them out. *)
Definition findAndCountAll (ext : Externals) (authorId : Z) : M (Z * list ArticleRow) :=
  orm (fun d =>
    let rows := List.filter (fun a => a_authorId a =? authorId) (Articles_t d) in
    ((Z.of_nat (length rows), row_order ext rows), d)).

(** [article.getCategory()], by the foreign key [categoryId]. *)
Definition getCategory (article : ArticleRow) : M (option CategoryRow) :=
  orm (fun d => (List.find (fun c => c_id c =? a_categoryId article) (Categories_t d), d)).

(** [article.getTags()], through the join table [ArticleTags]: the tags
    linked to the article, in the order the database hands them out. *)
Definition getTags (ext : Externals) (article : ArticleRow) : M (list TagRow) :=
  orm (fun d =>
    (row_order ext
       (List.filter
          (fun t => existsb (fun p => (p.1 =? a_id article) && (p.2 =? t_id t))
                            (ArticleTags_t d))
          (Tags_t d)), d)).

Definition set_categoryId (n : Z) (a : ArticleRow) : ArticleRow :=
  mkArticle (a_id a) (a_slug a) (a_title a) (a_description a) (a_image a)
            (a_articleBody a) (a_authorId a) n (a_likesCount a) (a_dislikesCount a)
            (a_publishedAt a) (a_isArchived a).

(** The JSON form of a row ([dataValues]): the attributes of
    [models/article.js]. The timestamps [createdAt] and [updatedAt] that
    the ORM adds are left out, and a date is written as the number
    [Date.now()] gave. *)
Definition dataValues (a : ArticleRow) : gmap string json :=
  list_to_map
    [ ("id", JNum (a_id a)); ("slug", JStr (a_slug a)); ("title", JStr (a_title a));
      ("description", opt_str (a_description a)); ("image", opt_str (a_image a));
      ("articleBody", opt_str (a_articleBody a)); ("authorId", JNum (a_authorId a));
      ("categoryId", JNum (a_categoryId a)); ("likesCount", JNum (a_likesCount a));
      ("dislikesCount", JNum (a_dislikesCount a));
      ("publishedAt", opt_num (a_publishedAt a)); ("isArchived", JBool (a_isArchived a)) ].

Definition reaction_json (r : Reaction) : json :=
  JObj (list_to_map
    [ ("userId", JNum (r_userId r)); ("contentType", JStr (r_contentType r));
      ("contentId", JNum (r_contentId r)) ]).

(** [Article.findOne({ where: { slug }, include: [{ model, as, where: { userId } }] })]:
    an include with a [where] is an inner join, so an article without a
    matching row is not found; the rows come back under the key [as]. *)
Definition findOne_include (slug : string) (as_ : string)
    (table : DB -> list Reaction) (userId : Z) : M (option json) :=
  orm (fun d =>
    (match List.find (fun a => String.eqb (a_slug a) slug) (Articles_t d) with
     | None => None
     | Some a =>
         match List.filter (fun r => of_article (a_id a) r && (r_userId r =? userId)) (table d) with
         | [] => None
         | rows => Some (JObj (<[as_ := JArr (List.map reaction_json rows)]> (dataValues a)))
         end
     end, d)).

End Article.

(** ** controllers/Tags.js *)

Module Tags.

(** What [Tags.create] hands to [Articles.canTag]: [false], [null], or
    an array of [Tags] rows. *)
Inductive tagArray : Type :=
| TFalse
| TNull
| TRows (rows : list TagRow).

(** [s.split(',')] *)
Fixpoint split_commas (s : string) (current : string) : list string :=
  match s with
  | EmptyString => [current]
  | String c r =>
      if Ascii.eqb c ","%char then current :: split_commas r ""
      else split_commas r (current +:+ String c "")
  end.

(** The distinct elements of a list, in the order of their first
    occurrence. *)
Fixpoint dedupe (l : list string) : list string :=
  match l with
  | [] => []
  | x :: r => x :: List.filter (fun y => negb (String.eqb x y)) (dedupe r)
  end.

(** Modelled from the spec: the tag names of a [tags] value, as
    [Tags.create] of [controllers/Tags.js] (which is not among the
    sources) takes them: the comma-separated names, deduplicated. *)
Definition tag_names (tags : value) : list string :=
  dedupe (split_commas (valueToString tags) "").

(** Modelled from the spec: the tags a list of names may not violate:
    at most 15 of them, each of at least 2 characters. *)
Definition names_ok (names : list string) : bool :=
  (length names <=? 15)%nat && forallb (fun n => (2 <=? String.length n)%nat) names.

Definition find_or_create (name : string) (acc : list TagRow * list TagRow)
    : list TagRow * list TagRow :=
  let '(rows, table) := acc in
  match List.find (fun t => String.eqb (t_name t) name) table with
  | Some t => (rows ++ [t], table)
  | None =>
      let t := mkTag (next_id (List.map t_id table)) name in
      (rows ++ [t], table ++ [t])
  end.

(** Modelled from the spec: [Tags.create(tags)] of [controllers/Tags.js]
    is not among the sources. It answers [false] for a list of names that
    breaks the cap of 15 or the minimum length of 2, and otherwise finds
    or creates the row of each name. *)
Definition create (tags : value) : M tagArray :=
  let names := tag_names tags in
  if names_ok names then
    rows ← orm (fun d =>
      let found := List.fold_left (fun acc n => find_or_create n acc) names ([], Tags_t d) in
      (found.1, set_Tags (fun _ => found.2) d));
    mret (TRows rows)
  else mret TFalse.

(** Modelled from the spec: [Tags.associateArticle(articleId, tagArray)]
    of [controllers/Tags.js] is not among the sources. It links the rows
    to the article in [ArticleTags] and answers their names; without
    rows it answers nothing. *)
Definition associateArticle (articleId : Z) (createTags : option tagArray)
    : M (option (list string)) :=
  match createTags with
  | Some (TRows rows) =>
      orm (fun d =>
        (Some (List.map t_name rows),
         set_ArticleTags (fun l =>
           l ++ List.filter (fun p => negb (existsb (fun q => (q.1 =? p.1) && (q.2 =? p.2)) l))
                  (List.map (fun t => (articleId, t_id t)) rows)) d))
  | _ => mret None
  end.

End Tags.

(** ** controllers/Articles.js *)

Module Articles.

Definition opt_json (o : option json) : json :=
  match o with Some j => j | None => JNull end.

Definition customArticleResponse (statusCode : Z) (slug : string) (userId : Z)
    (userAction : string) (message : string) : M unit :=
  let includeLikeOrDislike :=
    if String.eqb userAction "like"
    then Article.findOne_include slug "likes" Likes_t userId
    else Article.findOne_include slug "dislikes" Dislikes_t userId in
  article ←
    (if String.eqb userAction "removeLikeOrDislike"
     then a ← Article.findOne slug; mret (JObj ∘ Article.dataValues <$> a)
     else includeLikeOrDislike);
  serverResponse statusCode
    (JObj (<["article" := opt_json article]> {[ "message" := JStr message ]})).

Definition createLikeOrDislike (userAction : string) (userId : Z) (article : ArticleRow)
    : M unit :=
  let articleIdFilter := Article.where_id (a_id article) in
  (if String.eqb userAction "like"
   then Dislike.destroy userId "article" (a_id article)
   else Like.destroy userId "article" (a_id article));;
  if String.eqb userAction "like" then
    dislikesCount ← Article.countDislikes article;
    Article.update (Article.set_dislikesCount dislikesCount) (Article.where_id (a_id article));;
    Article.createLike article userId;;
    likesCount ← Article.countLikes article;
    Article.update (Article.set_likesCount likesCount) articleIdFilter;;
    mret tt
  else
    likesCount ← Article.countLikes article;
    Article.update (Article.set_likesCount likesCount) articleIdFilter;;
    Article.createDislike article userId;;
    dislikesCount ← Article.countDislikes article;
    Article.update (Article.set_dislikesCount dislikesCount) articleIdFilter;;
    mret tt.

Definition addLike (req : Request) : M unit :=
  let userId := u_id (req_user req) in
  let slug := p_slug (req_params req) in
  try_catch
    (article ← Article.findBySlug slug;
     match article with
     | None => serverResponse 404 (error_body "article not found")
     | Some article =>
         previousArticleLikes ← Article.getLikes article userId;
         if negb (length previousArticleLikes =? 0)%nat then
           serverResponse 200 (message_body "you have already liked this article")
         else
           createLikeOrDislike "like" userId article;;
           detached (customArticleResponse 201 slug userId "like" "like added successfully")
     end)
    serverError.

Definition addDislike (req : Request) : M unit :=
  let userId := u_id (req_user req) in
  let slug := p_slug (req_params req) in
  try_catch
    (article ← Article.findBySlug slug;
     match article with
     | None => serverResponse 404 (error_body "article not found")
     | Some article =>
         previousArticleDislikes ← Article.getDislikes article userId;
         if negb (length previousArticleDislikes =? 0)%nat then
           serverResponse 200 (message_body "you have already disliked this article")
         else
           createLikeOrDislike "dislike" userId article;;
           detached (customArticleResponse 201 slug userId "dislike" "dislike added successfully")
     end)
    serverError.

Definition removeLike (req : Request) : M unit :=
  let userId := u_id (req_user req) in
  let slug := p_slug (req_params req) in
  try_catch
    (article ← Article.findBySlug slug;
     match article with
     | None => serverResponse 404 (error_body "article not found")
     | Some article =>
         let articleIdFilter := Article.where_id (a_id article) in
         Like.destroy userId "article" (a_id article);;
         likesCount ← Article.countLikes article;
         Article.update (Article.set_likesCount likesCount) articleIdFilter;;
         detached (customArticleResponse 200 slug userId "removeLikeOrDislike"
                     "like removed successfully")
     end)
    serverError.

Definition removeDislike (req : Request) : M unit :=
  let userId := u_id (req_user req) in
  let slug := p_slug (req_params req) in
  try_catch
    (article ← Article.findBySlug slug;
     match article with
     | None => serverResponse 404 (error_body "article not found")
     | Some article =>
         let articleIdFilter := Article.where_id (a_id article) in
         Dislike.destroy userId "article" (a_id article);;
         dislikesCount ← Article.countDislikes article;
         Article.update (Article.set_dislikesCount dislikesCount) articleIdFilter;;
         detached (customArticleResponse 200 slug userId "removeLikeOrDislike"
                     "dislike removed successfully")
     end)
    serverError.

(** [canTag(tagArray)]: the status and body of the refusal, or nothing. *)
Definition canTag (tagArray : Tags.tagArray) : option (Z * json) :=
  match tagArray with
  | Tags.TFalse =>
      Some (400, error_body
        "tags cannot be more than 15 and each tag must be more than a character")
  | Tags.TNull => Some (400, error_body "tags should be an array of valid strings")
  | Tags.TRows rows =>
      if (length rows <? 1)%nat
         || match rows with r :: _ => t_id r =? 0 | [] => true end
      then Some (400, error_body "tags should be an array of valid strings")
      else None
  end.

Definition category_json (c : CategoryRow) : json :=
  JObj (<["name" := JStr (c_name c)]> {[ "id" := JNum (c_id c) ]}).

(** [{ ...body, image }]: a key whose value is [undefined] reads as an
    absent one. *)
Definition with_image (image : option string) (o : gmap string json) : gmap string json :=
  match image with
  | Some url => <["image" := JStr url]> o
  | None => delete "image" o
  end.

(** [status === 'draft' || articleBody === undefined ? null : Date.now()] *)
Definition publishedAt_of (body : gmap string json) (now : Z) : option Z :=
  if is_str (body !! "status") "draft" || is_undefined (body !! "articleBody")
  then None else Some now.

Section WithExternals.
Context (ext : Externals).

Definition createArticle (req : Request) : M unit :=
  try_catch
    (let file := req_file req in
     let body := req_body req in
     let id := u_id (req_user req) in
     category ← match body !! "category" with
                 | Some (JStr c) => mret (toLowerCase c)
                 | _ => throw
                 end;
     let tags := body !! "tags" in
     now ← Date_now;
     let publishedAt := publishedAt_of body now in
     categoryDetails ← Category.findOne category;
     categoryDetails ← match categoryDetails with
                        | None => Category.findOne "other"
                        | Some c => mret (Some c)
                        end;
     categoryDetails ← match categoryDetails with
                        | None => throw
                        | Some c => mret c
                        end;
     let tags :=
       if String.eqb (c_name categoryDetails) "other" && negb (String.eqb category "other")
       then Some (JStr (valueToString tags +:+ "," +:+ category))
       else tags in
     let finish (createTags : option Tags.tagArray) : M unit :=
       image ← match file with
                | Some f => url ← service (imageUpload ext f); mret (Some url)
                | None => mret None
                end;
       myArticle ← Article.create ext
         (<["categoryId" := JNum (c_id categoryDetails)]>
            (<["publishedAt" := opt_num publishedAt]>
               (<["authorId" := JNum id]> (with_image image body))));
       associateTags ← Tags.associateArticle (a_id myArticle) createTags;
       let tagList := default [] associateTags in
       serverResponse 200
         (JObj (delete "categoryId"
           (<["category" := JObj (<["name" := JStr (c_name categoryDetails)]>
                                    {[ "id" := JNum (a_categoryId myArticle) ]})]>
              (<["tagList" := JArr (JStr <$> tagList)]> (Article.dataValues myArticle))))) in
     if truthy tags then
       createTags ← Tags.create tags;
       match canTag createTags with
       | Some error => serverResponse error.1 error.2
       | None => finish (Some createTags)
       end
     else finish None)
    serverError.

Definition update (req : Request) : M unit :=
  try_catch
    (let file := req_file req in
     let body := req_body req in
     let id := u_id (req_user req) in
     (if (size body =? 0)%nat
      then serverResponse 422 (error_body "request body should not be empty")
      else mret tt);;
     let category := body !! "category" in
     let tags := body !! "tags" in
     let slug := p_slug (req_params req) in
     articleDetails ← Article.findBySlug slug;
     match articleDetails with
     | None => serverResponse 404 (error_body "article not found")
     | Some articleDetails =>
       if a_isArchived articleDetails
       then serverResponse 404 (error_body "article not found")
       else
         resolved ←
           (if truthy category then
              category ← match category with
                          | Some (JStr c) => mret (toLowerCase c)
                          | _ => throw
                          end;
              categoryDetails ← Category.findOne category;
              categoryDetails ← match categoryDetails with
                                 | None => Category.findOne "other"
                                 | Some c => mret (Some c)
                                 end;
              categoryDetails ← match categoryDetails with
                                 | None => throw
                                 | Some c => mret c
                                 end;
              let tags :=
                if String.eqb (c_name categoryDetails) "other"
                   && negb (String.eqb category "other")
                then Some (JStr (valueToString tags +:+ "," +:+ category))
                else tags in
              mret (Article.set_categoryId (c_id categoryDetails) articleDetails, tags)
            else mret (articleDetails, tags));
         let articleDetails := resolved.1 in
         let tags := resolved.2 in
         let finish : M unit :=
           image ← match file with
                    | Some f => url ← service (imageUpload ext f); mret (Some url)
                    | None => mret None
                    end;
           now ← Date_now;
           let publishedAt := publishedAt_of body now in
           updated ← Article.update_values
             (<["categoryId" := JNum (a_categoryId articleDetails)]>
                (with_image image (<["publishedAt" := opt_num publishedAt]> body)))
             (fun a => String.eqb (a_slug a) slug && (a_authorId a =? id));
           match updated with
           | [] => serverResponse 403 (message_body "article not updated")
           | first :: _ =>
               let updatedArticle := Article.dataValues first in
               aritcleCategory ← Article.getCategory articleDetails;
               updatedTags ← Article.getTags ext articleDetails;
               serverResponse 200
                 (JObj (<["category" := opt_json (category_json <$> aritcleCategory)]>
                          (<["tagList" := JArr (JStr ∘ t_name <$> updatedTags)]> updatedArticle)))
           end in
         if truthy tags then
           createTags ← Tags.create tags;
           match canTag createTags with
           | Some error => serverResponse error.1 error.2
           | None => Tags.associateArticle (a_id articleDetails) (Some createTags);; finish
           end
         else finish
     end)
    serverError.

Definition userArticles (req : Request) : M unit :=
  try_catch
    (userArticle ← Article.findAndCountAll ext (u_id (req_user req));
     serverResponse 200
       (JObj {[ "articles" :=
                JObj (<["data" := JArr (JObj ∘ Article.dataValues <$> userArticle.2)]>
                        {[ "total" := JNum userArticle.1 ]}) ]}))
    serverError.

End WithExternals.

End Articles.

(** ** The User, Session and ResetPassword models *)

Module User.

Definition dataValues (u : UserRow) : gmap string json :=
  <["id" := JNum (usr_id u)]> (usr_values u).

(** The first row whose attribute [attr] is the string [v]. *)
Definition find_by (attr : string) (v : value) (users : list UserRow) : option UserRow :=
  match v with
  | Some (JStr e) => List.find (fun u => is_str (usr_values u !! attr) e) users
  | _ => None
  end.

(** Modelled from the spec: [User.findByEmail] of [models/user.js] is not
    among the sources; it finds the user an email belongs to. *)
Definition findByEmail (email : value) : M (option UserRow) :=
  orm (fun d => (find_by "email" email (Users_t d), d)).

(** Modelled from the spec: [User.findByUsername] of [models/user.js] is
    not among the sources; it finds the user a user name belongs to. *)
Definition findByUsername (userName : value) : M (option UserRow) :=
  orm (fun d => (find_by "userName" userName (Users_t d), d)).

(** [User.create(values)]: the row gets the next serial primary key. *)
Definition create (values : gmap string json) : M UserRow :=
  orm (fun d =>
    let row := mkUser (next_id (List.map usr_id (Users_t d))) values in
    (row, set_Users (fun l => l ++ [row]) d)).

(** [User.update(values, { where })]: [values] is written over the
    selected rows. *)
Definition update (values : gmap string json) (where_ : UserRow -> bool) : M unit :=
  orm (fun d =>
    (tt, set_Users (List.map (fun u =>
           if where_ u then mkUser (usr_id u) (values ∪ usr_values u) else u)) d)).

(** Modelled from the spec: [User.updatePasswordById] of [models/user.js]
    is not among the sources; it stores the password of the user [id]. *)
Definition updatePasswordById (id : Z) (password : string) : M unit :=
  update {[ "password" := JStr password ]} (fun u => usr_id u =? id).

End User.

Module Session.

(** [Session.create(values)] *)
Definition create (row : SessionRow) : M unit :=
  orm (fun d => (tt, set_Sessions (fun l => l ++ [row]) d)).

(** Modelled from the spec: [Session.revokeAll] of [models/session.js] is
    not among the sources; it revokes the sessions of a user. *)
Definition revokeAll (userId : Z) : M unit :=
  orm (fun d =>
    (tt, set_Sessions (List.map (fun s =>
           if s_userId s =? userId
           then mkSession (s_userId s) (s_token s) (s_expiresAt s) (s_userAgent s)
                          (s_ipAddress s) (s_devicePlatform s) (Some false)
           else s)) d)).

End Session.

Module ResetPassword.

(** [ResetPassword.create({ token, userId })] *)
Definition create (token : string) (userId : Z) : M unit :=
  orm (fun d => (tt, set_ResetPasswords (fun l => l ++ [mkResetPassword token userId]) d)).

(** [ResetPassword.findOne({ where: { token } })] *)
Definition findOne (token : string) : M (option ResetPasswordRow) :=
  orm (fun d => (List.find (fun r => String.eqb (rp_token r) token) (ResetPasswords_t d), d)).

(** [ResetPassword.destroy({ where: { token } })] *)
Definition destroy (token : string) : M unit :=
  orm (fun d =>
    (tt, set_ResetPasswords (List.filter (fun r => negb (String.eqb (rp_token r) token))) d)).

End ResetPassword.

(** [bcrypt.hash(data, rounds)]: rejects data that is not a string. *)
Definition bcrypt_hash_call (ext : Externals) (data : value) (rounds : Z) : M string :=
  match data with
  | Some (JStr s) => service (bcrypt_hash ext s rounds)
  | _ => throw
  end.

(** ** controllers/Users.js *)

Module Users.

Section WithExternals.
Context (ext : Externals).

(** [Users.create] of [server/controllers/Users.js]. The verification
    email is sent without being awaited and does not touch the tables or
    the response. *)
Definition create (req : Request) : M unit :=
  try_catch
    (byEmail ← User.findByEmail (req_body req !! "email");
     if is_Some_b byEmail then
       serverResponse 409 (error_body "email has already been taken")
     else
       byUsername ← User.findByUsername (req_body req !! "userName");
       if is_Some_b byUsername then
         serverResponse 409 (error_body "username has already been taken")
       else
         hashedPassword ← bcrypt_hash_call ext (req_body req !! "password") 10;
         user ← User.create (<["password" := JStr hashedPassword]> (req_body req));
         let '(devicePlatform, userAgent) := getUserAgent ext req in
         let id := usr_id user in
         let token := generateToken ext id "24h" in
         let expiresAt := expiryDate ext devicePlatform in
         Session.create (mkSession id token expiresAt userAgent (req_ip req) devicePlatform None);;
         res_set "Authorization" token;;
         let dataValues := delete "password" (User.dataValues user) in
         serverResponse 201
           (JObj (<["token" := JStr token]> {[ "user" := JObj dataValues ]})))
    serverError.

(** [Users.create] as the later revision of the controller has it: the
    answer is left to the helper [userResponse], which is not among the
    sources and is taken as a parameter. *)
Definition create_revised (userResponse : Z -> UserRow -> string -> M unit)
    (req : Request) : M unit :=
  try_catch
    (byEmail ← User.findByEmail (req_body req !! "email");
     if is_Some_b byEmail then
       serverResponse 409 (error_body "email has already been taken")
     else
       byUsername ← User.findByUsername (req_body req !! "userName");
       if is_Some_b byUsername then
         serverResponse 409 (error_body "username has already been taken")
       else
         hashedPassword ← bcrypt_hash_call ext (req_body req !! "password") 10;
         user ← User.create (<["password" := JStr hashedPassword]> (req_body req));
         let '(devicePlatform, userAgent) := getUserAgent ext req in
         let id := usr_id user in
         let token := generateToken ext id "24h" in
         let expiresAt := expiryDate ext devicePlatform in
         Session.create (mkSession id token expiresAt userAgent (req_ip req) devicePlatform None);;
         res_set "Authorization" token;;
         userResponse 201 user token)
    serverError.

Definition verifyUserEmail (req : Request) : M unit :=
  try_catch
    (let user := req_user req in
     if u_verified user then
       serverResponse 200 (message_body "email already verified")
     else
       User.update {[ "verified" := JBool true ]}
         (fun u => is_str (usr_values u !! "email") (u_email user));;
       serverResponse 200 (message_body "email verification successful"))
    serverError.

Definition resendVerificationEmail (req : Request) : M unit :=
  try_catch
    (let email := p_email (req_params req) in
     user ← User.findByEmail (Some (JStr email));
     match user with
     | None => serverResponse 404 (error_body "user not found")
     | Some user =>
         let token := generateToken ext (usr_id user) "24h" in
         serverResponse 200 (message_body "email sent successfully")
     end)
    serverError.

Definition requestPasswordResetLink (req : Request) : M unit :=
  try_catch
    (let email := req_body req !! "email" in
     user ← User.findByEmail email;
     match user with
     | None => serverResponse 404 (message_body "email address not found")
     | Some user =>
         let id := usr_id user in
         let token := generateToken ext id "1h" in
         ResetPassword.create token id;;
         Session.revokeAll id;;
         serverResponse 200 (message_body "password reset link sent")
     end)
    serverError.

Definition changePassword (req : Request) : M unit :=
  let password := req_body req !! "password" in
  let id := u_id (req_user req) in
  hashedPassword ← bcrypt_hash_call ext password 10;
  User.update {[ "password" := JStr hashedPassword ]} (fun u => usr_id u =? id);;
  serverResponse 200 (message_body "password changed successfully").

Definition resetPassword (req : Request) : M unit :=
  try_catch
    (let password := req_body req !! "password" in
     let token := p_token (req_params req) in
     id ← service (verifyResetPasswordToken ext token);
     match id with
     | None => serverResponse 401 (error_body "link has expired or is invalid")
     | Some id =>
         resetToken ← ResetPassword.findOne token;
         if negb (is_Some_b resetToken) then
           serverResponse 401 (error_body "link has been used")
         else
           hashedPassword ← bcrypt_hash_call ext password 10;
           User.updatePasswordById id hashedPassword;;
           ResetPassword.destroy token;;
           serverResponse 200 (message_body "password reset successful")
     end)
    serverError.

End WithExternals.

End Users.

(** ** Vocabulary of the specification: likes and dislikes *)

(** The number of [Likes] and of [Dislikes] rows of an article. *)
Definition likes_of (d : DB) (articleId : Z) : Z :=
  Z.of_nat (length (List.filter (of_article articleId) (Likes_t d))).

Definition dislikes_of (d : DB) (articleId : Z) : Z :=
  Z.of_nat (length (List.filter (of_article articleId) (Dislikes_t d))).

(** The stored counts of an article row agree with the rows. *)
Definition counts_match (d : DB) (a : ArticleRow) : Prop :=
  a_likesCount a = likes_of d (a_id a) /\ a_dislikesCount a = dislikes_of d (a_id a).

Definition counts_consistent (d : DB) : Prop :=
  forall a, In a (Articles_t d) -> counts_match d a.

(** The rows of a reaction table that a user holds on an article. *)
Definition held_in (table : list Reaction) (userId articleId : Z) : nat :=
  length (List.filter (fun r => of_article articleId r && (r_userId r =? userId)) table).

Definition held (d : DB) (userId articleId : Z) : nat :=
  (held_in (Likes_t d) userId articleId + held_in (Dislikes_t d) userId articleId)%nat.

Definition at_most_one (d : DB) : Prop :=
  forall userId articleId, (held d userId articleId <= 1)%nat.

(** The four like and dislike operations, and runs of them: each request
    is served on the world the previous one left. *)
Inductive LikeOp : Type := AddLike | AddDislike | RemoveLike | RemoveDislike.

Definition like_controller (o : LikeOp) : Request -> M unit :=
  match o with
  | AddLike => Articles.addLike
  | AddDislike => Articles.addDislike
  | RemoveLike => Articles.removeLike
  | RemoveDislike => Articles.removeDislike
  end.

Definition serve (w : World) (x : LikeOp * Request) : World :=
  (like_controller x.1 x.2 w).2.

Definition serve_all (l : list (LikeOp * Request)) (w : World) : World :=
  List.fold_left serve l w.

(** The article a request addresses by its slug. *)
Definition target (req : Request) (d : DB) : option ArticleRow :=
  List.find (fun a => String.eqb (a_slug a) (p_slug (req_params req))) (Articles_t d).

(** The elementary effects of the like and dislike operations on the
    tables. *)
Definition drop_reactions (userId articleId : Z) (t : list Reaction) : list Reaction :=
  List.filter (fun r => negb (reaction_where userId "article" articleId r)) t.

Definition put_reaction (userId articleId : Z) (t : list Reaction) : list Reaction :=
  t ++ [mkReaction userId "article" articleId].

Definition recount_likes (articleId : Z) (d : DB) : DB :=
  set_Articles (List.map (fun a =>
    if Article.where_id articleId a
    then Article.set_likesCount (likes_of d articleId) a else a)) d.

Definition recount_dislikes (articleId : Z) (d : DB) : DB :=
  set_Articles (List.map (fun a =>
    if Article.where_id articleId a
    then Article.set_dislikesCount (dislikes_of d articleId) a else a)) d.

Definition like_db (userId articleId : Z) (d : DB) : DB :=
  recount_likes articleId
    (set_Likes (put_reaction userId articleId)
       (recount_dislikes articleId
          (set_Dislikes (drop_reactions userId articleId) d))).

Definition dislike_db (userId articleId : Z) (d : DB) : DB :=
  recount_dislikes articleId
    (set_Dislikes (put_reaction userId articleId)
       (recount_likes articleId
          (set_Likes (drop_reactions userId articleId) d))).

Definition unlike_db (userId articleId : Z) (d : DB) : DB :=
  recount_likes articleId (set_Likes (drop_reactions userId articleId) d).

Definition undislike_db (userId articleId : Z) (d : DB) : DB :=
  recount_dislikes articleId (set_Dislikes (drop_reactions userId articleId) d).

(** What a like or dislike operation that runs without a fault leaves in
    the tables. *)
Definition like_effect (o : LikeOp) (req : Request) (d : DB) : DB :=
  let userId := u_id (req_user req) in
  match target req d with
  | None => d
  | Some a =>
      match o with
      | AddLike =>
          if (held_in (Likes_t d) userId (a_id a) =? 0)%nat
          then like_db userId (a_id a) d else d
      | AddDislike =>
          if (held_in (Dislikes_t d) userId (a_id a) =? 0)%nat
          then dislike_db userId (a_id a) d else d
      | RemoveLike => unlike_db userId (a_id a) d
      | RemoveDislike => undislike_db userId (a_id a) d
      end
  end.

(** ** Vocabulary of the specification: creating and updating articles *)

(** The rows an update request of a user may write: the article of the
    slug, when the user is its author. *)
Definition own_article (req : Request) (a : ArticleRow) : bool :=
  String.eqb (a_slug a) (p_slug (req_params req)) && (a_authorId a =? u_id (req_user req)).

(** The claim about [publishedAt], in the words of the specification: it
    is null exactly when the status of the request body is 'draft' or
    its [articleBody] is absent, and otherwise the current time. *)
Definition draft_or_no_body (body : gmap string json) : Prop :=
  body !! "status" = Some (JStr "draft") \/ body !! "articleBody" = None.

Definition publishedAt_spec (body : gmap string json) (now : Z) (p : option Z) : Prop :=
  (p = None <-> draft_or_no_body body) /\ (~ draft_or_no_body body -> p = Some now).

(** The category a request for the category [c] resolves to. *)
Definition resolve_category (categories : list CategoryRow) (c : string)
    : option CategoryRow :=
  match List.find (fun x => String.eqb (c_name x) (toLowerCase c)) categories with
  | Some cd => Some cd
  | None => List.find (fun x => String.eqb (c_name x) "other") categories
  end.

(** A request with another body. *)
Definition with_body (body : gmap string json) (req : Request) : Request :=
  mkRequest body (req_params req) (req_user req) (req_file req) (req_ip req)
            (req_userAgent req).

(** The request the fallback amounts to: the category 'other' is named
    and the lowercased name of the category asked for is appended to the
    tags, which [+=] turns into text first: a string is taken as it is,
    an array as its elements joined by commas, and absent tags as
    'undefined'. *)
Definition fallback_request (c : string) (req : Request) : Request :=
  with_body (<["tags" := JStr (valueToString (req_body req !! "tags") +:+ "," +:+ toLowerCase c)]>
               (<["category" := JStr "other"]> (req_body req))) req.

(** Two objects that agree on every key but [tags] and [category]. *)
Definition attrs_agree (m m' : gmap string json) : Prop :=
  forall k, k <> "tags" -> k <> "category" -> m !! k = m' !! k.



(** The answer to a tag list that violates the cap or the minimum
    length. *)
Definition tags_refusal : Response :=
  mkResponse 400
    (error_body "tags cannot be more than 15 and each tag must be more than a character").

(** ** Vocabulary of the specification: users *)

(** What a user-creation request for a taken email must leave behind. *)
Definition email_taken_post (w : World) (r : Result unit) (w' : World) : Prop :=
  r = Ok tt /\ db w' = db w
  /\ (next_fault w = false ->
      sent w' = sent w ++ [mkResponse 409 (error_body "email has already been taken")]).

(** ** Vocabulary of the specification: response envelopes *)

(** A field of the body of a response. *)
Definition field (k : string) (r : Response) : option json :=
  match body r with JObj o => o !! k | _ => None end.

(** The status codes the specification lists, and the ones the
    controllers answer with. *)
Definition listed_status (s : Z) : bool :=
  existsb (Z.eqb s) [200; 201; 401; 403; 404; 409; 422; 500].

Definition answered_status (s : Z) : bool :=
  existsb (Z.eqb s) [200; 201; 400; 401; 403; 404; 409; 422; 500].

(** [{ error }] *)
Definition error_envelope (b : json) : Prop := exists text, b = error_body text.

(** [{ message }] or [{ message, article }] *)
Definition message_envelope (b : json) : Prop :=
  (exists text, b = message_body text)
  \/ (exists text article, b = JObj (<["article" := article]> {[ "message" := JStr text ]})).

(** An object that is the resource itself, with neither a [message] nor
    an [error]. *)
Definition bare_resource (b : json) : Prop :=
  exists o, b = JObj o /\ o !! "error" = None /\ o !! "message" = None.

(** The envelope of a response, as the controllers build it. *)
Definition envelope (r : Response) : Prop :=
  answered_status (status r) = true
  /\ ((error_envelope (body r)
       /\ existsb (Z.eqb (status r)) [400; 401; 404; 409; 422; 500] = true)
      \/ (message_envelope (body r)
          /\ existsb (Z.eqb (status r)) [200; 201; 403; 404] = true)
      \/ (bare_resource (body r) /\ existsb (Z.eqb (status r)) [200; 201] = true)).

(** ** Vocabulary of the specification: the tags of a request *)








(** The controller operations of [Articles.js] and [Users.js] that answer
    through [serverResponse] and [serverError]. *)
Inductive Operation : Type :=
| CreateArticle | UpdateArticle | UserArticles | LikeOrDislike (o : LikeOp)
| CreateUser | VerifyUserEmail | ResendVerificationEmail
| RequestPasswordResetLink | ChangePassword | ResetPassword.

Definition operation (ext : Externals) (k : Operation) : Request -> M unit :=
  match k with
  | CreateArticle => Articles.createArticle ext
  | UpdateArticle => Articles.update ext
  | UserArticles => Articles.userArticles ext
  | LikeOrDislike o => like_controller o
  | CreateUser => Users.create ext
  | VerifyUserEmail => Users.verifyUserEmail
  | ResendVerificationEmail => Users.resendVerificationEmail ext
  | RequestPasswordResetLink => Users.requestPasswordResetLink ext
  | ChangePassword => Users.changePassword ext
  | ResetPassword => Users.resetPassword ext
  end.

(** Every response a run has added is an envelope. *)
Definition only_envelopes (w w' : World) : Prop :=
  forall r, In r (sent w') -> In r (sent w) \/ envelope r.

(** ** Weakest preconditions and equal runs *)

Definition wp {A} (m : M A) (w : World) (Q : Result A -> World -> Prop) : Prop :=
  Q (m w).1 (m w).2.

(** Two computations that do the same on every world. *)
Definition same_run {A} (m m' : M A) : Prop := forall w, m w = m' w.

(** ** Sample data *)

Definition sample_ext : Externals :=
  mkExternals
    (fun password rounds => "$2a$" +:+ pretty rounds +:+ "$" +:+ password)
    (fun id expiresIn => "token-" +:+ pretty id +:+ "-" +:+ expiresIn)
    (fun _ => 86400000)
    (fun req => ("web", req_userAgent req))
    (fun file => "http://images.example/" +:+ file)
    (fun title _ => toLowerCase title)
    (fun token => if String.eqb token "reset-1" then Some 7 else None)
    (fun _ rows => List.rev rows).

Definition sample_article : ArticleRow :=
  mkArticle 1 "hello" "Hello" None (Some Article.default_image) (Some "text") 7 1 0 0
            (Some 1000) false.

Definition sample_user : UserRow :=
  mkUser 7 (<["userName" := JStr "ann"]> {[ "email" := JStr "ann@example.com" ]}).

Definition sample_db : DB :=
  mkDB [sample_article] [] [] [mkCategory 1 "tech"; mkCategory 2 "other"] [] []
       [sample_user] [] [].

(** The sample tables after the user 7 has liked the article 1. *)
Definition liked_db : DB :=
  mkDB [Article.set_likesCount 1 sample_article] [mkReaction 7 "article" 1] []
       [mkCategory 1 "tech"; mkCategory 2 "other"] [] [] [sample_user] [] [].

(** The sample tables after the user 7 has disliked the article 1. *)
Definition disliked_db : DB :=
  mkDB [Article.set_dislikesCount 1 sample_article] [] [mkReaction 7 "article" 1]
       [mkCategory 1 "tech"; mkCategory 2 "other"] [] [] [sample_user] [] [].

Definition sample_request (body : gmap string json) : Request :=
  mkRequest body (mkParams "hello" "ann@example.com" "reset-1")
            (mkReqUser 7 "ann@example.com" false) None "10.0.0.1" "agent".

Definition sample_world (d : DB) (fs : list bool) : World := mkWorld d fs [] [] 5000.

Definition like_request : Request := sample_request ∅.

(** A request for a category that does not exist, 'Sports'. *)
Definition sports_request : Request :=
  sample_request
    (<["category" := JStr "Sports"]>
       (<["tags" := JStr "js,css"]>
          (<["articleBody" := JStr "text"]> {[ "title" := JStr "Match report" ]}))).

(** A request whose tags hold a name of one character. *)
Definition short_tag_request : Request :=
  sample_request
    (<["category" := JStr "tech"]>
       (<["tags" := JStr "js,c"]>
          (<["articleBody" := JStr "text"]> {[ "title" := JStr "Match report" ]}))).

(** The request for 'Sports' with its tags as an array. *)
Definition sports_array_request : Request :=
  sample_request
    (<["category" := JStr "Sports"]>
       (<["tags" := JArr [JStr "js"; JStr "css"]]>
          (<["articleBody" := JStr "text"]> {[ "title" := JStr "Match report" ]}))).




Definition signup_request (email : string) : Request :=
  sample_request
    (<["password" := JStr "secret12"]>
       (<["userName" := JStr "bob"]> {[ "email" := JStr email ]})).

Definition retitle_request : Request :=
  sample_request {[ "title" := JStr "New title" ]}.

Definition last_body (w : World) : json :=
  match last (sent w) with
  | Some r => body r
  | None => JNull
  end.

Definition signup_answer : json :=
  Eval vm_compute in
    last_body (Users.create sample_ext (signup_request "bob@example.com")
                 (sample_world sample_db [])).2.

Definition sports_answer : json :=
  Eval vm_compute in
    last_body (Articles.createArticle sample_ext sports_request (sample_world sample_db [])).2.

Definition retitle_answer : json :=
  Eval vm_compute in
    last_body (Articles.update sample_ext retitle_request (sample_world sample_db [])).2.

(** ** helpers/findUser *)

(** [/\D/.test(s)]: some character of [s] is not a decimal digit. *)
Definition is_digit (c : ascii) : bool :=
  let n := N_of_ascii c in ((48 <=? n) && (n <=? 57))%N.

Fixpoint non_digit_test (s : string) : bool :=
  match s with
  | EmptyString => false
  | String c r => negb (is_digit c) || non_digit_test r
  end.

(** The characters the pattern [.] does not match: the line terminators.
    Of these, the line feed and the carriage return are characters of
    the strings of this development; U+2028 and U+2029 are not. *)
Definition line_break (c : ascii) : bool :=
  let n := N_of_ascii c in ((n =? 10) || (n =? 13))%N.

(** [s] goes on with a dot after [skipped] characters already taken by
    [.{2,15}]: the dot comes when between 2 and 15 characters have been
    taken, none of them a line break. *)
Fixpoint dot_follows (skipped : nat) (s : string) : bool :=
  match s with
  | EmptyString => false
  | String c r =>
      (Ascii.eqb c "."%char && (2 <=? skipped)%nat && (skipped <=? 15)%nat)
      || (negb (line_break c) && (skipped <? 15)%nat && dot_follows (S skipped) r)
  end.

(** [/@.{2,15}\./.test(s)] *)
Fixpoint at_dot_test (s : string) : bool :=
  match s with
  | EmptyString => false
  | String c r => (Ascii.eqb c "@"%char && dot_follows 0 r) || at_dot_test r
  end.

(** [findUser(parameter)] of the helper file: the attribute the user is
    looked up by, and the lookup [User.findOne({ where: param })]. *)
Definition findUser_attr (parameter : string) : string :=
  if non_digit_test parameter && at_dot_test parameter then "email" else "userName".

Definition findUser (parameter : string) : M (option UserRow) :=
  orm (fun d => (User.find_by (findUser_attr parameter) (Some (JStr parameter)) (Users_t d), d)).

(** The pattern [/@.{2,15}\./] in words: an [@], then between 2 and 15
    characters that are not line breaks, then a dot. *)
Definition no_line_break (s : string) : Prop :=
  forall c, In c (list_ascii_of_string s) -> line_break c = false.

Definition at_dot_spec (s : string) : Prop :=
  exists pre mid post,
    s = pre +:+ "@" +:+ mid +:+ "." +:+ post
    /\ (2 <= String.length mid <= 15)%nat /\ no_line_break mid.

(** ** Vocabulary of the further properties *)

(** An article row without its two counts. *)
Definition without_counts (a : ArticleRow) : ArticleRow :=
  Article.set_likesCount 0 (Article.set_dislikesCount 0 a).

(** The tables [d'] differ from [d] at most in the reactions of the user
    on the article and in the two counts of that article. *)
Definition same_but_reactions (userId articleId : Z) (d d' : DB) : Prop :=
  drop_reactions userId articleId (Likes_t d') = drop_reactions userId articleId (Likes_t d)
  /\ drop_reactions userId articleId (Dislikes_t d')
     = drop_reactions userId articleId (Dislikes_t d)
  /\ List.map without_counts (Articles_t d') = List.map without_counts (Articles_t d)
  /\ List.filter (fun x => negb (Article.where_id articleId x)) (Articles_t d')
     = List.filter (fun x => negb (Article.where_id articleId x)) (Articles_t d)
  /\ Categories_t d' = Categories_t d /\ Tags_t d' = Tags_t d
  /\ ArticleTags_t d' = ArticleTags_t d /\ Users_t d' = Users_t d
  /\ Sessions_t d' = Sessions_t d /\ ResetPasswords_t d' = ResetPasswords_t d.

(** ** Further sample data *)

(** A request for a slug that no article has. *)
Definition missing_request : Request :=
  mkRequest {[ "title" := JStr "New title" ]} (mkParams "nothing" "nobody@example.com" "reset-0")
            (mkReqUser 7 "ann@example.com" false) None "10.0.0.1" "agent".

(** The requests of another user, 8, and of a user who is verified. *)
Definition other_user_request : Request :=
  mkRequest {[ "title" := JStr "New title" ]} (mkParams "hello" "ann@example.com" "reset-1")
            (mkReqUser 8 "bob@example.com" false) None "10.0.0.1" "agent".

Definition verified_request : Request :=
  mkRequest ∅ (mkParams "hello" "ann@example.com" "reset-1")
            (mkReqUser 7 "ann@example.com" true) None "10.0.0.1" "agent".

(** A create-article request with a title of one character. *)
Definition short_title_request : Request :=
  sample_request (<["category" := JStr "tech"]> {[ "title" := JStr "x" ]}).

(** A sign-up with a free email and the user name of the sample user. *)
Definition ann_again_request : Request :=
  sample_request
    (<["password" := JStr "secret12"]>
       (<["userName" := JStr "ann"]> {[ "email" := JStr "new@example.com" ]})).

(** The sample tables with the reset token of the user 7, and the
    requests that use it and that ask for a link. *)
Definition reset_db : DB :=
  mkDB [sample_article] [] [] [mkCategory 1 "tech"; mkCategory 2 "other"] [] []
       [sample_user] [] [mkResetPassword "reset-1" 7].

Definition new_password_request : Request :=
  sample_request {[ "password" := JStr "new-secret" ]}.

Definition link_request : Request :=
  sample_request {[ "email" := JStr "ann@example.com" ]}.

(** Externals whose verification accepts the one-hour token of the
    user 7, and the request that carries this token. *)
Definition link_ext : Externals :=
  mkExternals (bcrypt_hash sample_ext) (generateToken sample_ext) (expiryDate sample_ext)
    (getUserAgent sample_ext) (imageUpload sample_ext) (slugify sample_ext)
    (fun token => if String.eqb token "token-7-1h" then Some 7 else None)
    (@row_order sample_ext).

Definition use_link_request : Request :=
  mkRequest {[ "password" := JStr "new-secret" ]}
            (mkParams "hello" "ann@example.com" "token-7-1h")
            (mkReqUser 7 "ann@example.com" false) None "10.0.0.1" "agent".

(** An update request with a title of one character. *)
Definition short_retitle_request : Request :=
  sample_request {[ "title" := JStr "x" ]}.


(** * Verification *)

(** ** Rules of the weakest-precondition calculus *)

Section WpRules.
Context {A B : Type}.
Implicit Types (w : World) (Q : Result B -> World -> Prop).

Lemma wp_ret (a : B) w Q : Q (Ok a) w -> wp (mret a) w Q.
Proof. done. Qed.

Lemma wp_throw w Q : Q Throw w -> wp throw w Q.
Proof. done. Qed.

Lemma wp_bind (m : M A) (k : A -> M B) w Q :
  wp m w (fun r w' => match r with Ok a => wp (k a) w' Q | Throw => Q Throw w' end) ->
  wp (m ≫= k) w Q.
Proof.
  unfold wp, mbind, M_bind. destruct (m w) as [[a|] w']; done.
Qed.

Lemma wp_try_catch (m h : M B) w Q :
  wp m w (fun r w' => match r with Ok a => Q (Ok a) w' | Throw => wp h w' Q end) ->
  wp (try_catch m h) w Q.
Proof.
  unfold wp, try_catch. destruct (m w) as [[a|] w']; done.
Qed.

Lemma wp_detached (m : M B) w (Q : Result unit -> World -> Prop) :
  wp m w (fun _ w' => Q (Ok tt) w') -> wp (detached m) w Q.
Proof.
  unfold wp, detached. destruct (m w) as [r w']; done.
Qed.

(** An ORM call under the empty fault plan does not throw. *)
Lemma wp_orm_quiet (q : DB -> B * DB) d s h c Q :
  Q (Ok (q d).1) (mkWorld (q d).2 [] s h c) ->
  wp (orm q) (mkWorld d [] s h c) Q.
Proof.
  unfold wp, orm. cbn. destruct (q d); done.
Qed.

(** An ORM call under any fault plan: it throws or it runs. *)
Lemma wp_orm (q : DB -> B * DB) w Q :
  (next_fault w = true -> Q Throw (with_faults (tail (faults w)) w)) ->
  (next_fault w = false ->
   Q (Ok (q (db w)).1) (with_db (q (db w)).2 (with_faults (tail (faults w)) w))) ->
  wp (orm q) w Q.
Proof.
  unfold wp, orm. destruct (next_fault w); intros H1 H2.
  - by apply H1.
  - specialize (H2 eq_refl). by destruct (q (db w)).
Qed.

Lemma wp_mono (m : M B) w Q (Q' : Result B -> World -> Prop) :
  wp m w Q -> (forall r w', Q r w' -> Q' r w') -> wp m w Q'.
Proof. unfold wp. auto. Qed.

End WpRules.

Lemma wp_serverResponse code payload w (Q : Result unit -> World -> Prop) :
  Q (Ok tt) (mkWorld (db w) (faults w) (sent w ++ [mkResponse code payload]) (headers w) (clock w)) ->
  wp (serverResponse code payload) w Q.
Proof. done. Qed.

Lemma wp_res_set name v w (Q : Result unit -> World -> Prop) :
  Q (Ok tt) (mkWorld (db w) (faults w) (sent w) ((name, v) :: headers w) (clock w)) ->
  wp (res_set name v) w Q.
Proof. done. Qed.

Lemma wp_Date_now w (Q : Result Z -> World -> Prop) :
  Q (Ok (clock w)) w -> wp Date_now w Q.
Proof. done. Qed.

Ltac head_of t :=
  lazymatch t with
  | ?f _ => head_of f
  | _ => t
  end.

Ltac wp_unfold :=
  lazymatch goal with
  | |- wp ?m ?w ?Q =>
      let h := head_of m in
      let m' := eval cbv beta delta [h] in m in
      change (wp m' w Q)
  end.

Ltac wp_simpl := cbn [fst snd db faults sent headers clock with_db with_faults].

(** One step of symbolic execution under the empty fault plan. *)
Ltac wp_step :=
  lazymatch goal with
  | |- wp (mbind _ _) _ _ => apply wp_bind
  | |- wp (mret _) _ _ => apply wp_ret
  | |- wp throw _ _ => apply wp_throw
  | |- wp (try_catch _ _) _ _ => apply wp_try_catch
  | |- wp (detached _) _ _ => apply wp_detached
  | |- wp (orm _) (mkWorld _ [] _ _ _) _ => apply wp_orm_quiet; wp_simpl
  | |- wp (serverResponse _ _) _ _ => apply wp_serverResponse; wp_simpl
  | |- wp (res_set _ _) _ _ => apply wp_res_set; wp_simpl
  | |- wp Date_now _ _ => apply wp_Date_now; wp_simpl
  | |- wp (if String.eqb ?a ?b then _ else _) _ _ =>
      let v := eval vm_compute in (String.eqb a b) in
      change (String.eqb a b) with v; cbv iota
  | |- wp (match _ with _ => _ end) _ _ => fail
  | |- wp (let _ := _ in _) _ _ => cbv zeta
  | |- wp _ _ _ => wp_unfold
  end.

(** ** Likes and dislikes: what a fault-free operation does *)

Lemma like_controller_quiet o req d s h c :
  exists s', like_controller o req (mkWorld d [] s h c)
             = (Ok tt, mkWorld (like_effect o req d) [] s' h c).
Proof.
  assert (H : wp (like_controller o req) (mkWorld d [] s h c)
                (fun r w' => exists s', (r, w') = (Ok tt, mkWorld (like_effect o req d) [] s' h c))).
  2: { unfold wp in H. destruct H as [s' H]. exists s'. rewrite <- H.
       by destruct (like_controller _ _ _). }
  unfold like_effect, target.
  destruct o; cbn [like_controller]; repeat wp_step.
  all: destruct (List.find _ (Articles_t d)) as [a|]; repeat wp_step;
    try (eexists; reflexivity).
  all: fold (held_in (Likes_t d) (u_id (req_user req)) (a_id a));
       fold (held_in (Dislikes_t d) (u_id (req_user req)) (a_id a)).
  - destruct (held_in (Likes_t d) _ _ =? 0)%nat; cbn [negb];
      repeat wp_step; eexists; reflexivity.
  - destruct (held_in (Dislikes_t d) _ _ =? 0)%nat; cbn [negb];
      repeat wp_step; eexists; reflexivity.
Qed.

(** ** Reaction tables under the elementary effects *)

Lemma filter_filter_absorb {A} (p q : A -> bool) (l : list A) :
  (forall x, p x = true -> q x = true) ->
  List.filter p (List.filter q l) = List.filter p l.
Proof.
  intros Hpq. induction l as [|x l IH]; [done|].
  cbn [List.filter]. destruct (q x) eqn:Hq; cbn [List.filter].
  - destruct (p x); by rewrite IH.
  - destruct (p x) eqn:Hp; [|done]. apply Hpq in Hp. congruence.
Qed.

Lemma filter_filter_none {A} (p q : A -> bool) (l : list A) :
  (forall x, p x = true -> q x = false) ->
  List.filter p (List.filter q l) = [].
Proof.
  intros Hpq. induction l as [|x l IH]; [done|].
  cbn [List.filter]. destruct (q x) eqn:Hq; cbn [List.filter]; [|done].
  destruct (p x) eqn:Hp; [|done]. apply Hpq in Hp. congruence.
Qed.

Lemma count_drop_other t u aid aid' :
  aid' <> aid ->
  length (List.filter (of_article aid') (drop_reactions u aid t))
  = length (List.filter (of_article aid') t).
Proof.
  intros Hne. unfold drop_reactions. rewrite filter_filter_absorb; [done|].
  intros [ru rt rc]. unfold of_article, reaction_where.
  cbn [r_userId r_contentType r_contentId].
  destruct (Z.eqb_spec rc aid'), (Z.eqb_spec rc aid); subst; try done.
  by rewrite andb_false_r.
Qed.

Lemma count_put t u aid aid' :
  length (List.filter (of_article aid') (put_reaction u aid t))
  = (length (List.filter (of_article aid') t) + if (aid =? aid')%Z then 1 else 0)%nat.
Proof.
  unfold put_reaction. rewrite List.filter_app, List.length_app.
  f_equal. cbn [List.filter]. unfold of_article. cbn.
  by destruct (aid =? aid').
Qed.

Lemma held_drop_same t u aid : held_in (drop_reactions u aid t) u aid = 0%nat.
Proof.
  unfold held_in, drop_reactions. rewrite filter_filter_none; [done|].
  intros [ru rt rc]. unfold of_article, reaction_where.
  cbn [r_userId r_contentType r_contentId].
  destruct (Z.eqb_spec rc aid), (Z.eqb_spec ru u), (String.eqb rt "article"); done.
Qed.

Lemma held_drop_other t u aid u' aid' :
  u' <> u \/ aid' <> aid ->
  held_in (drop_reactions u aid t) u' aid' = held_in t u' aid'.
Proof.
  intros Hne. unfold held_in, drop_reactions. rewrite filter_filter_absorb; [done|].
  intros [ru rt rc]. unfold of_article, reaction_where.
  cbn [r_userId r_contentType r_contentId].
  destruct (Z.eqb_spec rc aid'), (Z.eqb_spec ru u'), (Z.eqb_spec ru u),
    (Z.eqb_spec rc aid), (String.eqb rt "article"); subst; try done.
  by destruct Hne.
Qed.

Lemma held_drop_le t u aid u' aid' :
  (held_in (drop_reactions u aid t) u' aid' <= held_in t u' aid')%nat.
Proof.
  destruct (decide (u' = u /\ aid' = aid)) as [[-> ->]|Hne].
  - rewrite held_drop_same. lia.
  - rewrite held_drop_other; [lia|]. destruct (decide (u' = u)); [right|left]; naive_solver.
Qed.

Lemma held_put t u aid u' aid' :
  held_in (put_reaction u aid t) u' aid'
  = (held_in t u' aid' + if ((aid =? aid') && (u =? u'))%Z then 1 else 0)%nat.
Proof.
  unfold held_in, put_reaction. rewrite List.filter_app, List.length_app.
  f_equal. cbn [List.filter]. unfold of_article. cbn.
  rewrite andb_true_r. by destruct ((aid =? aid') && (u =? u')).
Qed.

(** ** C1: stored counts and rows *)

Lemma in_map_where aid (g : ArticleRow -> ArticleRow) l a' :
  In a' (List.map (fun a => if Article.where_id aid a then g a else a) l) ->
  exists a, In a l /\ ((a_id a = aid /\ a' = g a) \/ (a_id a <> aid /\ a' = a)).
Proof.
  rewrite in_map_iff. intros (a & Ha' & Hin). exists a. split; [done|].
  unfold Article.where_id in Ha'. destruct (Z.eqb_spec (a_id a) aid); auto.
Qed.

Ltac in_articles H :=
  repeat match type of H with
  | In _ (List.map _ _) =>
      let a := fresh "a" in
      apply in_map_where in H as (a & H & [[? ->]|[? ->]])
  end.

Ltac counts_simpl :=
  unfold counts_match, likes_of, dislikes_of, like_db, dislike_db, unlike_db, undislike_db,
    recount_likes, recount_dislikes, likes_of, dislikes_of in *;
  cbn [Articles_t Likes_t Dislikes_t set_Articles set_Likes set_Dislikes
       a_id a_likesCount a_dislikesCount Article.set_likesCount Article.set_dislikesCount] in *.

Lemma like_db_consistent u aid d :
  counts_consistent d -> counts_consistent (like_db u aid d).
Proof.
  intros Hd a' Hin. unfold like_db, recount_likes, recount_dislikes in Hin.
  cbn [Articles_t set_Articles set_Likes set_Dislikes] in Hin. in_articles Hin.
  all: specialize (Hd _ Hin); counts_simpl; try done; try (by subst).
  - rewrite count_put, count_drop_other by done.
    destruct (Z.eqb_spec aid (a_id a0)); [congruence|]. destruct Hd. split; [lia|done].
Qed.

Lemma dislike_db_consistent u aid d :
  counts_consistent d -> counts_consistent (dislike_db u aid d).
Proof.
  intros Hd a' Hin. unfold dislike_db, recount_likes, recount_dislikes in Hin.
  cbn [Articles_t set_Articles set_Likes set_Dislikes] in Hin. in_articles Hin.
  all: specialize (Hd _ Hin); counts_simpl; try done; try (by subst).
  - rewrite count_put, count_drop_other by done.
    destruct (Z.eqb_spec aid (a_id a0)); [congruence|]. destruct Hd. split; [done|lia].
Qed.

Lemma unlike_db_consistent u aid d :
  counts_consistent d -> counts_consistent (unlike_db u aid d).
Proof.
  intros Hd a' Hin. unfold unlike_db, recount_likes in Hin.
  cbn [Articles_t set_Articles set_Likes] in Hin. in_articles Hin.
  all: specialize (Hd _ Hin); counts_simpl; destruct Hd as [Hl Hd].
  - by subst.
  - by rewrite count_drop_other.
Qed.

Lemma undislike_db_consistent u aid d :
  counts_consistent d -> counts_consistent (undislike_db u aid d).
Proof.
  intros Hd a' Hin. unfold undislike_db, recount_dislikes in Hin.
  cbn [Articles_t set_Articles set_Dislikes] in Hin. in_articles Hin.
  all: specialize (Hd _ Hin); counts_simpl; destruct Hd as [Hl Hd].
  - by subst.
  - by rewrite count_drop_other.
Qed.

Lemma like_effect_consistent o req d :
  counts_consistent d -> counts_consistent (like_effect o req d).
Proof.
  intros Hd. unfold like_effect. destruct (target req d) as [a|]; [|done].
  destruct o; repeat case_match;
    auto using like_db_consistent, dislike_db_consistent, unlike_db_consistent,
      undislike_db_consistent.
Qed.

Lemma unlike_db_recounts u aid d a' :
  In a' (Articles_t (unlike_db u aid d)) -> a_id a' = aid ->
  a_likesCount a' = likes_of (unlike_db u aid d) (a_id a').
Proof.
  intros Hin Hid. unfold unlike_db, recount_likes in Hin.
  cbn [Articles_t set_Articles set_Likes] in Hin. in_articles Hin; counts_simpl.
  - by subst.
  - congruence.
Qed.

Lemma undislike_db_recounts u aid d a' :
  In a' (Articles_t (undislike_db u aid d)) -> a_id a' = aid ->
  a_dislikesCount a' = dislikes_of (undislike_db u aid d) (a_id a').
Proof.
  intros Hin Hid. unfold undislike_db, recount_dislikes in Hin.
  cbn [Articles_t set_Articles set_Dislikes] in Hin. in_articles Hin; counts_simpl.
  - by subst.
  - congruence.
Qed.

Lemma like_db_recounts u aid d a' :
  In a' (Articles_t (like_db u aid d)) -> a_id a' = aid ->
  counts_match (like_db u aid d) a'.
Proof.
  intros Hin Hid. unfold like_db, recount_likes, recount_dislikes in Hin.
  cbn [Articles_t set_Articles set_Likes set_Dislikes] in Hin.
  in_articles Hin; counts_simpl; try congruence. by subst.
Qed.

Lemma dislike_db_recounts u aid d a' :
  In a' (Articles_t (dislike_db u aid d)) -> a_id a' = aid ->
  counts_match (dislike_db u aid d) a'.
Proof.
  intros Hin Hid. unfold dislike_db, recount_likes, recount_dislikes in Hin.
  cbn [Articles_t set_Articles set_Likes set_Dislikes] in Hin.
  in_articles Hin; counts_simpl; try congruence. by subst.
Qed.

(** Serving a request under the empty fault plan leaves the plan empty
    and the tables as [like_effect] says. *)
Lemma serve_quiet o req w :
  faults w = [] ->
  faults (serve w (o, req)) = [] /\ db (serve w (o, req)) = like_effect o req (db w).
Proof.
  destruct w as [d fs s h c]. cbn [faults db]. intros ->.
  destruct (like_controller_quiet o req d s h c) as [s' H].
  unfold serve. cbn [fst snd]. by rewrite H.
Qed.

Lemma serve_all_quiet ops w :
  faults w = [] -> faults (serve_all ops w) = [].
Proof.
  revert w. induction ops as [|[o req] ops IH]; intros w Hw; [done|].
  cbn [serve_all List.fold_left]. apply IH. by apply serve_quiet.
Qed.

Lemma unlike_db_dislikesCount u aid d :
  List.map a_dislikesCount (Articles_t (unlike_db u aid d))
  = List.map a_dislikesCount (Articles_t d).
Proof.
  unfold unlike_db, recount_likes. cbn [Articles_t set_Articles set_Likes].
  rewrite List.map_map. apply List.map_ext. intros a.
  by destruct (Article.where_id aid a).
Qed.

Lemma undislike_db_likesCount u aid d :
  List.map a_likesCount (Articles_t (undislike_db u aid d))
  = List.map a_likesCount (Articles_t d).
Proof.
  unfold undislike_db, recount_dislikes. cbn [Articles_t set_Articles set_Dislikes].
  rewrite List.map_map. apply List.map_ext. intros a.
  by destruct (Article.where_id aid a).
Qed.

Lemma remove_keeps_the_other_count req w :
  faults w = [] ->
  List.map a_dislikesCount (Articles_t (db (serve w (RemoveLike, req))))
  = List.map a_dislikesCount (Articles_t (db w))
  /\ List.map a_likesCount (Articles_t (db (serve w (RemoveDislike, req))))
     = List.map a_likesCount (Articles_t (db w)).
Proof.
  intros Hw. split.
  - destruct (serve_quiet RemoveLike req w Hw) as [_ ->]. unfold like_effect.
    destruct (target req (db w)); [apply unlike_db_dislikesCount|done].
  - destruct (serve_quiet RemoveDislike req w Hw) as [_ ->]. unfold like_effect.
    destruct (target req (db w)); [apply undislike_db_likesCount|done].
Qed.

(** C1, as amended. A like or a dislike that is added without a failing
    call leaves both stored counts of the article equal to the numbers
    of its [Likes] and [Dislikes] rows. A remove-like served without a
    failing call leaves [likesCount] equal to the number of the [Likes]
    rows that remain and does not write [dislikesCount]; a remove-dislike
    leaves [dislikesCount] equal to the [Dislikes] rows and does not
    write [likesCount]. Hence after any run of these operations in which
    no call fails the two stored counts of every article equal the rows,
    provided they did before the run. *)
Theorem counts_equal_rows_after_like_operations :
  (forall ops w,
     faults w = [] -> counts_consistent (db w) ->
     counts_consistent (db (serve_all ops w)))
  /\ (forall o req w a a',
        faults w = [] -> target req (db w) = Some a ->
        In a' (Articles_t (db (serve w (o, req)))) -> a_id a' = a_id a ->
        let d' := db (serve w (o, req)) in
        let userId := u_id (req_user req) in
        match o with
        | RemoveLike => a_likesCount a' = likes_of d' (a_id a')
        | RemoveDislike => a_dislikesCount a' = dislikes_of d' (a_id a')
        | AddLike => held_in (Likes_t (db w)) userId (a_id a) = 0%nat -> counts_match d' a'
        | AddDislike => held_in (Dislikes_t (db w)) userId (a_id a) = 0%nat -> counts_match d' a'
        end)
  /\ (forall req w,
        faults w = [] ->
        List.map a_dislikesCount (Articles_t (db (serve w (RemoveLike, req))))
        = List.map a_dislikesCount (Articles_t (db w))
        /\ List.map a_likesCount (Articles_t (db (serve w (RemoveDislike, req))))
           = List.map a_likesCount (Articles_t (db w))).
Proof.
  split_and!.
  - intros ops. induction ops as [|[o req] ops IH]; intros w Hw Hd; [done|].
    cbn [serve_all List.fold_left].
    destruct (serve_quiet o req w Hw) as [Hf Hdb].
    apply IH; [done|]. rewrite Hdb. by apply like_effect_consistent.
  - intros o req w a a' Hw Ht Hin Hid.
    destruct (serve_quiet o req w Hw) as [_ Hdb]. cbv zeta.
    rewrite Hdb in *. unfold like_effect in *. rewrite Ht in *.
    destruct o.
    + intros Hheld. rewrite Hheld in *. cbn [Nat.eqb] in *. by apply like_db_recounts.
    + intros Hheld. rewrite Hheld in *. cbn [Nat.eqb] in *. by apply dislike_db_recounts.
    + by apply unlike_db_recounts.
    + by apply undislike_db_recounts.
  - apply remove_keeps_the_other_count.
Qed.

(** C1, the claim as it stands, after a like that failed half-way: the
    user 7 holds a dislike on the article 1, whose [dislikesCount] is 1;
    the like request destroys the dislike row, and the count of the
    dislikes, its fourth call, fails. The remove-like request that
    follows is complete and answered 200, and leaves [dislikesCount] at 1
    while no [Dislikes] row is left. *)
Lemma complete_removeLike_leaves_a_stale_dislikesCount :
  let w0 := (Articles.addLike like_request
               (sample_world disliked_db [false; false; false; true])).2 in
  let w1 := (Articles.removeLike like_request w0).2 in
  counts_consistent disliked_db
  /\ List.map status (sent w0) = [500]
  /\ faults w0 = []
  /\ List.map status (sent w1) = [500; 200]
  /\ List.map (fun a => (a_id a, a_likesCount a, a_dislikesCount a)) (Articles_t (db w1))
     = [(1, 0, 1)]
  /\ likes_of (db w1) 1 = 0 /\ dislikes_of (db w1) 1 = 0.
Proof.
  split_and!; try by vm_compute.
  intros a [<-|[]]. by split.
Qed.

(** ** C2: at most one like or dislike *)

Ltac held_simpl :=
  unfold held, like_db, dislike_db, unlike_db, undislike_db, recount_likes, recount_dislikes in *;
  cbn [Likes_t Dislikes_t set_Articles set_Likes set_Dislikes] in *.

Lemma held_put_cases t u aid u' aid' :
  (u' = u /\ aid' = aid /\ held_in (put_reaction u aid t) u' aid' = S (held_in t u aid))
  \/ ((u' <> u \/ aid' <> aid) /\ held_in (put_reaction u aid t) u' aid' = held_in t u' aid').
Proof.
  rewrite held_put.
  destruct (Z.eqb_spec aid aid'), (Z.eqb_spec u u'); subst; cbn [andb];
    [left; split_and!; [done..|lia] | right; split; [auto|lia]..].
Qed.

Lemma like_db_at_most_one u aid d :
  held_in (Likes_t d) u aid = 0%nat ->
  at_most_one d -> at_most_one (like_db u aid d).
Proof.
  intros H0 Hd u' aid'. specialize (Hd u' aid'). held_simpl.
  destruct (held_put_cases (Likes_t d) u aid u' aid') as [(-> & -> & ->)|[Hne ->]].
  - rewrite held_drop_same. lia.
  - pose proof (held_drop_le (Dislikes_t d) u aid u' aid'). lia.
Qed.

Lemma dislike_db_at_most_one u aid d :
  held_in (Dislikes_t d) u aid = 0%nat ->
  at_most_one d -> at_most_one (dislike_db u aid d).
Proof.
  intros H0 Hd u' aid'. specialize (Hd u' aid'). held_simpl.
  destruct (held_put_cases (Dislikes_t d) u aid u' aid') as [(-> & -> & ->)|[Hne ->]].
  - rewrite held_drop_same. lia.
  - pose proof (held_drop_le (Likes_t d) u aid u' aid'). lia.
Qed.

Lemma unlike_db_at_most_one u aid d :
  at_most_one d -> at_most_one (unlike_db u aid d).
Proof.
  intros Hd u' aid'. specialize (Hd u' aid'). held_simpl.
  pose proof (held_drop_le (Likes_t d) u aid u' aid'). lia.
Qed.

Lemma undislike_db_at_most_one u aid d :
  at_most_one d -> at_most_one (undislike_db u aid d).
Proof.
  intros Hd u' aid'. specialize (Hd u' aid'). held_simpl.
  pose proof (held_drop_le (Dislikes_t d) u aid u' aid'). lia.
Qed.

Lemma like_effect_at_most_one o req d :
  at_most_one d -> at_most_one (like_effect o req d).
Proof.
  intros Hd. unfold like_effect. destruct (target req d) as [a|]; [|done].
  destruct o.
  - destruct (Nat.eqb_spec (held_in (Likes_t d) (u_id (req_user req)) (a_id a)) 0);
      [by apply like_db_at_most_one|done].
  - destruct (Nat.eqb_spec (held_in (Dislikes_t d) (u_id (req_user req)) (a_id a)) 0);
      [by apply dislike_db_at_most_one|done].
  - by apply unlike_db_at_most_one.
  - by apply undislike_db_at_most_one.
Qed.

(** C2. After any run of add-like, add-dislike, remove-like and
    remove-dislike operations every user holds at most one like or
    dislike row on every article, provided this held before the run; an
    added like leaves the user with exactly one like row and no dislike
    row on the article, whatever dislike rows the user had there, and an
    added dislike leaves exactly one dislike row and no like row. *)
Theorem at_most_one_reaction_per_user_and_article :
  (forall ops w,
     faults w = [] -> at_most_one (db w) -> at_most_one (db (serve_all ops w)))
  /\ (forall req w a,
        faults w = [] -> target req (db w) = Some a ->
        held_in (Likes_t (db w)) (u_id (req_user req)) (a_id a) = 0%nat ->
        let d' := db (Articles.addLike req w).2 in
        held_in (Likes_t d') (u_id (req_user req)) (a_id a) = 1%nat
        /\ held_in (Dislikes_t d') (u_id (req_user req)) (a_id a) = 0%nat)
  /\ (forall req w a,
        faults w = [] -> target req (db w) = Some a ->
        held_in (Dislikes_t (db w)) (u_id (req_user req)) (a_id a) = 0%nat ->
        let d' := db (Articles.addDislike req w).2 in
        held_in (Dislikes_t d') (u_id (req_user req)) (a_id a) = 1%nat
        /\ held_in (Likes_t d') (u_id (req_user req)) (a_id a) = 0%nat).
Proof.
  split_and!.
  - intros ops. induction ops as [|[o req] ops IH]; intros w Hw Hd; [done|].
    cbn [serve_all List.fold_left].
    destruct (serve_quiet o req w Hw) as [Hf Hdb].
    apply IH; [done|]. rewrite Hdb. by apply like_effect_at_most_one.
  - intros req w a Hw Ht Hheld.
    destruct (serve_quiet AddLike req w Hw) as [_ Hdb].
    unfold serve in Hdb. cbn [fst snd like_controller] in Hdb. cbv zeta. rewrite Hdb.
    unfold like_effect. rewrite Ht, Hheld. cbn [Nat.eqb]. held_simpl.
    rewrite held_put, held_drop_same, Hheld, !Z.eqb_refl. done.
  - intros req w a Hw Ht Hheld.
    destruct (serve_quiet AddDislike req w Hw) as [_ Hdb].
    unfold serve in Hdb. cbn [fst snd like_controller] in Hdb. cbv zeta. rewrite Hdb.
    unfold like_effect. rewrite Ht, Hheld. cbn [Nat.eqb]. held_simpl.
    rewrite held_put, held_drop_same, Hheld, !Z.eqb_refl. done.
Qed.

(** ** C3: liking what is already liked *)

(** One step of symbolic execution under an arbitrary fault plan. *)
Ltac wp_any :=
  lazymatch goal with
  | |- wp (mbind _ _) _ _ => apply wp_bind
  | |- wp (mret _) _ _ => apply wp_ret
  | |- wp throw _ _ => apply wp_throw
  | |- wp (try_catch _ _) _ _ => apply wp_try_catch
  | |- wp (detached _) _ _ => apply wp_detached
  | |- wp (orm _) _ _ => apply wp_orm; intros ?; wp_simpl
  | |- wp (serverResponse _ _) _ _ => apply wp_serverResponse; wp_simpl
  | |- wp (res_set _ _) _ _ => apply wp_res_set; wp_simpl
  | |- wp Date_now _ _ => apply wp_Date_now; wp_simpl
  | |- wp (if String.eqb ?a ?b then _ else _) _ _ =>
      let v := eval vm_compute in (String.eqb a b) in
      change (String.eqb a b) with v; cbv iota
  | |- wp (match _ with _ => _ end) _ _ => fail
  | |- wp (let _ := _ in _) _ _ => cbv zeta
  | |- wp _ _ _ => wp_unfold
  end.

Lemma held_nonzero t u aid :
  held_in t u aid <> 0%nat ->
  negb (Nat.eqb (length (List.filter (fun r => of_article aid r && (r_userId r =? u)) t)) 0) = true.
Proof. unfold held_in. intros H. by apply negb_true_iff, Nat.eqb_neq. Qed.

Ltac quiet_done :=
  split; [done|];
  let Hf := fresh "Hf" in
  intros Hf; unfold next_fault in *; cbn [faults with_db with_faults] in *;
  rewrite ?Hf in *; cbn [tail] in *; done.

Lemma addLike_already req w a :
  target req (db w) = Some a ->
  held_in (Likes_t (db w)) (u_id (req_user req)) (a_id a) <> 0%nat ->
  wp (Articles.addLike req) w (fun r w' =>
    db w' = db w
    /\ (faults w = [] -> r = Ok tt /\ faults w' = [] /\ headers w' = headers w
        /\ clock w' = clock w
        /\ sent w' = sent w ++
             [mkResponse 200 (message_body "you have already liked this article")])).
Proof.
  intros Ht Hheld. unfold target in Ht. apply held_nonzero in Hheld.
  repeat wp_any; [quiet_done|].
  rewrite Ht. repeat wp_any; [quiet_done|].
  rewrite Hheld. repeat wp_any. quiet_done.
Qed.

Lemma addDislike_already req w a :
  target req (db w) = Some a ->
  held_in (Dislikes_t (db w)) (u_id (req_user req)) (a_id a) <> 0%nat ->
  wp (Articles.addDislike req) w (fun r w' =>
    db w' = db w
    /\ (faults w = [] -> r = Ok tt /\ faults w' = [] /\ headers w' = headers w
        /\ clock w' = clock w
        /\ sent w' = sent w ++
             [mkResponse 200 (message_body "you have already disliked this article")])).
Proof.
  intros Ht Hheld. unfold target in Ht. apply held_nonzero in Hheld.
  repeat wp_any; [quiet_done|].
  rewrite Ht. repeat wp_any; [quiet_done|].
  rewrite Hheld. repeat wp_any. quiet_done.
Qed.

Lemma world_eta w d fs s h c :
  db w = d -> faults w = fs -> sent w = s -> headers w = h -> clock w = c ->
  w = mkWorld d fs s h c.
Proof. destruct w. cbn. by intros -> -> -> -> ->. Qed.

(** C3. An add-like request of a user who already holds a like row on
    the article it addresses leaves every table as it was, whatever
    calls fail; when no call fails it answers status 200 with the message
    'you have already liked this article'. The same holds of an
    add-dislike request and 'you have already disliked this article'. *)
Theorem already_liked_is_answered_not_repeated req w a :
  target req (db w) = Some a ->
  (held_in (Likes_t (db w)) (u_id (req_user req)) (a_id a) <> 0%nat ->
   db (Articles.addLike req w).2 = db w
   /\ (faults w = [] ->
       Articles.addLike req w
       = (Ok tt, mkWorld (db w) [] (sent w ++
            [mkResponse 200 (message_body "you have already liked this article")])
            (headers w) (clock w))))
  /\ (held_in (Dislikes_t (db w)) (u_id (req_user req)) (a_id a) <> 0%nat ->
      db (Articles.addDislike req w).2 = db w
      /\ (faults w = [] ->
          Articles.addDislike req w
          = (Ok tt, mkWorld (db w) [] (sent w ++
               [mkResponse 200 (message_body "you have already disliked this article")])
               (headers w) (clock w)))).
Proof.
  intros Ht. split; intros Hheld.
  - pose proof (addLike_already req w a Ht Hheld) as H. unfold wp in H.
    destruct (Articles.addLike req w) as [r w']. cbn [fst snd] in *.
    destruct H as [Hdb H]. split; [done|]. intros Hf.
    destruct (H Hf) as (-> & ? & ? & ? & ?). f_equal. by apply world_eta.
  - pose proof (addDislike_already req w a Ht Hheld) as H. unfold wp in H.
    destruct (Articles.addDislike req w) as [r w']. cbn [fst snd] in *.
    destruct H as [Hdb H]. split; [done|]. intros Hf.
    destruct (H Hf) as (-> & ? & ? & ? & ?). f_equal. by apply world_eta.
Qed.

(** ** C6: a taken email *)

Lemma create_email_taken ext req w u :
  User.find_by "email" (req_body req !! "email") (Users_t (db w)) = Some u ->
  wp (Users.create ext req) w (email_taken_post w).
Proof.
  intros Hu. unfold email_taken_post. repeat wp_any.
  - split_and!; [done..|congruence].
  - rewrite Hu. cbn [is_Some_b]. repeat wp_any. done.
Qed.

Lemma create_revised_email_taken ext userResponse req w u :
  User.find_by "email" (req_body req !! "email") (Users_t (db w)) = Some u ->
  wp (Users.create_revised ext userResponse req) w (email_taken_post w).
Proof.
  intros Hu. unfold email_taken_post. repeat wp_any.
  - split_and!; [done..|congruence].
  - rewrite Hu. cbn [is_Some_b]. repeat wp_any. done.
Qed.

(** C6. A user-creation request whose email already belongs to a user
    leaves every table as it was, so that no [Users] row and no
    [Sessions] row is created, and, when the lookup of the email does not
    fail, answers status 409 with the error 'email has already been
    taken'; this holds of the controller and of its later revision. *)
Theorem taken_email_is_answered_409 ext userResponse req w u :
  User.find_by "email" (req_body req !! "email") (Users_t (db w)) = Some u ->
  let w1 := (Users.create ext req w).2 in
  let w2 := (Users.create_revised ext userResponse req w).2 in
  (Users_t (db w1) = Users_t (db w) /\ Sessions_t (db w1) = Sessions_t (db w)
   /\ db w1 = db w
   /\ (next_fault w = false ->
       sent w1 = sent w ++ [mkResponse 409 (error_body "email has already been taken")]))
  /\ (Users_t (db w2) = Users_t (db w) /\ Sessions_t (db w2) = Sessions_t (db w)
      /\ db w2 = db w
      /\ (next_fault w = false ->
          sent w2 = sent w ++ [mkResponse 409 (error_body "email has already been taken")])).
Proof.
  intros Hu. cbv zeta. split.
  - destruct (create_email_taken ext req w u Hu) as (_ & Hdb & Hs).
    rewrite Hdb. done.
  - destruct (create_revised_email_taken ext userResponse req w u Hu) as (_ & Hdb & Hs).
    rewrite Hdb. done.
Qed.

(** ** C10: the stored password *)

Ltac wp_branch :=
  lazymatch goal with
  | |- wp (match ?x with _ => _ end) _ _ => destruct x eqn:?
  end.

Ltac wp_auto := repeat (wp_any || wp_branch).

Ltac not_last_response :=
  let b := fresh "b" in
  let Hb := fresh "Hb" in
  intros b Hb; rewrite last_snoc in Hb; try discriminate Hb.

Lemma create_success ext req w :
  wp (Users.create ext req) w (fun _ w' =>
    forall b, last (sent w') = Some (mkResponse 201 b) ->
    exists p row token,
      req_body req !! "password" = Some (JStr p)
      /\ Users_t (db w') = Users_t (db w) ++ [row]
      /\ usr_values row !! "password" = Some (JStr (bcrypt_hash ext p 10))
      /\ b = JObj (<["token" := JStr token]>
                    {[ "user" := JObj (delete "password" (User.dataValues row)) ]})).
Proof.
  wp_auto; not_last_response.
  injection Hb as <-. eexists _, _, _.
  split_and!; [done|reflexivity|apply lookup_insert_eq|reflexivity].
Qed.

(** C10. Whenever a user-creation request is answered with status 201,
    the request carried a password string, the [Users] table has gained
    one row whose [password] is the bcrypt hash (10 rounds) of that
    string, so that it is the plaintext only if the hash of the plaintext
    is the plaintext, and the [user] object of the 201 body has no
    [password] field. *)
Theorem created_user_stores_hash_and_hides_it ext req w b :
  let w' := (Users.create ext req w).2 in
  last (sent w') = Some (mkResponse 201 b) ->
  exists p row token user,
    req_body req !! "password" = Some (JStr p)
    /\ Users_t (db w') = Users_t (db w) ++ [row]
    /\ usr_values row !! "password" = Some (JStr (bcrypt_hash ext p 10))
    /\ (bcrypt_hash ext p 10 <> p -> usr_values row !! "password" <> Some (JStr p))
    /\ b = JObj (<["token" := JStr token]> {[ "user" := JObj user ]})
    /\ user !! "password" = None.
Proof.
  intros w' Hb. destruct (create_success ext req w b Hb) as (p & row & token & Hp & Hu & Hrow & ->).
  exists p, row, token, (delete "password" (User.dataValues row)).
  split_and!; try done.
  - rewrite Hrow. congruence.
  - apply lookup_delete_eq.
Qed.


(** ** C7: the catch-all *)

Lemma try_catch_serverError_ok (m : M unit) w : (try_catch m serverError w).1 = Ok tt.
Proof. unfold try_catch. by destruct (m w) as [[[]|] w']. Qed.

(** The controllers whose body is wrapped in [try ... catch] never let an
    exception out. *)
Lemma wrapped_controllers_never_throw ext req w :
  (Articles.createArticle ext req w).1 = Ok tt
  /\ (Articles.update ext req w).1 = Ok tt
  /\ (Articles.userArticles ext req w).1 = Ok tt
  /\ (forall o, (like_controller o req w).1 = Ok tt)
  /\ (Users.create ext req w).1 = Ok tt
  /\ (Users.verifyUserEmail req w).1 = Ok tt
  /\ (Users.resendVerificationEmail ext req w).1 = Ok tt
  /\ (Users.requestPasswordResetLink ext req w).1 = Ok tt
  /\ (Users.resetPassword ext req w).1 = Ok tt.
Proof.
  split_and!; try apply try_catch_serverError_ok.
  intros []; apply try_catch_serverError_ok.
Qed.

(** [changePassword] has no [try ... catch]: when the update of the
    [Users] table fails, the exception leaves the controller and nothing
    is answered. *)
Lemma changePassword_throws ext req w p fs :
  req_body req !! "password" = Some (JStr p) ->
  faults w = false :: true :: fs ->
  Users.changePassword ext req w = (Throw, mkWorld (db w) fs (sent w) (headers w) (clock w)).
Proof.
  intros Hp Hf. unfold Users.changePassword, bcrypt_hash_call. rewrite Hp.
  destruct w as [d fs' s h c]. cbn [faults] in Hf. subst fs'. reflexivity.
Qed.

(** The like and dislike controllers answer through
    [customArticleResponse], which they call without awaiting it: when
    its query fails, after the eight calls before it have succeeded,
    nothing is thrown and nothing is answered. *)
Lemma addLike_unawaited_failure_is_silent :
  Articles.addLike like_request
    (sample_world sample_db [false; false; false; false; false; false; false; false; true])
  = (Ok tt, sample_world (like_db 7 1 sample_db) []).
Proof. vm_compute. reflexivity. Qed.

(** C7. A change-password request whose update of the [Users] table
    fails: the exception leaves [changePassword], and no response, in
    particular no status 500, is sent. *)
Theorem changePassword_exception_escapes :
  Users.changePassword sample_ext (sample_request {[ "password" := JStr "new-secret" ]})
    (sample_world sample_db [false; true])
  = (Throw, sample_world sample_db []).
Proof. vm_compute. reflexivity. Qed.


(** ** Creating and updating articles *)

Lemma canTag_refusal ta p :
  Articles.canTag ta = Some p -> p.1 = 400 /\ exists text, p.2 = error_body text.
Proof.
  unfold Articles.canTag. intros H. repeat case_match; simplify_eq; cbn; eauto.
Qed.

Lemma num_attr_publishedAt x p (m : gmap string json) :
  num_attr (<["categoryId" := x]> (<["publishedAt" := opt_num p]> m)) "publishedAt" = p.
Proof.
  unfold num_attr. rewrite lookup_insert_ne by done. rewrite lookup_insert_eq.
  by destruct p.
Qed.

Ltac refused_by_canTag :=
  match goal with
  | Hc : Articles.canTag _ = Some ?p, Hb : Some _ = Some _ |- _ =>
      apply canTag_refusal in Hc as [Hc _]; injection Hb as Hb _; congruence
  end.

Ltac use_finds :=
  repeat match goal with
  | H : List.find _ _ = _ |- _ => rewrite H; clear H
  end.

Lemma createArticle_success ext req w :
  wp (Articles.createArticle ext req) w (fun _ w' =>
    forall b, last (sent w') = Some (mkResponse 200 b) ->
    exists row c cd,
      Articles_t (db w') = Articles_t (db w) ++ [row]
      /\ a_publishedAt row = Articles.publishedAt_of (req_body req) (clock w)
      /\ req_body req !! "category" = Some (JStr c)
      /\ resolve_category (Categories_t (db w)) c = Some cd
      /\ a_categoryId row = c_id cd).
Proof.
  wp_auto; not_last_response; try refused_by_canTag.
  all: match goal with
       | H : _ !! "category" = Some (JStr ?s) |- _ => eexists _, s, _
       end; split_and!;
    [ reflexivity
    | cbn [Article.build a_publishedAt]; apply num_attr_publishedAt
    | done
    | unfold resolve_category; use_finds; reflexivity
    | cbn [Article.build a_categoryId]; unfold num_attr; by rewrite lookup_insert_eq ].
Qed.

Lemma assign_publishedAt values p a :
  values !! "publishedAt" = Some (opt_num p) ->
  a_publishedAt (Article.assign values a) = p.
Proof. unfold Article.assign. cbn. intros ->. by destruct p. Qed.

Lemma update_values_publishedAt x image p (m : gmap string json) :
  (<["categoryId" := x]> (Articles.with_image image (<["publishedAt" := opt_num p]> m)))
    !! "publishedAt" = Some (opt_num p).
Proof.
  rewrite lookup_insert_ne by done. destruct image; cbn [Articles.with_image].
  - rewrite lookup_insert_ne by done. apply lookup_insert_eq.
  - rewrite lookup_delete_ne by done. apply lookup_insert_eq.
Qed.

Lemma map_filter_cons_inv {A B} (f : A -> B) (p : A -> bool) l y ys :
  List.map f (List.filter p l) = y :: ys -> exists a, In a l /\ p a = true.
Proof.
  destruct (List.filter p l) as [|a l'] eqn:Hl; [done|]. intros _.
  exists a. apply filter_In. rewrite Hl. by left.
Qed.

Lemma update_success ext req w :
  wp (Articles.update ext req) w (fun _ w' =>
    forall b, last (sent w') = Some (mkResponse 200 b) ->
    exists values,
      Articles_t (db w')
      = List.map (fun a => if own_article req a then Article.assign values a else a)
                 (Articles_t (db w))
      /\ values !! "publishedAt"
         = Some (opt_num (Articles.publishedAt_of (req_body req) (clock w)))
      /\ (exists a, In a (Articles_t (db w)) /\ own_article req a = true)
      /\ (forall c, req_body req !! "category" = Some (JStr c) -> c <> "" ->
          exists cd, resolve_category (Categories_t (db w)) c = Some cd
                     /\ values !! "categoryId" = Some (JNum (c_id cd)))).
Proof.
  wp_auto; not_last_response; try refused_by_canTag; try discriminate.
  all: eexists; split_and!;
    [ cbn [Articles_t set_Articles set_Tags set_ArticleTags]; reflexivity
    | apply update_values_publishedAt
    | eapply map_filter_cons_inv; eassumption
    | ].
  all: intros ? Hc' Hne'; rewrite lookup_insert_eq.
  all: repeat match goal with
       | H : context [_ !! "category"] |- _ =>
           tryif constr_eq H Hc' then fail else rewrite Hc' in H
       end; simplify_eq.
  all: try (cbn in *; match goal with
            | H : negb (String.eqb _ "") = false |- _ =>
                apply negb_false_iff, String.eqb_eq in H; done
            end).
  all: eexists; split; [unfold resolve_category; use_finds; reflexivity | reflexivity].
Qed.

(** ** C9: publishedAt *)

Lemma is_str_true v s : is_str v s = true <-> v = Some (JStr s).
Proof.
  unfold is_str. split.
  - repeat case_match; try done. by intros ->%String.eqb_eq.
  - intros ->. apply String.eqb_refl.
Qed.

Lemma is_undefined_true v : is_undefined v = true <-> v = None.
Proof. by destruct v. Qed.

Lemma publishedAt_of_spec body now :
  publishedAt_spec body now (Articles.publishedAt_of body now).
Proof.
  unfold publishedAt_spec, draft_or_no_body, Articles.publishedAt_of.
  destruct (is_str (body !! "status") "draft") eqn:Hs;
    destruct (is_undefined (body !! "articleBody")) eqn:Hb; cbn [orb].
  all: try apply is_str_true in Hs; try apply is_undefined_true in Hb.
  1-3: split; [split; auto | intros []; auto].
  split; [|done]. split; [done|]. intros [H|H].
  - apply is_str_true in H. congruence.
  - apply is_undefined_true in H. congruence.
Qed.

(** C9. Whenever createArticle answers 200, the row it has added has
    [publishedAt] null exactly when the status of the request body is
    'draft' or its [articleBody] is absent, and the current time
    otherwise. Whenever update answers 200, every row it has written, the
    rows of the slug whose author is the user, of which there is one, has
    its [publishedAt] set in this same way from the request body and the
    current time alone, whatever it was before and whichever fields the
    body carries. *)
Theorem publishedAt_is_recomputed_from_body ext req w b :
  (last (sent (Articles.createArticle ext req w).2) = Some (mkResponse 200 b) ->
   exists row,
     Articles_t (db (Articles.createArticle ext req w).2) = Articles_t (db w) ++ [row]
     /\ publishedAt_spec (req_body req) (clock w) (a_publishedAt row))
  /\ (last (sent (Articles.update ext req w).2) = Some (mkResponse 200 b) ->
      exists write,
        Articles_t (db (Articles.update ext req w).2)
        = List.map (fun a => if own_article req a then write a else a) (Articles_t (db w))
        /\ (exists a, In a (Articles_t (db w)) /\ own_article req a = true)
        /\ forall a, publishedAt_spec (req_body req) (clock w) (a_publishedAt (write a))).
Proof.
  split; intros Hb.
  - destruct (createArticle_success ext req w b Hb) as (row & _ & _ & Hrows & Hp & _).
    exists row. split; [done|]. rewrite Hp. apply publishedAt_of_spec.
  - destruct (update_success ext req w b Hb) as (values & Hrows & Hp & Ha & _).
    exists (Article.assign values). split_and!; [done..|].
    intros a. rewrite (assign_publishedAt _ _ _ Hp). apply publishedAt_of_spec.
Qed.

(** ** C4: the fallback to the category 'other' *)

Lemma same_run_bind {A B} (m m' : M A) (k k' : A -> M B) :
  same_run m m' -> (forall a, same_run (k a) (k' a)) -> same_run (m ≫= k) (m' ≫= k').
Proof.
  intros Hm Hk w. unfold mbind, M_bind. rewrite Hm.
  destruct (m' w) as [[a|] w']; [apply Hk|done].
Qed.

Lemma same_run_try_catch {A} (m m' h : M A) :
  same_run m m' -> same_run (try_catch m h) (try_catch m' h).
Proof. intros Hm w. unfold try_catch. by rewrite Hm. Qed.

Lemma same_run_try_catch_at {A} (m m' h : M A) w :
  m w = m' w -> try_catch m h w = try_catch m' h w.
Proof. intros Hm. unfold try_catch. by rewrite Hm. Qed.

Lemma same_run_orm {A} (q q' : DB -> A * DB) :
  (forall d, q d = q' d) -> same_run (orm q) (orm q').
Proof. intros Hq w. unfold orm. by rewrite Hq. Qed.

Lemma same_run_refl {A} (m : M A) : same_run m m.
Proof. done. Qed.

Lemma attrs_agree_insert k v m m' :
  attrs_agree m m' -> attrs_agree (<[k := v]> m) (<[k := v]> m').
Proof.
  intros H k' H1 H2. destruct (decide (k = k')) as [->|Hne].
  - by rewrite !lookup_insert_eq.
  - rewrite !lookup_insert_ne by done. by apply H.
Qed.

Lemma attrs_agree_delete k m m' :
  attrs_agree m m' -> attrs_agree (delete k m) (delete k m').
Proof.
  intros H k' H1 H2. destruct (decide (k = k')) as [->|Hne].
  - by rewrite !lookup_delete_eq.
  - rewrite !lookup_delete_ne by done. by apply H.
Qed.

Lemma attrs_agree_with_image image m m' :
  attrs_agree m m' -> attrs_agree (Articles.with_image image m) (Articles.with_image image m').
Proof.
  destruct image; cbn [Articles.with_image];
    auto using attrs_agree_insert, attrs_agree_delete.
Qed.

Lemma attrs_agree_fallback x y (m : gmap string json) :
  attrs_agree (<["tags" := x]> (<["category" := y]> m)) m.
Proof. intros k H1 H2. by rewrite !lookup_insert_ne. Qed.

Ltac agree_lookups H :=
  unfold str_attr, num_attr, bool_attr;
  repeat match goal with
  | |- context [?m !! ?k] =>
      lazymatch goal with
      | H' : attrs_agree m ?m' |- _ =>
          rewrite (H' k) by done
      end
  end.

Lemma build_agree ext l m m' :
  attrs_agree m m' -> Article.build ext l m = Article.build ext l m'.
Proof. intros H. unfold Article.build. by agree_lookups H. Qed.

Lemma assign_agree m m' a :
  attrs_agree m m' -> Article.assign m a = Article.assign m' a.
Proof. intros H. unfold Article.assign. by agree_lookups H. Qed.

Lemma create_agree ext m m' :
  attrs_agree m m' -> same_run (Article.create ext m) (Article.create ext m').
Proof.
  intros H. unfold Article.create. agree_lookups H.
  case_match; [|done]. apply same_run_orm. intros d. by rewrite (build_agree _ _ _ _ H).
Qed.

Lemma update_values_agree m m' p :
  attrs_agree m m' -> same_run (Article.update_values m p) (Article.update_values m' p).
Proof.
  intros H. unfold Article.update_values, Article.update. agree_lookups H.
  case_match; [|done]. apply same_run_orm. intros d.
  unfold set_Articles.
  assert (Hm : forall l, List.map (fun a => if p a then Article.assign m a else a) l
                         = List.map (fun a => if p a then Article.assign m' a else a) l).
  { intros l. apply map_ext. intros a. by rewrite (assign_agree _ _ _ H). }
  assert (Hf : forall l, List.map (Article.assign m) l = List.map (Article.assign m') l).
  { intros l. apply map_ext. intros a. apply (assign_agree _ _ _ H). }
  by rewrite Hm, Hf.
Qed.

Lemma publishedAt_of_agree m m' now :
  attrs_agree m m' -> Articles.publishedAt_of m now = Articles.publishedAt_of m' now.
Proof. intros H. unfold Articles.publishedAt_of. by agree_lookups H. Qed.

Lemma run_ret_bind {A B} (a : A) (k : A -> M B) w : (mret a ≫= k) w = k a w.
Proof. done. Qed.

Lemma run_now_bind {B} (k : Z -> M B) w : (Date_now ≫= k) w = k (clock w) w.
Proof. done. Qed.

Lemma run_orm_bind {A B} (q : DB -> A * DB) (k : A -> M B) d s h c :
  (orm q ≫= k) (mkWorld d [] s h c) = k (q d).1 (mkWorld (q d).2 [] s h c).
Proof. unfold mbind, M_bind, orm. cbn. by destruct (q d). Qed.

Lemma find_other_name other l :
  List.find (fun x => String.eqb (c_name x) "other") l = Some other -> c_name other = "other".
Proof. intros H. apply find_some in H as [_ H]. by apply String.eqb_eq. Qed.

Lemma fallback_lookup_category c t (m : gmap string json) :
  (<["tags" := JStr (t +:+ "," +:+ toLowerCase c)]> (<["category" := JStr "other"]> m))
    !! "category" = Some (JStr "other").
Proof. rewrite lookup_insert_ne by done. apply lookup_insert_eq. Qed.

Lemma fallback_lookup_tags c t (m : gmap string json) :
  (<["tags" := JStr (t +:+ "," +:+ toLowerCase c)]> (<["category" := JStr "other"]> m))
    !! "tags" = Some (JStr (t +:+ "," +:+ toLowerCase c)).
Proof. apply lookup_insert_eq. Qed.

Lemma fallback_agree c t (m : gmap string json) :
  attrs_agree m (<["tags" := JStr (t +:+ "," +:+ toLowerCase c)]> (<["category" := JStr "other"]> m)).
Proof. intros k H1 H2. by rewrite !lookup_insert_ne. Qed.

Ltac agree :=
  rewrite <- ?(publishedAt_of_agree _ _ _ (fallback_agree _ _ _));
  repeat first
    [ apply fallback_agree
    | apply attrs_agree_insert
    | apply attrs_agree_with_image ].

(** Two computations of the same shape that differ in the body they
    hand to the model. *)
Ltac same :=
  first
    [ apply same_run_refl
    | apply create_agree; agree
    | apply update_values_agree; agree
    | apply same_run_bind; [same | intros ?; same]
    | lazymatch goal with
      | |- same_run (match ?x with _ => _ end) _ => destruct x
      end; same ].

Lemma createArticle_fallback ext req d s h c0 c other :
  req_body req !! "category" = Some (JStr c) ->
  List.find (fun x => String.eqb (c_name x) (toLowerCase c)) (Categories_t d) = None ->
  List.find (fun x => String.eqb (c_name x) "other") (Categories_t d) = Some other ->
  Articles.createArticle ext req (mkWorld d [] s h c0)
  = Articles.createArticle ext (fallback_request c req) (mkWorld d [] s h c0).
Proof.
  intros Hc Hfind Hother.
  pose proof (find_other_name _ _ Hother) as Hname.
  assert (Hne : String.eqb (toLowerCase c) "other" = false).
  { destruct (String.eqb_spec (toLowerCase c) "other") as [E|]; [|done].
    rewrite E in Hfind. congruence. }
  unfold Articles.createArticle. apply same_run_try_catch_at.
  cbn [req_body req_file req_user fallback_request with_body].
  rewrite fallback_lookup_category, fallback_lookup_tags, Hc.
  rewrite !run_ret_bind, !run_now_bind. unfold Category.findOne.
  change (toLowerCase "other") with "other".
  rewrite !run_orm_bind. cbn [fst snd clock]. rewrite Hfind, Hother.
  rewrite !run_ret_bind, !run_orm_bind. cbn [fst snd]. rewrite Hother, !run_ret_bind.
  rewrite Hname, Hne. cbn [andb negb String.eqb Ascii.eqb Bool.eqb].
  rewrite <- (publishedAt_of_agree _ _ c0 (fallback_agree c _ (req_body req))).
  generalize (mkWorld d [] s h c0).
  match goal with |- forall w, ?m w = ?m' w => change (same_run m m') end.
  same.
Qed.

Lemma run_bind_assoc {A B C} (m : M A) (k : A -> M B) (K : B -> M C) w :
  ((m ≫= k) ≫= K) w = (m ≫= (fun a => k a ≫= K)) w.
Proof. unfold mbind, M_bind. by destruct (m w) as [[a|] w']. Qed.

Lemma size_with_key (m : gmap string json) k v :
  m !! k = Some v -> (size m =? 0)%nat = false.
Proof.
  intros H. apply Nat.eqb_neq. intros E. apply map_size_empty_inv in E.
  rewrite E in H. by rewrite lookup_empty in H.
Qed.

Ltac run :=
  repeat (rewrite run_bind_assoc || rewrite run_ret_bind || rewrite run_orm_bind
          || rewrite run_now_bind);
  cbn [fst snd].

Lemma update_fallback ext req d s h c0 c other :
  req_body req !! "category" = Some (JStr c) ->
  c <> "" ->
  List.find (fun x => String.eqb (c_name x) (toLowerCase c)) (Categories_t d) = None ->
  List.find (fun x => String.eqb (c_name x) "other") (Categories_t d) = Some other ->
  Articles.update ext req (mkWorld d [] s h c0)
  = Articles.update ext (fallback_request c req) (mkWorld d [] s h c0).
Proof.
  intros Hc Hc0 Hfind Hother.
  pose proof (find_other_name _ _ Hother) as Hname.
  assert (Hne : String.eqb (toLowerCase c) "other" = false).
  { destruct (String.eqb_spec (toLowerCase c) "other") as [E|]; [|done].
    rewrite E in Hfind. congruence. }
  assert (Htruthy : truthy (Some (JStr c)) = true).
  { cbn. apply negb_true_iff. by apply String.eqb_neq. }
  unfold Articles.update. apply same_run_try_catch_at.
  cbn [req_body req_file req_user req_params fallback_request with_body].
  rewrite (size_with_key _ _ _ Hc), (size_with_key _ _ _ (fallback_lookup_category c _ _)).
  rewrite fallback_lookup_category, fallback_lookup_tags, Hc.
  rewrite !run_ret_bind. unfold Article.findBySlug, Article.findOne.
  rewrite !run_bind_assoc, !run_orm_bind. cbn [fst snd].
  destruct (List.find _ (Articles_t d)) as [a|]; rewrite !run_ret_bind; [|done].
  destruct (a_isArchived a); [done|].
  rewrite Htruthy. change (truthy (Some (JStr "other"))) with true. cbv iota.
  change (toLowerCase "other") with "other". unfold Category.findOne.
  run. rewrite Hfind, Hother. run. rewrite ?Hother. run.
  rewrite Hname, Hne. cbn [andb negb String.eqb Ascii.eqb Bool.eqb fst snd].
  generalize (mkWorld d [] s h c0).
  match goal with |- forall w, ?m w = ?m' w => change (same_run m m') end.
  same.
Qed.

Lemma assign_categoryId values n a :
  values !! "categoryId" = Some (JNum n) -> a_categoryId (Article.assign values a) = n.
Proof. unfold Article.assign, num_attr. cbn. by intros ->. Qed.

(** C4, as amended. A createArticle request whose lowercased category
    names no category, while a category 'other' exists, is served, when
    no call fails, exactly as the same request naming the category
    'other' with a comma and the lowercased category name appended to
    its tags, whatever they are: a string, an array, which is first
    joined by commas, or nothing, which reads 'undefined'. The article it
    creates has the category 'other'. The same holds of an update request
    with a non-empty category. *)
Theorem unknown_category_falls_back_to_other ext req w c other :
  faults w = [] ->
  req_body req !! "category" = Some (JStr c) ->
  List.find (fun x => String.eqb (c_name x) (toLowerCase c)) (Categories_t (db w)) = None ->
  List.find (fun x => String.eqb (c_name x) "other") (Categories_t (db w)) = Some other ->
  (Articles.createArticle ext req w = Articles.createArticle ext (fallback_request c req) w
   /\ forall b,
        last (sent (Articles.createArticle ext req w).2) = Some (mkResponse 200 b) ->
        exists row,
          Articles_t (db (Articles.createArticle ext req w).2) = Articles_t (db w) ++ [row]
          /\ a_categoryId row = c_id other)
  /\ (c <> "" ->
      Articles.update ext req w = Articles.update ext (fallback_request c req) w
      /\ forall b,
           last (sent (Articles.update ext req w).2) = Some (mkResponse 200 b) ->
           exists write,
             Articles_t (db (Articles.update ext req w).2)
             = List.map (fun a => if own_article req a then write a else a) (Articles_t (db w))
             /\ forall a, a_categoryId (write a) = c_id other).
Proof.
  intros Hf Hc Hfind Hother.
  assert (Hres : resolve_category (Categories_t (db w)) c = Some other).
  { unfold resolve_category. by rewrite Hfind. }
  destruct w as [d fs s h c0]. cbn [faults db] in *. subst fs. split; [split|intros Hne; split].
  - by apply createArticle_fallback with other.
  - intros b Hb.
    destruct (createArticle_success ext req _ b Hb) as (row & c' & cd & Hrows & _ & Hc' & Hcd & Hid).
    exists row. split; [done|]. cbn [db] in Hcd. congruence.
  - by apply update_fallback with other.
  - intros b Hb.
    destruct (update_success ext req _ b Hb) as (values & Hrows & _ & _ & Hcat).
    destruct (Hcat c Hc Hne) as (cd & Hcd & Hv). cbn [db] in Hcd.
    exists (Article.assign values). split; [done|]. intros a.
    rewrite (assign_categoryId _ _ _ Hv). congruence.
Qed.


(** C4, the claim as it stands, at a request for the category 'Sports'
    with the tags 'js,css': the category resolves to 'other', and the tag
    list of the article gets 'sports', not the original name 'Sports'. *)
Lemma original_category_name_is_not_appended :
  let w' := (Articles.createArticle sample_ext sports_request (sample_world sample_db [])).2 in
  req_body sports_request !! "category" = Some (JStr "Sports")
  /\ List.map (fun r => (status r, field "tagList" r)) (sent w')
     = [(200, Some (JArr [JStr "js"; JStr "css"; JStr "sports"]))]
  /\ ~ In (JStr "Sports") [JStr "js"; JStr "css"; JStr "sports"].
Proof.
  split_and!; [by vm_compute..|].
  intros [H|[H|[H|[]]]]; discriminate H.
Qed.

(** ** C5: the tag list *)

Lemma dedupe_In x l : In x (Tags.dedupe l) -> In x l.
Proof.
  revert x. induction l as [|y l IH]; intros x; cbn [Tags.dedupe]; [done|].
  intros [->|H]; [by left|]. right. apply filter_In in H as [H _]. by apply IH.
Qed.
















(** ** C8: response envelopes *)

Lemma dataValues_no_error a : Article.dataValues a !! "error" = None.
Proof. by vm_compute. Qed.

Lemma dataValues_no_message a : Article.dataValues a !! "message" = None.
Proof. by vm_compute. Qed.

Ltac no_key :=
  repeat first
    [ rewrite lookup_delete_ne by done
    | rewrite lookup_insert_ne by done
    | rewrite lookup_singleton_ne by done
    | apply dataValues_no_error
    | apply dataValues_no_message
    | apply lookup_empty
    | reflexivity ].

Ltac prove_envelope :=
  unfold envelope; cbn [status body]; split; [reflexivity|];
  lazymatch goal with
  | |- (error_envelope (error_body _) /\ _) \/ _ =>
      left; split; [eexists; reflexivity | reflexivity]
  | |- (error_envelope generic_error /\ _) \/ _ =>
      left; split; [exists "Something went wrong"; reflexivity | reflexivity]
  | |- (error_envelope (message_body _) /\ _) \/ _ =>
      right; left; split; [left; eexists; reflexivity | reflexivity]
  | |- (error_envelope (JObj (<["article" := _]> {[ "message" := _ ]})) /\ _) \/ _ =>
      right; left; split; [right; eexists _, _; reflexivity | reflexivity]
  | |- _ =>
      right; right; split;
      [ eexists; split_and!; [reflexivity | no_key | no_key] | reflexivity ]
  end.

Ltac refusal_status :=
  match goal with
  | Hc : Articles.canTag _ = Some ?p |- _ =>
      let t := fresh "text" in
      let H1 := fresh in
      let H2 := fresh in
      apply canTag_refusal in Hc as [H1 [t H2]]; rewrite H1, H2 in *
  end.

Ltac env_leaf :=
  let r := fresh "r" in
  let Hin := fresh "Hin" in
  intros r Hin; try refusal_status;
  repeat (apply in_app_or in Hin as [Hin|Hin]);
  first
    [ left; exact Hin
    | destruct Hin as [<-|[]]; right; prove_envelope ].

Lemma like_controller_envelopes o req w :
  wp (like_controller o req) w (fun _ w' => only_envelopes w w').
Proof.
  unfold only_envelopes. destruct o; cbn [like_controller]; wp_auto.
  all: env_leaf.
Qed.

Lemma createArticle_envelopes ext req w :
  wp (Articles.createArticle ext req) w (fun _ w' => only_envelopes w w').
Proof. unfold only_envelopes. wp_auto. all: env_leaf. Qed.

Lemma update_envelopes ext req w :
  wp (Articles.update ext req) w (fun _ w' => only_envelopes w w').
Proof. unfold only_envelopes. wp_auto. all: env_leaf. Qed.

Lemma userArticles_envelopes ext req w :
  wp (Articles.userArticles ext req) w (fun _ w' => only_envelopes w w').
Proof. unfold only_envelopes. wp_auto. all: env_leaf. Qed.

Lemma users_envelopes ext req w :
  wp (Users.create ext req) w (fun _ w' => only_envelopes w w')
  /\ wp (Users.verifyUserEmail req) w (fun _ w' => only_envelopes w w')
  /\ wp (Users.resendVerificationEmail ext req) w (fun _ w' => only_envelopes w w')
  /\ wp (Users.requestPasswordResetLink ext req) w (fun _ w' => only_envelopes w w')
  /\ wp (Users.changePassword ext req) w (fun _ w' => only_envelopes w w')
  /\ wp (Users.resetPassword ext req) w (fun _ w' => only_envelopes w w').
Proof. unfold only_envelopes. split_and!; wp_auto. all: env_leaf. Qed.

(** C8, as amended. Every response an operation of the article and user
    controllers adds has a status code among 200, 201, 400, 401, 403,
    404, 409, 422 and 500 and a JSON object as its body: [{ error }] with
    a status among 400, 401, 404, 409, 422 and 500; or [{ message }] or
    [{ message, article }] with a status among 200, 201, 403 and 404; or,
    with status 200 or 201, the resource itself, an object with neither a
    [message] nor an [error]. *)
Theorem responses_are_envelopes ext k req w r :
  In r (sent (operation ext k req w).2) -> In r (sent w) \/ envelope r.
Proof.
  revert r. change (only_envelopes w (operation ext k req w).2).
  pose proof (users_envelopes ext req w) as (H1 & H2 & H3 & H4 & H5 & H6).
  destruct k; cbn [operation];
    [ apply createArticle_envelopes | apply update_envelopes | apply userArticles_envelopes
    | apply like_controller_envelopes
    | exact H1 | exact H2 | exact H3 | exact H4 | exact H5 | exact H6 ].
Qed.

(** C8, the claim as it stands: a createArticle request with a tag of
    one character is answered with status 400, which is not among the
    listed codes, and a successful createArticle request is answered with
    the article itself, an object without a [message]. *)
Lemma status_400_and_bare_article_are_answered :
  sent (Articles.createArticle sample_ext short_tag_request (sample_world sample_db [])).2
  = [tags_refusal]
  /\ listed_status (status tags_refusal) = false
  /\ List.map (fun r => (status r, field "message" r, field "error" r))
       (sent (Articles.createArticle sample_ext sports_request (sample_world sample_db [])).2)
     = [(200, None, None)].
Proof. split_and!; by vm_compute. Qed.

(** ** The theorems at the sample data *)

Lemma sample_db_consistent : counts_consistent sample_db.
Proof. intros a [<-|[]]. by split. Qed.

Lemma sample_db_at_most_one : at_most_one sample_db.
Proof. intros u aid. cbn. lia. Qed.

Lemma counts_equal_rows_witness :
  faults (sample_world sample_db []) = []
  /\ counts_consistent
       (db (serve_all [(AddLike, like_request); (AddDislike, like_request);
                       (RemoveDislike, like_request)]
              (sample_world sample_db [])))
  /\ (forall a',
        In a' (Articles_t (db (serve (sample_world liked_db []) (RemoveLike, like_request)))) ->
        a_id a' = 1 ->
        a_likesCount a'
        = likes_of (db (serve (sample_world liked_db []) (RemoveLike, like_request))) (a_id a'))
  /\ List.map a_dislikesCount
       (Articles_t (db (serve (sample_world liked_db []) (RemoveLike, like_request))))
     = List.map a_dislikesCount (Articles_t (db (sample_world liked_db []))).
Proof.
  assert (Ht : target like_request (db (sample_world liked_db []))
               = Some (Article.set_likesCount 1 sample_article)) by (vm_compute; reflexivity).
  split_and!.
  - vm_compute; reflexivity.
  - apply (proj1 counts_equal_rows_after_like_operations);
      [vm_compute; reflexivity | exact sample_db_consistent].
  - intros a' Hin Hid.
    exact (proj1 (proj2 counts_equal_rows_after_like_operations) RemoveLike like_request
             (sample_world liked_db []) (Article.set_likesCount 1 sample_article) a'
             eq_refl Ht Hin Hid).
  - exact (proj1 (proj2 (proj2 counts_equal_rows_after_like_operations) like_request
                    (sample_world liked_db []) eq_refl)).
Defined.

Lemma at_most_one_reaction_witness :
  faults (sample_world sample_db []) = []
  /\ at_most_one
       (db (serve_all [(AddLike, like_request); (AddDislike, like_request);
                       (AddDislike, like_request); (RemoveLike, like_request)]
              (sample_world sample_db [])))
  /\ held_in (Likes_t (db (Articles.addLike like_request (sample_world disliked_db [])).2)) 7 1
     = 1%nat
  /\ held_in (Dislikes_t (db (Articles.addLike like_request (sample_world disliked_db [])).2)) 7 1
     = 0%nat.
Proof.
  split_and!.
  - vm_compute; reflexivity.
  - apply (proj1 at_most_one_reaction_per_user_and_article);
      [vm_compute; reflexivity | exact sample_db_at_most_one].
  - apply (proj1 (proj2 at_most_one_reaction_per_user_and_article) like_request
             (sample_world disliked_db []) (Article.set_dislikesCount 1 sample_article));
      vm_compute; reflexivity.
  - apply (proj1 (proj2 at_most_one_reaction_per_user_and_article) like_request
             (sample_world disliked_db []) (Article.set_dislikesCount 1 sample_article));
      vm_compute; reflexivity.
Defined.

Lemma already_liked_witness :
  target like_request liked_db = Some (Article.set_likesCount 1 sample_article)
  /\ held_in (Likes_t liked_db) 7 1 <> 0%nat
  /\ db (Articles.addLike like_request (sample_world liked_db [])).2 = liked_db
  /\ Articles.addLike like_request (sample_world liked_db [])
     = (Ok tt, mkWorld liked_db []
                 [mkResponse 200 (message_body "you have already liked this article")]
                 [] 5000).
Proof.
  assert (Ht : target like_request (db (sample_world liked_db []))
               = Some (Article.set_likesCount 1 sample_article)) by (vm_compute; reflexivity).
  assert (Hh : held_in (Likes_t (db (sample_world liked_db []))) (u_id (req_user like_request))
                 (a_id (Article.set_likesCount 1 sample_article)) <> 0%nat)
    by (vm_compute; lia).
  split_and!.
  - exact Ht.
  - exact Hh.
  - exact (proj1 (proj1 (already_liked_is_answered_not_repeated _ _ _ Ht) Hh)).
  - exact (proj2 (proj1 (already_liked_is_answered_not_repeated _ _ _ Ht) Hh) eq_refl).
Defined.

Lemma unknown_category_witness :
  faults (sample_world sample_db []) = []
  /\ req_body sports_request !! "category" = Some (JStr "Sports")
  /\ req_body sports_array_request !! "category" = Some (JStr "Sports")
  /\ List.find (fun x => String.eqb (c_name x) (toLowerCase "Sports")) (Categories_t sample_db)
     = None
  /\ List.find (fun x => String.eqb (c_name x) "other") (Categories_t sample_db)
     = Some (mkCategory 2 "other")
  /\ Articles.createArticle sample_ext sports_request (sample_world sample_db [])
     = Articles.createArticle sample_ext (fallback_request "Sports" sports_request)
         (sample_world sample_db [])
  /\ Articles.update sample_ext sports_request (sample_world sample_db [])
     = Articles.update sample_ext (fallback_request "Sports" sports_request)
         (sample_world sample_db [])
  /\ Articles.createArticle sample_ext sports_array_request (sample_world sample_db [])
     = Articles.createArticle sample_ext (fallback_request "Sports" sports_array_request)
         (sample_world sample_db []).
Proof.
  assert (H1 : faults (sample_world sample_db []) = []) by (vm_compute; reflexivity).
  assert (H2 : req_body sports_request !! "category" = Some (JStr "Sports"))
    by (vm_compute; reflexivity).
  assert (H3 : req_body sports_array_request !! "category" = Some (JStr "Sports"))
    by (vm_compute; reflexivity).
  assert (H4 : List.find (fun x => String.eqb (c_name x) (toLowerCase "Sports"))
                 (Categories_t (db (sample_world sample_db []))) = None)
    by (vm_compute; reflexivity).
  assert (H5 : List.find (fun x => String.eqb (c_name x) "other")
                 (Categories_t (db (sample_world sample_db []))) = Some (mkCategory 2 "other"))
    by (vm_compute; reflexivity).
  pose proof (unknown_category_falls_back_to_other sample_ext sports_request
                (sample_world sample_db []) "Sports" (mkCategory 2 "other")
                H1 H2 H4 H5) as [[Hc _] Hu].
  pose proof (unknown_category_falls_back_to_other sample_ext sports_array_request
                (sample_world sample_db []) "Sports" (mkCategory 2 "other")
                H1 H3 H4 H5) as [[Hc' _] _].
  split_and!; [exact H1 | exact H2 | exact H3 | exact H4 | exact H5 | exact Hc | | exact Hc'].
  apply Hu. discriminate.
Defined.


Lemma taken_email_witness :
  User.find_by "email" (req_body (signup_request "ann@example.com") !! "email")
    (Users_t sample_db) = Some sample_user
  /\ db (Users.create sample_ext (signup_request "ann@example.com") (sample_world sample_db [])).2
     = sample_db
  /\ sent (Users.create sample_ext (signup_request "ann@example.com")
             (sample_world sample_db [])).2
     = [mkResponse 409 (error_body "email has already been taken")].
Proof.
  assert (H1 : User.find_by "email" (req_body (signup_request "ann@example.com") !! "email")
                 (Users_t (db (sample_world sample_db []))) = Some sample_user)
    by (vm_compute; reflexivity).
  assert (H2 : next_fault (sample_world sample_db []) = false) by (vm_compute; reflexivity).
  pose proof (taken_email_is_answered_409 sample_ext (fun _ _ _ => mret tt)
                (signup_request "ann@example.com") (sample_world sample_db []) sample_user
                H1) as [(_ & _ & Hdb & Hs) _].
  split_and!; [exact H1 | exact Hdb | exact (Hs H2)].
Defined.

Lemma responses_are_envelopes_witness :
  In tags_refusal
     (sent (operation sample_ext CreateArticle short_tag_request (sample_world sample_db [])).2)
  /\ envelope tags_refusal.
Proof.
  assert (Hin : In tags_refusal
     (sent (operation sample_ext CreateArticle short_tag_request (sample_world sample_db [])).2)).
  { vm_compute. left. reflexivity. }
  split; [exact Hin|].
  destruct (responses_are_envelopes sample_ext CreateArticle short_tag_request
              (sample_world sample_db []) tags_refusal Hin) as [[]|He].
  exact He.
Defined.

Lemma publishedAt_witness :
  last (sent (Articles.createArticle sample_ext sports_request (sample_world sample_db [])).2)
  = Some (mkResponse 200 sports_answer)
  /\ (exists row,
        Articles_t (db (Articles.createArticle sample_ext sports_request
                          (sample_world sample_db [])).2)
        = Articles_t sample_db ++ [row]
        /\ publishedAt_spec (req_body sports_request) 5000 (a_publishedAt row))
  /\ last (sent (Articles.update sample_ext retitle_request (sample_world sample_db [])).2)
     = Some (mkResponse 200 retitle_answer)
  /\ (exists write,
        Articles_t (db (Articles.update sample_ext retitle_request (sample_world sample_db [])).2)
        = List.map (fun a => if own_article retitle_request a then write a else a)
                   (Articles_t sample_db)
        /\ forall a, publishedAt_spec (req_body retitle_request) 5000 (a_publishedAt (write a))).
Proof.
  assert (H1 : last (sent (Articles.createArticle sample_ext sports_request
                             (sample_world sample_db [])).2)
               = Some (mkResponse 200 sports_answer)) by (vm_compute; reflexivity).
  assert (H2 : last (sent (Articles.update sample_ext retitle_request
                             (sample_world sample_db [])).2)
               = Some (mkResponse 200 retitle_answer)) by (vm_compute; reflexivity).
  split_and!; [exact H1 | | exact H2 | ].
  - exact (proj1 (publishedAt_is_recomputed_from_body sample_ext sports_request
                    (sample_world sample_db []) sports_answer) H1).
  - destruct (proj2 (publishedAt_is_recomputed_from_body sample_ext retitle_request
                       (sample_world sample_db []) retitle_answer) H2)
      as (write & Hrows & _ & Hp).
    exists write. split; [exact Hrows | exact Hp].
Defined.

Lemma created_user_witness :
  last (sent (Users.create sample_ext (signup_request "bob@example.com")
                (sample_world sample_db [])).2)
  = Some (mkResponse 201 signup_answer)
  /\ exists p row token user,
       req_body (signup_request "bob@example.com") !! "password" = Some (JStr p)
       /\ Users_t (db (Users.create sample_ext (signup_request "bob@example.com")
                         (sample_world sample_db [])).2)
          = Users_t sample_db ++ [row]
       /\ usr_values row !! "password" = Some (JStr (bcrypt_hash sample_ext p 10))
       /\ (bcrypt_hash sample_ext p 10 <> p -> usr_values row !! "password" <> Some (JStr p))
       /\ signup_answer = JObj (<["token" := JStr token]> {[ "user" := JObj user ]})
       /\ user !! "password" = None.
Proof.
  assert (H : last (sent (Users.create sample_ext (signup_request "bob@example.com")
                            (sample_world sample_db [])).2)
              = Some (mkResponse 201 signup_answer)) by (vm_compute; reflexivity).
  split; [exact H|].
  exact (created_user_stores_hash_and_hides_it sample_ext (signup_request "bob@example.com")
           (sample_world sample_db []) signup_answer H).
Defined.

(** * Further properties of the code *)

(** ** helpers/findUser *)

Lemma no_line_break_nil : no_line_break "".
Proof. intros c []. Qed.

Lemma no_line_break_cons c s :
  no_line_break (String c s) <-> line_break c = false /\ no_line_break s.
Proof.
  unfold no_line_break. cbn [list_ascii_of_string]. split.
  - intros H. split; [apply H; by left|]. intros c' Hc'. apply H. by right.
  - intros [H1 H2] c' [<-|Hc']; [done|by apply H2].
Qed.

Lemma dot_follows_spec s : forall k,
  dot_follows k s = true <->
  exists mid post,
    s = mid +:+ "." +:+ post
    /\ (2 <= k + String.length mid <= 15)%nat /\ no_line_break mid.
Proof.
  induction s as [|c r IH]; intros k; cbn [dot_follows].
  - split; [done|]. intros (mid & post & H & _). by destruct mid.
  - rewrite orb_true_iff, !andb_true_iff, negb_true_iff, Nat.ltb_lt, !Nat.leb_le, IH.
    split.
    + intros [[[Hc H2] H15]|[[Hc Hk] (mid & post & -> & Hlen & Hmid)]].
      * apply Ascii.eqb_eq in Hc as ->. exists "", r.
        split_and!; [done|cbn; lia|cbn; lia|apply no_line_break_nil].
      * exists (String c mid), post.
        split_and!; [done|cbn; lia|cbn; lia|by apply no_line_break_cons].
    + intros (mid & post & H & Hlen & Hmid). destruct mid as [|c' mid].
      * cbn in H. injection H as -> ->. left. cbn in Hlen.
        split_and!; [done|lia|lia].
      * cbn in H. injection H as -> ->. apply no_line_break_cons in Hmid as [Hc Hmid].
        cbn [String.length] in Hlen. right.
        split_and!; [done|lia|]. exists mid, post. split_and!; [done|lia|lia|done].
Qed.

Lemma at_dot_test_spec s : at_dot_test s = true <-> at_dot_spec s.
Proof.
  unfold at_dot_spec. induction s as [|c r IH]; cbn [at_dot_test].
  - split; [done|]. intros (pre & mid & post & H & _). by destruct pre.
  - rewrite orb_true_iff, andb_true_iff, IH, dot_follows_spec. split.
    + intros [[Hc (mid & post & -> & Hlen & Hmid)]|(pre & mid & post & -> & Hlen & Hmid)].
      * apply Ascii.eqb_eq in Hc as ->. exists "", mid, post.
        split_and!; [done|lia|lia|done].
      * exists (String c pre), mid, post. split_and!; [done|lia|lia|done].
    + intros (pre & mid & post & H & Hlen & Hmid). destruct pre as [|c' pre].
      * cbn in H. injection H as -> ->. left. split; [done|].
        exists mid, post. split_and!; [done|lia|lia|done].
      * cbn in H. injection H as -> ->. right. exists pre, mid, post.
        split_and!; [done|lia|lia|done].
Qed.

(** A string matched by [/@.{2,15}\./] holds an [@], which is not a
    digit: the test [/\D/] adds nothing. *)
Lemma at_dot_test_non_digit s : at_dot_test s = true -> non_digit_test s = true.
Proof.
  induction s as [|c r IH]; cbn [at_dot_test non_digit_test]; [done|].
  intros [[Hc _]%andb_true_iff|H]%orb_true_iff.
  - apply Ascii.eqb_eq in Hc as ->. done.
  - rewrite IH by done. apply orb_true_r.
Qed.

(** X1. [findUser] looks the parameter up by email exactly when it holds
    an [@] followed by between 2 and 15 characters other than line
    breaks and then a dot, and by user name otherwise; the lookup never
    changes a table. *)
Theorem findUser_by_email_iff_at_and_dot parameter w :
  next_fault w = false ->
  (at_dot_spec parameter ->
   (findUser parameter w).1
   = Ok (User.find_by "email" (Some (JStr parameter)) (Users_t (db w))))
  /\ (~ at_dot_spec parameter ->
      (findUser parameter w).1
      = Ok (User.find_by "userName" (Some (JStr parameter)) (Users_t (db w))))
  /\ db (findUser parameter w).2 = db w.
Proof.
  intros Hf. unfold findUser, findUser_attr, orm. rewrite Hf. cbn [fst snd db with_db].
  split_and!; [| |done].
  - intros H%at_dot_test_spec. by rewrite (at_dot_test_non_digit _ H), H.
  - intros H. destruct (at_dot_test parameter) eqn:E.
    + by apply at_dot_test_spec in E.
    + by rewrite andb_false_r.
Qed.

(** ** The like and dislike operations: what they leave alone *)

Lemma drop_drop u aid t : drop_reactions u aid (drop_reactions u aid t) = drop_reactions u aid t.
Proof. unfold drop_reactions. by apply filter_filter_absorb. Qed.

Lemma drop_put u aid t : drop_reactions u aid (put_reaction u aid t) = drop_reactions u aid t.
Proof.
  unfold drop_reactions, put_reaction. rewrite List.filter_app. cbn [List.filter].
  unfold reaction_where. cbn [r_userId r_contentType r_contentId].
  rewrite !Z.eqb_refl. cbn. apply app_nil_r.
Qed.

Lemma without_counts_recount aid (g : ArticleRow -> ArticleRow) l :
  (forall a, without_counts (g a) = without_counts a) ->
  List.map without_counts (List.map (fun a => if Article.where_id aid a then g a else a) l)
  = List.map without_counts l.
Proof.
  intros Hg. rewrite List.map_map. apply List.map_ext. intros a.
  destruct (Article.where_id aid a); [apply Hg|done].
Qed.

Lemma others_recount aid (g : ArticleRow -> ArticleRow) l :
  (forall a, a_id (g a) = a_id a) ->
  List.filter (fun x => negb (Article.where_id aid x))
    (List.map (fun a => if Article.where_id aid a then g a else a) l)
  = List.filter (fun x => negb (Article.where_id aid x)) l.
Proof.
  intros Hg. induction l as [|a l IH]; [done|]. cbn [List.map List.filter].
  destruct (Article.where_id aid a) eqn:E.
  - unfold Article.where_id in *. rewrite Hg, E. cbn [negb]. apply IH.
  - rewrite E. cbn [negb]. by rewrite IH.
Qed.

Ltac tables_simpl :=
  cbn [Articles_t Likes_t Dislikes_t Categories_t Tags_t ArticleTags_t Users_t Sessions_t
       ResetPasswords_t set_Articles set_Likes set_Dislikes set_Tags set_ArticleTags
       set_Users set_Sessions set_ResetPasswords] in *.

Lemma same_but_reactions_refl u aid d : same_but_reactions u aid d d.
Proof. by unfold same_but_reactions. Qed.

Lemma same_but_reactions_drop_likes u aid d d' :
  same_but_reactions u aid d d' ->
  same_but_reactions u aid d (set_Likes (List.filter (fun r => negb (reaction_where u "article" aid r))) d').
Proof.
  unfold same_but_reactions. tables_simpl. intros H. destruct_and!. split_and!; try done.
  fold (drop_reactions u aid (Likes_t d')). by rewrite drop_drop.
Qed.

Lemma same_but_reactions_drop_dislikes u aid d d' :
  same_but_reactions u aid d d' ->
  same_but_reactions u aid d (set_Dislikes (List.filter (fun r => negb (reaction_where u "article" aid r))) d').
Proof.
  unfold same_but_reactions. tables_simpl. intros H. destruct_and!. split_and!; try done.
  fold (drop_reactions u aid (Dislikes_t d')). by rewrite drop_drop.
Qed.

Lemma same_but_reactions_put_like u aid d d' :
  same_but_reactions u aid d d' ->
  same_but_reactions u aid d (set_Likes (fun l => l ++ [mkReaction u "article" aid]) d').
Proof.
  unfold same_but_reactions. tables_simpl. intros H. destruct_and!. split_and!; try done.
  fold (put_reaction u aid (Likes_t d')). by rewrite drop_put.
Qed.

Lemma same_but_reactions_put_dislike u aid d d' :
  same_but_reactions u aid d d' ->
  same_but_reactions u aid d (set_Dislikes (fun l => l ++ [mkReaction u "article" aid]) d').
Proof.
  unfold same_but_reactions. tables_simpl. intros H. destruct_and!. split_and!; try done.
  fold (put_reaction u aid (Dislikes_t d')). by rewrite drop_put.
Qed.

Lemma same_but_reactions_likesCount u aid n d d' :
  same_but_reactions u aid d d' ->
  same_but_reactions u aid d
    (set_Articles (List.map (fun a =>
       if Article.where_id aid a then Article.set_likesCount n a else a)) d').
Proof.
  unfold same_but_reactions. tables_simpl. intros H. destruct_and!. split_and!; try done.
  - by rewrite without_counts_recount.
  - by rewrite others_recount.
Qed.

Lemma same_but_reactions_dislikesCount u aid n d d' :
  same_but_reactions u aid d d' ->
  same_but_reactions u aid d
    (set_Articles (List.map (fun a =>
       if Article.where_id aid a then Article.set_dislikesCount n a else a)) d').
Proof.
  unfold same_but_reactions. tables_simpl. intros H. destruct_and!. split_and!; try done.
  - by rewrite without_counts_recount.
  - by rewrite others_recount.
Qed.

Ltac frame_steps :=
  repeat first
    [ apply same_but_reactions_refl
    | apply same_but_reactions_drop_likes
    | apply same_but_reactions_drop_dislikes
    | apply same_but_reactions_put_like
    | apply same_but_reactions_put_dislike
    | apply same_but_reactions_likesCount
    | apply same_but_reactions_dislikesCount ].

Lemma like_controller_frame o req w a :
  target req (db w) = Some a ->
  wp (like_controller o req) w (fun _ w' =>
    same_but_reactions (u_id (req_user req)) (a_id a) (db w) (db w')).
Proof.
  intros Ht. unfold target in Ht.
  destruct o; cbn [like_controller]; repeat wp_any; try apply same_but_reactions_refl.
  all: rewrite Ht; wp_auto; frame_steps.
Qed.

(** X2. Whatever calls fail, a like, dislike, remove-like or
    remove-dislike request changes at most the like and dislike rows of
    the requesting user on the article it addresses and the two counts
    of that article: every other like and dislike row, every other
    article, every other attribute of the article and every other table
    are as they were. *)
Theorem like_operations_touch_only_their_own_rows o req w a :
  target req (db w) = Some a ->
  same_but_reactions (u_id (req_user req)) (a_id a) (db w) (db (like_controller o req w).2).
Proof. intros Ht. exact (like_controller_frame o req w a Ht). Qed.

Lemma like_controller_missing o req w :
  target req (db w) = None ->
  wp (like_controller o req) w (fun _ w' =>
    db w' = db w
    /\ (next_fault w = false ->
        sent w' = sent w ++ [mkResponse 404 (error_body "article not found")])).
Proof.
  intros Ht. unfold target in Ht.
  destruct o; cbn [like_controller]; repeat wp_any; try (split; [done|congruence]).
  all: rewrite Ht; wp_auto; done.
Qed.

(** X3. A like, dislike, remove-like or remove-dislike request for a slug
    that no article has leaves every table as it was, whatever calls
    fail, and, when the lookup of the article does not fail, is answered
    with status 404 and the error 'article not found'. *)
Theorem like_operations_on_a_missing_article o req w :
  target req (db w) = None ->
  db (like_controller o req w).2 = db w
  /\ (next_fault w = false ->
      sent (like_controller o req w).2
      = sent w ++ [mkResponse 404 (error_body "article not found")]).
Proof. intros Ht. exact (like_controller_missing o req w Ht). Qed.

(** ** The like and dislike operations: their answers *)

Lemma find_slug_recount slug aid (g : ArticleRow -> ArticleRow) l :
  (forall a, a_slug (g a) = a_slug a) ->
  List.find (fun a => String.eqb (a_slug a) slug)
    (List.map (fun a => if Article.where_id aid a then g a else a) l)
  = (fun a => if Article.where_id aid a then g a else a)
      <$> List.find (fun a => String.eqb (a_slug a) slug) l.
Proof.
  intros Hg. induction l as [|a l IH]; [done|]. cbn [List.map List.find].
  replace (a_slug (if Article.where_id aid a then g a else a)) with (a_slug a)
    by (destruct (Article.where_id aid a); by rewrite ?Hg).
  destruct (String.eqb (a_slug a) slug); [done|apply IH].
Qed.

Lemma held_where u aid r :
  of_article aid r && (r_userId r =? u) = reaction_where u "article" aid r.
Proof.
  unfold of_article, reaction_where.
  destruct (r_userId r =? u), (r_contentId r =? aid), (String.eqb (r_contentType r) "article"); done.
Qed.

Lemma held_none_filter t u aid :
  held_in t u aid = 0%nat ->
  List.filter (fun r => of_article aid r && (r_userId r =? u)) t = [].
Proof. unfold held_in. intros H. by apply length_zero_iff_nil. Qed.

Lemma drop_none t u aid : held_in t u aid = 0%nat -> drop_reactions u aid t = t.
Proof.
  unfold held_in, drop_reactions. induction t as [|r t IH]; [done|].
  cbn [List.filter]. rewrite held_where.
  destruct (reaction_where u "article" aid r); cbn [negb length]; [done|].
  intros H. by rewrite IH.
Qed.

Lemma wp_run {A} (m : M A) w x : wp m w (fun r w' => (r, w') = x) -> m w = x.
Proof. unfold wp. by destruct (m w). Qed.

(** The answer of [customArticleResponse] under the empty fault plan. *)
Lemma customArticleResponse_like code slug u msg d s h c a r rows :
  List.find (fun a => String.eqb (a_slug a) slug) (Articles_t d) = Some a ->
  List.filter (fun r => of_article (a_id a) r && (r_userId r =? u)) (Likes_t d) = r :: rows ->
  Articles.customArticleResponse code slug u "like" msg (mkWorld d [] s h c)
  = (Ok tt, mkWorld d [] (s ++ [mkResponse code
       (JObj (<["article" := JObj (<["likes" := JArr (List.map Article.reaction_json (r :: rows))]>
                                    (Article.dataValues a))]>
                {[ "message" := JStr msg ]}))]) h c).
Proof.
  intros Hf Hr. apply wp_run. repeat wp_step. rewrite Hf, Hr. reflexivity.
Qed.

Lemma customArticleResponse_dislike code slug u msg d s h c a r rows :
  List.find (fun a => String.eqb (a_slug a) slug) (Articles_t d) = Some a ->
  List.filter (fun r => of_article (a_id a) r && (r_userId r =? u)) (Dislikes_t d) = r :: rows ->
  Articles.customArticleResponse code slug u "dislike" msg (mkWorld d [] s h c)
  = (Ok tt, mkWorld d [] (s ++ [mkResponse code
       (JObj (<["article" := JObj (<["dislikes" := JArr (List.map Article.reaction_json (r :: rows))]>
                                    (Article.dataValues a))]>
                {[ "message" := JStr msg ]}))]) h c).
Proof.
  intros Hf Hr. apply wp_run. repeat wp_step. rewrite Hf, Hr. reflexivity.
Qed.

Lemma customArticleResponse_remove code slug u msg d s h c :
  Articles.customArticleResponse code slug u "removeLikeOrDislike" msg (mkWorld d [] s h c)
  = (Ok tt, mkWorld d [] (s ++ [mkResponse code
       (JObj (<["article" := Articles.opt_json
                  (JObj ∘ Article.dataValues
                     <$> List.find (fun a => String.eqb (a_slug a) slug) (Articles_t d))]>
                {[ "message" := JStr msg ]}))]) h c).
Proof. apply wp_run. repeat wp_step. reflexivity. Qed.

Lemma wp_of_run {A} (m : M A) w r w' (Q : Result A -> World -> Prop) :
  m w = (r, w') -> Q r w' -> wp m w Q.
Proof. unfold wp. by intros ->. Qed.

(** Symbolic execution that stops at the call of [customArticleResponse]. *)
Ltac wp_to_answer :=
  repeat lazymatch goal with
  | |- wp (Articles.customArticleResponse _ _ _ _ _) _ _ => fail
  | |- _ => wp_step
  end.

Lemma target_like_db req u aid d a :
  target req d = Some a -> a_id a = aid ->
  target req (like_db u aid d)
  = Some (Article.set_likesCount (likes_of (set_Likes (put_reaction u aid) d) aid)
            (Article.set_dislikesCount
               (dislikes_of (set_Dislikes (drop_reactions u aid) d) aid) a)).
Proof.
  unfold target, like_db, recount_likes, recount_dislikes. tables_simpl.
  intros Ht <-. rewrite !find_slug_recount by done. rewrite Ht. cbn [fmap option_fmap option_map].
  unfold Article.where_id at 2. rewrite Z.eqb_refl.
  unfold Article.where_id. cbn [a_id Article.set_dislikesCount]. rewrite Z.eqb_refl.
  reflexivity.
Qed.

Lemma addLike_answer req d s h c a :
  target req d = Some a ->
  held_in (Likes_t d) (u_id (req_user req)) (a_id a) = 0%nat ->
  let u := u_id (req_user req) in
  let d' := like_db u (a_id a) d in
  exists a',
    target req d' = Some a' /\ a_id a' = a_id a /\ counts_match d' a'
    /\ Articles.addLike req (mkWorld d [] s h c)
       = (Ok tt, mkWorld d' [] (s ++ [mkResponse 201
            (JObj (<["article" :=
                       JObj (<["likes" := JArr [Article.reaction_json (mkReaction u "article" (a_id a))]]>
                               (Article.dataValues a'))]>
                     {[ "message" := JStr "like added successfully" ]}))]) h c).
Proof.
  intros Ht Hheld u d'.
  pose proof (target_like_db req u (a_id a) d a Ht eq_refl) as Ht'.
  eexists. split; [exact Ht'|]. split; [done|].
  split.
  { apply like_db_recounts; [|done]. unfold target in Ht'. by apply find_some in Ht' as [? _]. }
  apply wp_run. unfold target in Ht. pose proof (held_none_filter _ _ _ Hheld) as Hnone.
  wp_to_answer. rewrite Ht. wp_to_answer. rewrite Hnone. cbn [length Nat.eqb negb].
  wp_to_answer.
  eapply wp_of_run.
  - eapply customArticleResponse_like.
    + exact Ht'.
    + cbn [a_id Article.set_likesCount Article.set_dislikesCount]. tables_simpl.
      rewrite List.filter_app, Hnone. cbn [List.filter app]. unfold of_article.
      cbn [r_userId r_contentType r_contentId]. rewrite !Z.eqb_refl. reflexivity.
  - reflexivity.
Qed.

Lemma target_dislike_db req u aid d a :
  target req d = Some a -> a_id a = aid ->
  target req (dislike_db u aid d)
  = Some (Article.set_dislikesCount (dislikes_of (set_Dislikes (put_reaction u aid) d) aid)
            (Article.set_likesCount
               (likes_of (set_Likes (drop_reactions u aid) d) aid) a)).
Proof.
  unfold target, dislike_db, recount_likes, recount_dislikes. tables_simpl.
  intros Ht <-. rewrite !find_slug_recount by done. rewrite Ht. cbn [fmap option_fmap option_map].
  unfold Article.where_id at 2. rewrite Z.eqb_refl.
  unfold Article.where_id. cbn [a_id Article.set_likesCount]. rewrite Z.eqb_refl.
  reflexivity.
Qed.

Lemma addDislike_answer req d s h c a :
  target req d = Some a ->
  held_in (Dislikes_t d) (u_id (req_user req)) (a_id a) = 0%nat ->
  let u := u_id (req_user req) in
  let d' := dislike_db u (a_id a) d in
  exists a',
    target req d' = Some a' /\ a_id a' = a_id a /\ counts_match d' a'
    /\ Articles.addDislike req (mkWorld d [] s h c)
       = (Ok tt, mkWorld d' [] (s ++ [mkResponse 201
            (JObj (<["article" :=
                       JObj (<["dislikes" := JArr [Article.reaction_json (mkReaction u "article" (a_id a))]]>
                               (Article.dataValues a'))]>
                     {[ "message" := JStr "dislike added successfully" ]}))]) h c).
Proof.
  intros Ht Hheld u d'.
  pose proof (target_dislike_db req u (a_id a) d a Ht eq_refl) as Ht'.
  eexists. split; [exact Ht'|]. split; [done|].
  split.
  { apply dislike_db_recounts; [|done]. unfold target in Ht'. by apply find_some in Ht' as [? _]. }
  apply wp_run. unfold target in Ht. pose proof (held_none_filter _ _ _ Hheld) as Hnone.
  wp_to_answer. rewrite Ht. wp_to_answer. rewrite Hnone. cbn [length Nat.eqb negb].
  wp_to_answer.
  eapply wp_of_run.
  - eapply customArticleResponse_dislike.
    + exact Ht'.
    + cbn [a_id Article.set_likesCount Article.set_dislikesCount]. tables_simpl.
      rewrite List.filter_app, Hnone. cbn [List.filter app]. unfold of_article.
      cbn [r_userId r_contentType r_contentId]. rewrite !Z.eqb_refl. reflexivity.
  - reflexivity.
Qed.

(** X4. A like request of a user who holds no like row on the article it
    addresses, served without a failing call, is answered with status
    201, the message 'like added successfully' and the article as it is
    stored afterwards: its two counts equal the numbers of its like and
    dislike rows, and its [likes] are the one new row of the user. The
    same holds of a dislike request, 'dislike added successfully' and
    [dislikes]. *)
Theorem added_reaction_is_answered_with_the_recounted_article req d s h c a :
  target req d = Some a ->
  let u := u_id (req_user req) in
  (held_in (Likes_t d) u (a_id a) = 0%nat ->
   exists a',
     target req (like_db u (a_id a) d) = Some a' /\ a_id a' = a_id a
     /\ counts_match (like_db u (a_id a) d) a'
     /\ Articles.addLike req (mkWorld d [] s h c)
        = (Ok tt, mkWorld (like_db u (a_id a) d) [] (s ++ [mkResponse 201
             (JObj (<["article" :=
                        JObj (<["likes" := JArr [Article.reaction_json
                                                   (mkReaction u "article" (a_id a))]]>
                                (Article.dataValues a'))]>
                      {[ "message" := JStr "like added successfully" ]}))]) h c))
  /\ (held_in (Dislikes_t d) u (a_id a) = 0%nat ->
      exists a',
        target req (dislike_db u (a_id a) d) = Some a' /\ a_id a' = a_id a
        /\ counts_match (dislike_db u (a_id a) d) a'
        /\ Articles.addDislike req (mkWorld d [] s h c)
           = (Ok tt, mkWorld (dislike_db u (a_id a) d) [] (s ++ [mkResponse 201
                (JObj (<["article" :=
                           JObj (<["dislikes" := JArr [Article.reaction_json
                                                         (mkReaction u "article" (a_id a))]]>
                                   (Article.dataValues a'))]>
                         {[ "message" := JStr "dislike added successfully" ]}))]) h c)).
Proof.
  intros Ht u. split; intros Hheld.
  - exact (addLike_answer req d s h c a Ht Hheld).
  - exact (addDislike_answer req d s h c a Ht Hheld).
Qed.

(** ** Removing a reaction that is not held *)

Lemma recount_likes_fixed aid d :
  counts_consistent d -> recount_likes aid d = d.
Proof.
  intros Hc. unfold recount_likes, set_Articles. destruct d as [arts ls ds cs ts ats us ss rs].
  cbn [Articles_t Likes_t Dislikes_t Categories_t Tags_t ArticleTags_t Users_t Sessions_t
       ResetPasswords_t]. f_equal.
  rewrite <- (List.map_id arts) at 2. apply List.map_ext_in. intros a Hin.
  unfold Article.where_id. destruct (Z.eqb_spec (a_id a) aid) as [<-|]; [|done].
  destruct (Hc a Hin) as [<- _]. by destruct a.
Qed.

Lemma recount_dislikes_fixed aid d :
  counts_consistent d -> recount_dislikes aid d = d.
Proof.
  intros Hc. unfold recount_dislikes, set_Articles. destruct d as [arts ls ds cs ts ats us ss rs].
  cbn [Articles_t Likes_t Dislikes_t Categories_t Tags_t ArticleTags_t Users_t Sessions_t
       ResetPasswords_t]. f_equal.
  rewrite <- (List.map_id arts) at 2. apply List.map_ext_in. intros a Hin.
  unfold Article.where_id. destruct (Z.eqb_spec (a_id a) aid) as [<-|]; [|done].
  destruct (Hc a Hin) as [_ <-]. by destruct a.
Qed.

Lemma set_Likes_same d : set_Likes (fun _ => Likes_t d) d = d.
Proof. by destruct d. Qed.

Lemma set_Dislikes_same d : set_Dislikes (fun _ => Dislikes_t d) d = d.
Proof. by destruct d. Qed.

Lemma unlike_db_not_held u aid d :
  held_in (Likes_t d) u aid = 0%nat -> counts_consistent d -> unlike_db u aid d = d.
Proof.
  intros Hheld Hc. unfold unlike_db.
  replace (set_Likes (drop_reactions u aid) d) with d.
  - by apply recount_likes_fixed.
  - destruct d. unfold set_Likes. tables_simpl. by rewrite drop_none.
Qed.

Lemma undislike_db_not_held u aid d :
  held_in (Dislikes_t d) u aid = 0%nat -> counts_consistent d -> undislike_db u aid d = d.
Proof.
  intros Hheld Hc. unfold undislike_db.
  replace (set_Dislikes (drop_reactions u aid) d) with d.
  - by apply recount_dislikes_fixed.
  - destruct d. unfold set_Dislikes. tables_simpl. by rewrite drop_none.
Qed.

Lemma removeLike_run req d s h c a :
  target req d = Some a ->
  let d' := unlike_db (u_id (req_user req)) (a_id a) d in
  Articles.removeLike req (mkWorld d [] s h c)
  = (Ok tt, mkWorld d' [] (s ++ [mkResponse 200
       (JObj (<["article" := Articles.opt_json (JObj ∘ Article.dataValues <$> target req d')]>
                {[ "message" := JStr "like removed successfully" ]}))]) h c).
Proof.
  intros Ht d'. apply wp_run. unfold target in Ht.
  wp_to_answer. rewrite Ht. wp_to_answer.
  eapply wp_of_run; [apply customArticleResponse_remove|]. reflexivity.
Qed.

Lemma removeDislike_run req d s h c a :
  target req d = Some a ->
  let d' := undislike_db (u_id (req_user req)) (a_id a) d in
  Articles.removeDislike req (mkWorld d [] s h c)
  = (Ok tt, mkWorld d' [] (s ++ [mkResponse 200
       (JObj (<["article" := Articles.opt_json (JObj ∘ Article.dataValues <$> target req d')]>
                {[ "message" := JStr "dislike removed successfully" ]}))]) h c).
Proof.
  intros Ht d'. apply wp_run. unfold target in Ht.
  wp_to_answer. rewrite Ht. wp_to_answer.
  eapply wp_of_run; [apply customArticleResponse_remove|]. reflexivity.
Qed.

(** X5. Removing a like that the user does not hold is not refused: with
    stored counts that agree with the rows and no failing call, the
    request leaves every table as it was and is answered with status 200,
    the message 'like removed successfully' and the article. The same
    holds of removing a dislike that is not held. *)
Theorem removing_a_reaction_not_held_is_answered_as_a_success req d s h c a :
  target req d = Some a ->
  counts_consistent d ->
  let u := u_id (req_user req) in
  (held_in (Likes_t d) u (a_id a) = 0%nat ->
   Articles.removeLike req (mkWorld d [] s h c)
   = (Ok tt, mkWorld d [] (s ++ [mkResponse 200
        (JObj (<["article" := JObj (Article.dataValues a)]>
                 {[ "message" := JStr "like removed successfully" ]}))]) h c))
  /\ (held_in (Dislikes_t d) u (a_id a) = 0%nat ->
      Articles.removeDislike req (mkWorld d [] s h c)
      = (Ok tt, mkWorld d [] (s ++ [mkResponse 200
           (JObj (<["article" := JObj (Article.dataValues a)]>
                    {[ "message" := JStr "dislike removed successfully" ]}))]) h c)).
Proof.
  intros Ht Hc u. split; intros Hheld.
  - rewrite (removeLike_run req d s h c a Ht). cbv zeta.
    rewrite unlike_db_not_held by done. by rewrite Ht.
  - rewrite (removeDislike_run req d s h c a Ht). cbv zeta.
    rewrite undislike_db_not_held by done. by rewrite Ht.
Qed.

(** ** A like followed by its removal *)

Lemma serve_db o req d s h c :
  db (serve (mkWorld d [] s h c) (o, req)) = like_effect o req d
  /\ faults (serve (mkWorld d [] s h c) (o, req)) = [].
Proof.
  unfold serve. cbn [fst snd].
  destruct (like_controller_quiet o req d s h c) as [s' ->]. done.
Qed.

(** X6. When a user who holds no like row on an article likes it and then
    removes the like, no call failing, the [Likes] table is again what it
    was; a dislike row the user held on the article is not restored: the
    [Dislikes] table is what it was without the rows of the user on the
    article. *)
Theorem like_then_remove_like_restores_the_likes req d s h c a :
  target req d = Some a ->
  held_in (Likes_t d) (u_id (req_user req)) (a_id a) = 0%nat ->
  let w' := serve_all [(AddLike, req); (RemoveLike, req)] (mkWorld d [] s h c) in
  Likes_t (db w') = Likes_t d
  /\ Dislikes_t (db w') = drop_reactions (u_id (req_user req)) (a_id a) (Dislikes_t d)
  /\ held (db w') (u_id (req_user req)) (a_id a) = 0%nat.
Proof.
  intros Ht Hheld w'. subst w'. unfold serve_all. cbn [List.fold_left].
  set (u := u_id (req_user req)) in *.
  assert (Hdb : db (serve (serve (mkWorld d [] s h c) (AddLike, req)) (RemoveLike, req))
                = unlike_db u (a_id a) (like_db u (a_id a) d)).
  { destruct (like_controller_quiet AddLike req d s h c) as [s1 H1].
    unfold serve at 2. cbn [fst snd]. rewrite H1. cbn [snd].
    destruct (serve_db RemoveLike req (like_effect AddLike req d) s1 h c) as [-> _].
    unfold like_effect at 2. rewrite Ht. fold u. rewrite Hheld. cbn [Nat.eqb].
    unfold like_effect. rewrite (target_like_db req u (a_id a) d a Ht eq_refl).
    cbn [a_id Article.set_likesCount Article.set_dislikesCount]. by fold u. }
  rewrite Hdb.
  assert (HL : Likes_t (unlike_db u (a_id a) (like_db u (a_id a) d)) = Likes_t d).
  { unfold unlike_db, like_db, recount_likes, recount_dislikes. tables_simpl.
    by rewrite drop_put, drop_none. }
  assert (HD : Dislikes_t (unlike_db u (a_id a) (like_db u (a_id a) d))
               = drop_reactions u (a_id a) (Dislikes_t d)).
  { unfold unlike_db, like_db, recount_likes, recount_dislikes. by tables_simpl. }
  split_and!; [done..|]. unfold held. rewrite HL, HD, Hheld, held_drop_same. done.
Qed.

(** ** Creating an article *)

Lemma created_values_lookup k x y z image (body : gmap string json) :
  k <> "categoryId" -> k <> "publishedAt" -> k <> "authorId" -> k <> "image" ->
  (<["categoryId" := x]> (<["publishedAt" := y]> (<["authorId" := z]>
     (Articles.with_image image body)))) !! k = body !! k.
Proof.
  intros. rewrite !lookup_insert_ne by done. destruct image; cbn [Articles.with_image].
  - by rewrite lookup_insert_ne.
  - by rewrite lookup_delete_ne.
Qed.

Lemma created_values_authorId x y z image (body : gmap string json) :
  num_attr (<["categoryId" := x]> (<["publishedAt" := y]> (<["authorId" := JNum z]>
     (Articles.with_image image body)))) "authorId" = Some z.
Proof.
  unfold num_attr. rewrite !lookup_insert_ne by done. by rewrite lookup_insert_eq.
Qed.

Lemma createArticle_frame ext req w :
  wp (Articles.createArticle ext req) w (fun _ w' =>
    (Articles_t (db w') = Articles_t (db w)
     \/ exists row, Articles_t (db w') = Articles_t (db w) ++ [row]
                    /\ a_authorId row = u_id (req_user req)
                    /\ a_likesCount row = default 0 (num_attr (req_body req) "likesCount")
                    /\ a_isArchived row = default false (bool_attr (req_body req) "isArchived"))
    /\ Likes_t (db w') = Likes_t (db w) /\ Dislikes_t (db w') = Dislikes_t (db w)
    /\ Categories_t (db w') = Categories_t (db w) /\ Users_t (db w') = Users_t (db w)
    /\ Sessions_t (db w') = Sessions_t (db w)
    /\ ResetPasswords_t (db w') = ResetPasswords_t (db w)).
Proof.
  wp_auto; tables_simpl; (split; [|done]); try (by left).
  all: right; eexists; split; [reflexivity|]; cbn [Article.build a_authorId a_likesCount a_isArchived].
  all: rewrite created_values_authorId.
  all: unfold num_attr, bool_attr; rewrite !created_values_lookup by done; done.
Qed.

(** X7. Whatever calls fail, a create-article request adds at most one
    row to [Articles], whose author is the requesting user whatever
    [authorId] the body carries, and changes no existing article and no
    like, dislike, category, user, session or reset token. *)
Theorem createArticle_adds_at_most_one_article_of_the_user ext req w :
  let w' := (Articles.createArticle ext req w).2 in
  (Articles_t (db w') = Articles_t (db w)
   \/ exists row, Articles_t (db w') = Articles_t (db w) ++ [row]
                  /\ a_authorId row = u_id (req_user req))
  /\ Likes_t (db w') = Likes_t (db w) /\ Dislikes_t (db w') = Dislikes_t (db w)
  /\ Categories_t (db w') = Categories_t (db w) /\ Users_t (db w') = Users_t (db w)
  /\ Sessions_t (db w') = Sessions_t (db w)
  /\ ResetPasswords_t (db w') = ResetPasswords_t (db w).
Proof.
  intros w'. destruct (createArticle_frame ext req w) as ([H|(row & H & Hu & _)] & Hrest).
  - split; [by left|done].
  - split; [right; by exists row|done].
Qed.

Lemma createArticle_without_category ext req w :
  (forall c, req_body req !! "category" <> Some (JStr c)) ->
  wp (Articles.createArticle ext req) w (fun r w' =>
    (r, w') = (Ok tt, mkWorld (db w) (faults w) (sent w ++ [mkResponse 500 generic_error])
                              (headers w) (clock w))).
Proof.
  intros Hc. repeat wp_any.
  destruct (req_body req !! "category") as [[]|] eqn:E;
    try (exfalso; by eapply Hc); repeat wp_any; done.
Qed.

Lemma createArticle_without_other ext req d s h c0 c :
  req_body req !! "category" = Some (JStr c) ->
  resolve_category (Categories_t d) c = None ->
  wp (Articles.createArticle ext req) (mkWorld d [] s h c0) (fun r w' =>
    (r, w') = (Ok tt, mkWorld d [] (s ++ [mkResponse 500 generic_error]) h c0)).
Proof.
  intros Hc Hr. unfold resolve_category in Hr.
  destruct (List.find _ (Categories_t d)) eqn:E1; [done|].
  repeat wp_step. rewrite Hc. repeat wp_step. rewrite E1. repeat wp_step.
  rewrite Hr. repeat wp_step. done.
Qed.

(** X8. A create-article request whose body names no category as a
    string is answered with the generic status 500, not with a
    validation error, and nothing is stored, whatever the fault plan; the
    same holds, when no call fails, of a request whose category does not
    exist while there is no category 'other' to fall back on. *)
Theorem createArticle_without_a_usable_category_answers_500 ext req :
  (forall w,
     (forall c, req_body req !! "category" <> Some (JStr c)) ->
     Articles.createArticle ext req w
     = (Ok tt, mkWorld (db w) (faults w) (sent w ++ [mkResponse 500 generic_error])
                       (headers w) (clock w)))
  /\ (forall d s h c0 c,
        req_body req !! "category" = Some (JStr c) ->
        resolve_category (Categories_t d) c = None ->
        Articles.createArticle ext req (mkWorld d [] s h c0)
        = (Ok tt, mkWorld d [] (s ++ [mkResponse 500 generic_error]) h c0)).
Proof.
  split.
  - intros w Hc. apply wp_run. by apply createArticle_without_category.
  - intros d s h c0 c Hc Hr. apply wp_run. by eapply createArticle_without_other.
Qed.

Lemma createArticle_bad_title ext req w :
  Article.title_ok (req_body req !! "title") = false ->
  wp (Articles.createArticle ext req) w (fun _ w' =>
    Articles_t (db w') = Articles_t (db w)
    /\ exists r, sent w' = sent w ++ [r] /\ (status r = 400 \/ status r = 500)).
Proof.
  intros Ht. wp_auto; tables_simpl.
  all: try match goal with
       | H : Article.title_ok _ && _ && _ && _ && _ = true |- _ =>
           rewrite created_values_lookup in H by done; rewrite Ht in H; discriminate H
       end.
  all: split; [done|]; eexists; split; [reflexivity|]; cbn [status]; auto.
  all: match goal with
       | Hc : Articles.canTag _ = Some ?p |- _ => apply canTag_refusal in Hc as [Hc _]; auto
       end.
Qed.

Lemma bad_length_title t :
  (String.length t < 2 \/ 250 < String.length t)%nat -> Article.title_ok (Some (JStr t)) = false.
Proof.
  intros H. unfold Article.title_ok. apply andb_false_iff.
  destruct H; [left; apply Nat.leb_gt|right; apply Nat.leb_gt]; lia.
Qed.

(** X9. Whatever calls fail, a create-article request whose title is
    absent, or is a string of fewer than 2 or more than 250 characters,
    stores no article, and is answered once, with status 400 (a refusal
    of its tags) or with the generic status 500. *)
Theorem createArticle_with_an_invalid_title_stores_nothing ext req w :
  (req_body req !! "title" = None
   \/ exists t, req_body req !! "title" = Some (JStr t)
                /\ (String.length t < 2 \/ 250 < String.length t)%nat) ->
  let w' := (Articles.createArticle ext req w).2 in
  Articles_t (db w') = Articles_t (db w)
  /\ exists r, sent w' = sent w ++ [r] /\ (status r = 400 \/ status r = 500).
Proof.
  intros Ht. apply createArticle_bad_title.
  destruct Ht as [->|(t & -> & Ht)]; [done|by apply bad_length_title].
Qed.

(** ** Updating an article *)

Lemma map_if_same {A} (p : A -> bool) (l : list A) :
  List.map (fun a => if p a then a else a) l = l.
Proof.
  rewrite <- (List.map_id l) at 2. apply List.map_ext. intros a. by destruct (p a).
Qed.

Lemma updated_values_id x y image (body : gmap string json) :
  body !! "id" = None ->
  num_attr (<["categoryId" := x]> (Articles.with_image image (<["publishedAt" := y]> body))) "id"
  = None.
Proof.
  intros Hid. unfold num_attr. rewrite lookup_insert_ne by done.
  destruct image; cbn [Articles.with_image].
  - rewrite !lookup_insert_ne by done. by rewrite Hid.
  - rewrite lookup_delete_ne by done. rewrite lookup_insert_ne by done. by rewrite Hid.
Qed.

Lemma update_frame ext req w :
  wp (Articles.update ext req) w (fun _ w' =>
    (exists f, (req_body req !! "id" = None -> forall a, a_id (f a) = a_id a)
       /\ Articles_t (db w')
          = List.map (fun a => if own_article req a then f a else a) (Articles_t (db w)))
    /\ Likes_t (db w') = Likes_t (db w) /\ Dislikes_t (db w') = Dislikes_t (db w)
    /\ Categories_t (db w') = Categories_t (db w) /\ Users_t (db w') = Users_t (db w)
    /\ Sessions_t (db w') = Sessions_t (db w)
    /\ ResetPasswords_t (db w') = ResetPasswords_t (db w)).
Proof.
  wp_auto; tables_simpl; (split; [|done]).
  all: first
    [ exists (fun a => a); split; [done|]; symmetry; apply map_if_same
    | match goal with
      | |- exists f, _ /\ List.map (fun a => if _ then Article.assign ?v a else a) _ = _ =>
          exists (Article.assign v); split; [|reflexivity];
          intros ? ?; cbn [Article.assign a_id]; by rewrite updated_values_id
      end ].
Qed.

(** X10. Whatever calls fail, an update request adds and removes no
    article and writes at most the rows of its slug that the requesting
    user authored; it keeps their ids unless the body carries an [id],
    which is written like any other attribute. Every other article and
    every like, dislike, category, user, session and reset token is as
    it was; tags and their links to articles are outside this frame. *)
Theorem update_writes_only_the_articles_of_the_user ext req w :
  let w' := (Articles.update ext req w).2 in
  (exists f, (req_body req !! "id" = None -> forall a, a_id (f a) = a_id a)
     /\ Articles_t (db w')
        = List.map (fun a => if own_article req a then f a else a) (Articles_t (db w)))
  /\ Likes_t (db w') = Likes_t (db w) /\ Dislikes_t (db w') = Dislikes_t (db w)
  /\ Categories_t (db w') = Categories_t (db w) /\ Users_t (db w') = Users_t (db w)
  /\ Sessions_t (db w') = Sessions_t (db w)
  /\ ResetPasswords_t (db w') = ResetPasswords_t (db w).
Proof. exact (update_frame ext req w). Qed.

Lemma update_not_found ext req w :
  (target req (db w) = None
   \/ exists a, target req (db w) = Some a /\ a_isArchived a = true) ->
  wp (Articles.update ext req) w (fun r w' =>
    db w' = db w
    /\ (next_fault w = false ->
        last (sent w') = Some (mkResponse 404 (error_body "article not found"))
        /\ (req_body req <> ∅ ->
            sent w' = sent w ++ [mkResponse 404 (error_body "article not found")]))).
Proof.
  intros Ht. unfold target in Ht. repeat wp_any.
  destruct (size (req_body req) =? 0)%nat eqn:Hsize; repeat wp_any.
  all: try (split; [done|]; intros Hf; unfold next_fault in *; cbn [faults] in *; congruence).
  all: destruct Ht as [Ht|(a & Ht & Harch)]; rewrite Ht; repeat wp_any; rewrite ?Harch;
    repeat wp_any.
  all: split; [done|]; intros _; split; [by rewrite last_snoc|].
  all: intros Hne; try reflexivity.
  all: apply Nat.eqb_eq, map_size_empty_iff in Hsize; done.
Qed.

(** X11. An update request for a slug that no article has, or whose
    article is archived, leaves every table as it was, whatever calls
    fail; when the lookup of the article does not fail, its last answer
    is status 404 with the error 'article not found', and its only
    answer when the body is not empty. *)
Theorem update_of_a_missing_or_archived_article_answers_404 ext req w :
  (target req (db w) = None
   \/ exists a, target req (db w) = Some a /\ a_isArchived a = true) ->
  let w' := (Articles.update ext req w).2 in
  db w' = db w
  /\ (next_fault w = false ->
      last (sent w') = Some (mkResponse 404 (error_body "article not found"))
      /\ (req_body req <> ∅ ->
          sent w' = sent w ++ [mkResponse 404 (error_body "article not found")])).
Proof. intros Ht. exact (update_not_found ext req w Ht). Qed.

(** ** An update with an empty body *)

Lemma update_empty_body ext req d s h c a :
  req_body req = ∅ ->
  target req d = Some a -> a_isArchived a = false ->
  let values :=
    <["categoryId" := JNum (a_categoryId a)]>
      (Articles.with_image (imageUpload ext <$> req_file req) {[ "publishedAt" := JNull ]}) in
  wp (Articles.update ext req) (mkWorld d [] s h c) (fun r w' =>
    Articles_t (db w')
    = List.map (fun x => if own_article req x then Article.assign values x else x) (Articles_t d)
    /\ exists r2, sent w'
         = s ++ [mkResponse 422 (error_body "request body should not be empty"); r2]
       /\ (status r2 = 200 \/ status r2 = 403)).
Proof.
  intros Hb Ht Harch values. unfold target in Ht.
  repeat wp_step. rewrite Hb. change (size (∅ : gmap string json) =? 0)%nat with true.
  cbv iota. repeat wp_step. rewrite Ht. repeat wp_step. rewrite Harch.
  repeat wp_step. rewrite lookup_empty. change (truthy None) with false. cbv iota.
  repeat wp_step. cbn [fst snd]. rewrite lookup_empty. change (truthy None) with false.
  cbv iota. subst values.
  destruct (req_file req) as [f|]; cbn [fmap option_fmap option_map]; repeat wp_step.
  all: match goal with
       | |- wp (if ?b then _ else _) _ _ =>
           let v := eval vm_compute in b in change b with v; cbv iota
       end.
  all: repeat wp_step.
  all: match goal with
       | |- wp (match ?l with _ => _ end) _ _ => destruct l
       end; repeat wp_step; tables_simpl.
  all: rewrite <- !app_assoc; cbn [app].
  all: split; [reflexivity|]; eexists; split; [reflexivity|]; cbn [status]; auto.
Qed.

(** X12. An update request with an empty body is answered first with
    status 422 and the error 'request body should not be empty', but is
    not stopped there: when no call fails and the article of the slug
    exists and is not archived, every row of the slug that the requesting
    user authored is still written, and loses its publication date. *)
Theorem update_with_an_empty_body_still_unpublishes ext req d s h c a :
  req_body req = ∅ ->
  target req d = Some a -> a_isArchived a = false ->
  let w' := (Articles.update ext req (mkWorld d [] s h c)).2 in
  (exists rest,
     sent w' = s ++ mkResponse 422 (error_body "request body should not be empty") :: rest)
  /\ exists values,
       Articles_t (db w')
       = List.map (fun x => if own_article req x then Article.assign values x else x)
                  (Articles_t d)
       /\ forall x, a_publishedAt (Article.assign values x) = None.
Proof.
  intros Hb Ht Harch w'.
  destruct (update_empty_body ext req d s h c a Hb Ht Harch) as (Ha & r2 & Hs & _).
  split; [by exists [r2]|]. eexists. split; [exact Ha|].
  intros x. apply assign_publishedAt. apply (update_values_publishedAt _ _ None).
Qed.

(** ** An update by a user who is not the author *)

Lemma map_if_none {A} (p : A -> bool) (f : A -> A) (l : list A) :
  (forall a, In a l -> p a = false) ->
  List.map (fun a => if p a then f a else a) l = l.
Proof.
  intros H. rewrite <- (List.map_id l) at 2. apply List.map_ext_in.
  intros a Ha. by rewrite (H a Ha).
Qed.

(** X13. Whatever calls fail, an update request of a user who authored no
    article of the slug changes no article and is never answered with
    status 200. *)
Theorem update_by_another_user_changes_no_article ext req w :
  (forall a, In a (Articles_t (db w)) -> own_article req a = false) ->
  let w' := (Articles.update ext req w).2 in
  Articles_t (db w') = Articles_t (db w)
  /\ forall b, last (sent w') <> Some (mkResponse 200 b).
Proof.
  intros Hown w'. subst w'. split.
  - destruct (update_frame ext req w) as ((f & _ & ->) & _). by apply map_if_none.
  - intros b Hb. destruct (update_success ext req w b Hb) as (_ & _ & _ & (a & Hin & Ha) & _).
    rewrite (Hown a Hin) in Ha. discriminate.
Qed.

(** ** The articles of a user *)



(** ** Creating a user *)

Ltac quiet_plan :=
  unfold next_fault in *; cbn [faults with_db with_faults] in *;
  repeat match goal with
  | H : faults _ = [] |- _ => rewrite H in *; cbn [tail] in *
  end.

Lemma create_username_taken ext req w u :
  User.find_by "email" (req_body req !! "email") (Users_t (db w)) = None ->
  User.find_by "userName" (req_body req !! "userName") (Users_t (db w)) = Some u ->
  wp (Users.create ext req) w (fun r w' =>
    db w' = db w
    /\ (faults w = [] ->
        sent w' = sent w
                  ++ [mkResponse 409 (error_body "username has already been taken")])).
Proof.
  intros He Hu. repeat wp_any.
  - split; [done|]. intros Hf. quiet_plan. done.
  - rewrite He. cbn [is_Some_b]. repeat wp_any.
    + split; [done|]. intros Hf. quiet_plan. done.
    + rewrite Hu. cbn [is_Some_b]. repeat wp_any. done.
Qed.

Lemma create_revised_username_taken ext userResponse req w u :
  User.find_by "email" (req_body req !! "email") (Users_t (db w)) = None ->
  User.find_by "userName" (req_body req !! "userName") (Users_t (db w)) = Some u ->
  wp (Users.create_revised ext userResponse req) w (fun r w' =>
    db w' = db w
    /\ (faults w = [] ->
        sent w' = sent w
                  ++ [mkResponse 409 (error_body "username has already been taken")])).
Proof.
  intros He Hu. repeat wp_any.
  - split; [done|]. intros Hf. quiet_plan. done.
  - rewrite He. cbn [is_Some_b]. repeat wp_any.
    + split; [done|]. intros Hf. quiet_plan. done.
    + rewrite Hu. cbn [is_Some_b]. repeat wp_any. done.
Qed.

(** X15. A user-creation request whose email is free but whose user name
    already belongs to a user leaves every table as it was, whatever
    calls fail, and, when no call fails, is answered with status 409 and
    the error 'username has already been taken'; this holds of the
    controller and of its later revision. *)
Theorem taken_username_is_answered_409 ext userResponse req w u :
  User.find_by "email" (req_body req !! "email") (Users_t (db w)) = None ->
  User.find_by "userName" (req_body req !! "userName") (Users_t (db w)) = Some u ->
  let w1 := (Users.create ext req w).2 in
  let w2 := (Users.create_revised ext userResponse req w).2 in
  (db w1 = db w
   /\ (faults w = [] ->
       sent w1 = sent w
                 ++ [mkResponse 409 (error_body "username has already been taken")]))
  /\ (db w2 = db w
      /\ (faults w = [] ->
          sent w2 = sent w
                    ++ [mkResponse 409 (error_body "username has already been taken")])).
Proof.
  intros He Hu w1 w2. split.
  - exact (create_username_taken ext req w u He Hu).
  - exact (create_revised_username_taken ext userResponse req w u He Hu).
Qed.

Lemma create_session ext req w :
  wp (Users.create ext req) w (fun _ w' =>
    forall b, last (sent w') = Some (mkResponse 201 b) ->
    exists row,
      let token := generateToken ext (usr_id row) "24h" in
      let agent := getUserAgent ext req in
      Users_t (db w') = Users_t (db w) ++ [row]
      /\ Sessions_t (db w')
         = Sessions_t (db w)
           ++ [mkSession (usr_id row) token (expiryDate ext agent.1) agent.2 (req_ip req)
                         agent.1 None]
      /\ headers w' = ("Authorization", token) :: headers w
      /\ field "token" (mkResponse 201 b) = Some (JStr token)
      /\ User.find_by "email" (req_body req !! "email") (Users_t (db w)) = None
      /\ User.find_by "userName" (req_body req !! "userName") (Users_t (db w)) = None).
Proof.
  wp_auto; not_last_response.
  injection Hb as <-. eexists. cbv zeta. tables_simpl.
  repeat match goal with
  | H : getUserAgent _ _ = _ |- _ => rewrite H
  | H : is_Some_b ?x = false |- _ => destruct x; [discriminate H|clear H]
  end.
  split_and!; try reflexivity.
Qed.

(** X16. Whenever a user-creation request is answered with status 201,
    neither its email nor its user name belonged to a user, the [Users]
    table has gained one row and the [Sessions] table one session of
    that user, for the address and the user agent of the request, whose
    token is the 24-hour token of the new user; the same token is the
    [token] of the answer and the [Authorization] header set on it. *)
Theorem created_user_gets_one_session_and_its_token ext req w b :
  let w' := (Users.create ext req w).2 in
  last (sent w') = Some (mkResponse 201 b) ->
  exists row,
    let token := generateToken ext (usr_id row) "24h" in
    let agent := getUserAgent ext req in
    Users_t (db w') = Users_t (db w) ++ [row]
    /\ Sessions_t (db w')
       = Sessions_t (db w)
         ++ [mkSession (usr_id row) token (expiryDate ext agent.1) agent.2 (req_ip req)
                       agent.1 None]
    /\ headers w' = ("Authorization", token) :: headers w
    /\ field "token" (mkResponse 201 b) = Some (JStr token)
    /\ User.find_by "email" (req_body req !! "email") (Users_t (db w)) = None
    /\ User.find_by "userName" (req_body req !! "userName") (Users_t (db w)) = None.
Proof. intros w' Hb. exact (create_session ext req w b Hb). Qed.

(** ** Verifying an email *)

Lemma verifyUserEmail_verified req w :
  u_verified (req_user req) = true ->
  Users.verifyUserEmail req w
  = (Ok tt, mkWorld (db w) (faults w)
              (sent w ++ [mkResponse 200 (message_body "email already verified")])
              (headers w) (clock w)).
Proof.
  intros Hv. apply wp_run. repeat wp_any. rewrite Hv. repeat wp_any. done.
Qed.

Lemma verified_row_lookup (u : UserRow) k :
  ({[ "verified" := JBool true ]} ∪ usr_values u : gmap string json) !! k
  = if String.eqb k "verified" then Some (JBool true) else usr_values u !! k.
Proof.
  destruct (String.eqb_spec k "verified") as [->|Hk].
  - apply lookup_union_Some_l. apply lookup_singleton_eq.
  - rewrite lookup_union_r; [done|]. by apply lookup_singleton_ne.
Qed.

Lemma verifyUserEmail_unverified req w :
  u_verified (req_user req) = false -> next_fault w = false ->
  wp (Users.verifyUserEmail req) w (fun r w' =>
    sent w' = sent w ++ [mkResponse 200 (message_body "email verification successful")]
    /\ Forall2 (fun u u' =>
         usr_id u' = usr_id u
         /\ (forall k, k <> "verified" -> usr_values u' !! k = usr_values u !! k)
         /\ (usr_values u !! "email" = Some (JStr (u_email (req_user req))) ->
             usr_values u' !! "verified" = Some (JBool true))
         /\ (usr_values u !! "email" <> Some (JStr (u_email (req_user req))) -> u' = u))
         (Users_t (db w)) (Users_t (db w'))).
Proof.
  intros Hv Hf. repeat wp_any. rewrite Hv. repeat wp_any; [congruence|].
  split; [done|]. tables_simpl.
  induction (Users_t (db w)) as [|u l IH]; [constructor|].
  cbn [List.map]. constructor; [|exact IH].
  destruct (is_str (usr_values u !! "email") (u_email (req_user req))) eqn:E.
  - apply is_str_true in E. cbn [usr_id usr_values]. split_and!; [done| | |done].
    + intros k Hk. rewrite verified_row_lookup.
      by destruct (String.eqb_spec k "verified").
    + intros _. by rewrite verified_row_lookup.
  - split_and!; try done. intros E'. apply is_str_true in E'. congruence.
Qed.

(** X17. An email-verification request of a user who is already verified
    writes nothing and is answered 200 'email already verified',
    whatever the fault plan. Of a user who is not, when the update does
    not fail, it is answered 200 'email verification successful' and
    sets [verified] on every user row of that email, changing no other
    attribute of it and no other user row. *)
Theorem verifyUserEmail_marks_the_rows_of_the_email req w :
  (u_verified (req_user req) = true ->
   Users.verifyUserEmail req w
   = (Ok tt, mkWorld (db w) (faults w)
               (sent w ++ [mkResponse 200 (message_body "email already verified")])
               (headers w) (clock w)))
  /\ (u_verified (req_user req) = false -> next_fault w = false ->
      let w' := (Users.verifyUserEmail req w).2 in
      sent w' = sent w ++ [mkResponse 200 (message_body "email verification successful")]
      /\ Forall2 (fun u u' =>
           usr_id u' = usr_id u
           /\ (forall k, k <> "verified" -> usr_values u' !! k = usr_values u !! k)
           /\ (usr_values u !! "email" = Some (JStr (u_email (req_user req))) ->
               usr_values u' !! "verified" = Some (JBool true))
           /\ (usr_values u !! "email" <> Some (JStr (u_email (req_user req))) -> u' = u))
           (Users_t (db w)) (Users_t (db w'))).
Proof.
  split.
  - apply verifyUserEmail_verified.
  - intros Hv Hf. exact (verifyUserEmail_unverified req w Hv Hf).
Qed.

(** ** Resetting a password *)

Lemma resetPassword_invalid ext req w :
  verifyResetPasswordToken ext (p_token (req_params req)) = None ->
  wp (Users.resetPassword ext req) w (fun r w' =>
    db w' = db w
    /\ (next_fault w = false ->
        sent w' = sent w ++ [mkResponse 401 (error_body "link has expired or is invalid")])).
Proof.
  intros Hv. repeat wp_any; [split; [done|congruence]|].
  rewrite Hv. repeat wp_any. done.
Qed.

Lemma resetPassword_used ext req w id :
  verifyResetPasswordToken ext (p_token (req_params req)) = Some id ->
  List.find (fun r => String.eqb (rp_token r) (p_token (req_params req)))
            (ResetPasswords_t (db w)) = None ->
  wp (Users.resetPassword ext req) w (fun r w' =>
    db w' = db w
    /\ (faults w = [] ->
        sent w' = sent w ++ [mkResponse 401 (error_body "link has been used")])).
Proof.
  intros Hv Hr. repeat wp_any.
  - split; [done|]. intros Hf. quiet_plan. done.
  - rewrite Hv. repeat wp_any.
    + split; [done|]. intros Hf. quiet_plan. done.
    + rewrite Hr. cbn [is_Some_b negb]. repeat wp_any. done.
Qed.

(** X18. A password-reset request whose token does not verify is answered
    with status 401 and the error 'link has expired or is invalid'; one
    whose token verifies but is not in the [ResetPasswords] table is
    answered with status 401 and the error 'link has been used'. Either
    leaves every table as it was, whatever calls fail. *)
Theorem resetPassword_refuses_invalid_and_used_links ext req w :
  (verifyResetPasswordToken ext (p_token (req_params req)) = None ->
   let w' := (Users.resetPassword ext req w).2 in
   db w' = db w
   /\ (next_fault w = false ->
       sent w' = sent w
                 ++ [mkResponse 401 (error_body "link has expired or is invalid")]))
  /\ (forall id,
        verifyResetPasswordToken ext (p_token (req_params req)) = Some id ->
        List.find (fun r => String.eqb (rp_token r) (p_token (req_params req)))
                  (ResetPasswords_t (db w)) = None ->
        let w' := (Users.resetPassword ext req w).2 in
        db w' = db w
        /\ (faults w = [] ->
            sent w' = sent w ++ [mkResponse 401 (error_body "link has been used")])).
Proof.
  split.
  - intros Hv. exact (resetPassword_invalid ext req w Hv).
  - intros id Hv Hr. exact (resetPassword_used ext req w id Hv Hr).
Qed.

(** The [Users] table after the password of the user [id] has been set. *)
Lemma resetPassword_success ext req d s h c id row p :
  verifyResetPasswordToken ext (p_token (req_params req)) = Some id ->
  List.find (fun r => String.eqb (rp_token r) (p_token (req_params req)))
            (ResetPasswords_t d) = Some row ->
  req_body req !! "password" = Some (JStr p) ->
  Users.resetPassword ext req (mkWorld d [] s h c)
  = (Ok tt,
     mkWorld
       (set_ResetPasswords
          (List.filter (fun r => negb (String.eqb (rp_token r) (p_token (req_params req)))))
          (set_Users
             (List.map (fun u =>
                if usr_id u =? id
                then mkUser (usr_id u)
                       ({[ "password" := JStr (bcrypt_hash ext p 10) ]} ∪ usr_values u)
                else u)) d))
       [] (s ++ [mkResponse 200 (message_body "password reset successful")]) h c).
Proof.
  intros Hv Hr Hp. apply wp_run. repeat wp_step. rewrite Hv. repeat wp_step.
  rewrite Hr. cbn [is_Some_b negb]. repeat wp_step. rewrite Hp. repeat wp_step.
  reflexivity.
Qed.

Lemma find_filter_negb {A} (p : A -> bool) (l : list A) :
  List.find p (List.filter (fun x => negb (p x)) l) = None.
Proof.
  induction l as [|x l IH]; [done|]. cbn [List.filter].
  destruct (p x) eqn:E; cbn [negb]; [done|]. cbn [List.find]. by rewrite E.
Qed.

(** X19. A reset link works once. When no call fails, a password-reset
    request whose token verifies and is in the [ResetPasswords] table,
    with a password that is a string, is answered 200 'password reset
    successful', stores the bcrypt hash of the password on the rows of
    the verified user id and on no other row, and removes the token;
    the same request served again is answered 401 'link has been used'
    and changes nothing. *)
Theorem reset_link_works_once ext req d s h c id row p :
  verifyResetPasswordToken ext (p_token (req_params req)) = Some id ->
  List.find (fun r => String.eqb (rp_token r) (p_token (req_params req)))
            (ResetPasswords_t d) = Some row ->
  req_body req !! "password" = Some (JStr p) ->
  let w1 := (Users.resetPassword ext req (mkWorld d [] s h c)).2 in
  let w2 := (Users.resetPassword ext req w1).2 in
  sent w1 = s ++ [mkResponse 200 (message_body "password reset successful")]
  /\ Forall2 (fun u u' =>
       usr_id u' = usr_id u
       /\ (usr_id u = id -> usr_values u' !! "password" = Some (JStr (bcrypt_hash ext p 10)))
       /\ (usr_id u <> id -> u' = u))
       (Users_t d) (Users_t (db w1))
  /\ (forall r, In r (ResetPasswords_t (db w1)) <->
                In r (ResetPasswords_t d) /\ rp_token r <> p_token (req_params req))
  /\ db w2 = db w1
  /\ sent w2 = sent w1 ++ [mkResponse 401 (error_body "link has been used")].
Proof.
  intros Hv Hr Hp w1 w2. subst w2 w1.
  rewrite (resetPassword_success ext req d s h c id row p Hv Hr Hp). cbn [snd db sent].
  split; [done|]. split; [|split].
  - tables_simpl. induction (Users_t d) as [|u l IH]; [constructor|].
    cbn [List.map]. constructor; [|exact IH].
    destruct (Z.eqb_spec (usr_id u) id) as [E|E]; cbn [usr_id usr_values].
    + split_and!; [done| |done]. intros _. apply lookup_union_Some_l, lookup_singleton_eq.
    + done.
  - intros r. tables_simpl. rewrite filter_In, negb_true_iff, String.eqb_neq. done.
  - match goal with
    | |- context [Users.resetPassword ext req ?w] =>
        pose proof (resetPassword_used ext req w id Hv) as H
    end.
    unfold wp in H. cbn [db faults sent] in H. tables_simpl.
    destruct H as [H1 H2]; [apply find_filter_negb|]. split; [exact H1|by apply H2].
Qed.

(** ** Asking for a reset link *)

Lemma requestPasswordResetLink_unknown ext req w :
  User.find_by "email" (req_body req !! "email") (Users_t (db w)) = None ->
  wp (Users.requestPasswordResetLink ext req) w (fun r w' =>
    db w' = db w
    /\ (next_fault w = false ->
        sent w' = sent w ++ [mkResponse 404 (message_body "email address not found")])).
Proof.
  intros Hu. repeat wp_any; [split; [done|congruence]|].
  rewrite Hu. repeat wp_any. done.
Qed.

Lemma requestPasswordResetLink_known ext req d s h c u :
  User.find_by "email" (req_body req !! "email") (Users_t d) = Some u ->
  wp (Users.requestPasswordResetLink ext req) (mkWorld d [] s h c) (fun r w' =>
    faults w' = []
    /\ sent w' = s ++ [mkResponse 200 (message_body "password reset link sent")]
    /\ ResetPasswords_t (db w')
       = ResetPasswords_t d
         ++ [mkResetPassword (generateToken ext (usr_id u) "1h") (usr_id u)]
    /\ Users_t (db w') = Users_t d
    /\ Articles_t (db w') = Articles_t d).
Proof.
  intros Hu. repeat wp_step. rewrite Hu. repeat wp_step. done.
Qed.

(** X20. A reset-link request for an email that belongs to no user leaves
    every table as it was, whatever calls fail, and, when the lookup does
    not fail, is answered with status 404 and the message 'email address
    not found'. For the email of a user, when no call fails, it is
    answered 200 'password reset link sent' and adds one row to
    [ResetPasswords]: the one-hour token of that user, with the id of
    the user; no user row changes. *)
Theorem requestPasswordResetLink_stores_a_token_for_a_known_email ext req :
  (forall w,
     User.find_by "email" (req_body req !! "email") (Users_t (db w)) = None ->
     let w' := (Users.requestPasswordResetLink ext req w).2 in
     db w' = db w
     /\ (next_fault w = false ->
         sent w' = sent w ++ [mkResponse 404 (message_body "email address not found")]))
  /\ (forall d s h c u,
        User.find_by "email" (req_body req !! "email") (Users_t d) = Some u ->
        let w' := (Users.requestPasswordResetLink ext req (mkWorld d [] s h c)).2 in
        sent w' = s ++ [mkResponse 200 (message_body "password reset link sent")]
        /\ ResetPasswords_t (db w')
           = ResetPasswords_t d
             ++ [mkResetPassword (generateToken ext (usr_id u) "1h") (usr_id u)]
        /\ Users_t (db w') = Users_t d).
Proof.
  split.
  - intros w Hu. exact (requestPasswordResetLink_unknown ext req w Hu).
  - intros d s h c u Hu w'. subst w'.
    destruct (requestPasswordResetLink_known ext req d s h c u Hu) as (_ & ? & ? & ? & _).
    done.
Qed.

Lemma find_app_last {A} (p : A -> bool) (l : list A) x :
  p x = true -> exists y, List.find p (l ++ [x]) = Some y.
Proof.
  intros Hx. induction l as [|a l IH]; cbn [app List.find].
  - rewrite Hx. eauto.
  - destruct (p a); eauto.
Qed.

(** X21. The link that was asked for can be used. When the token made for
    a user verifies as the id of that user, and no call fails, a
    reset-link request for the email of the user followed by a
    password-reset request carrying that token and a password is
    answered 200 'password reset successful', and every user row of that
    id then holds the bcrypt hash of the password. *)
Theorem requested_link_resets_the_password ext req req' d s h c u p :
  User.find_by "email" (req_body req !! "email") (Users_t d) = Some u ->
  p_token (req_params req') = generateToken ext (usr_id u) "1h" ->
  verifyResetPasswordToken ext (generateToken ext (usr_id u) "1h") = Some (usr_id u) ->
  req_body req' !! "password" = Some (JStr p) ->
  let w1 := (Users.requestPasswordResetLink ext req (mkWorld d [] s h c)).2 in
  let w2 := (Users.resetPassword ext req' w1).2 in
  last (sent w2) = Some (mkResponse 200 (message_body "password reset successful"))
  /\ (forall u', In u' (Users_t (db w2)) -> usr_id u' = usr_id u ->
        usr_values u' !! "password" = Some (JStr (bcrypt_hash ext p 10)))
  /\ List.map usr_id (Users_t (db w2)) = List.map usr_id (Users_t d).
Proof.
  intros Hu Htok Hv Hp w1 w2. subst w2 w1.
  pose proof (requestPasswordResetLink_known ext req d s h c u Hu) as H.
  unfold wp in H. destruct (Users.requestPasswordResetLink ext req _) as [r1 [d1 f1 s1 h1 c1]].
  cbn [fst snd db faults sent] in *. destruct H as (-> & -> & Hrp & Hus & _).
  destruct (find_app_last
              (fun r => String.eqb (rp_token r) (p_token (req_params req')))
              (ResetPasswords_t d)
              (mkResetPassword (generateToken ext (usr_id u) "1h") (usr_id u)))
    as [row Hrow].
  { cbn [rp_token]. rewrite Htok. apply String.eqb_refl. }
  rewrite <- Hrp in Hrow. rewrite <- Htok in Hv.
  rewrite (resetPassword_success ext req' d1 _ h1 c1 (usr_id u) row p Hv Hrow Hp).
  cbn [snd db sent]. tables_simpl. rewrite Hus. split_and!.
  - by rewrite last_snoc.
  - intros u' Hin Hid. apply in_map_iff in Hin as (u0 & Hu0 & _).
    destruct (Z.eqb_spec (usr_id u0) (usr_id u)) as [E|E]; subst u'.
    + cbn [usr_values]. apply lookup_union_Some_l, lookup_singleton_eq.
    + congruence.
  - rewrite List.map_map. apply List.map_ext. intros u0.
    by destruct (usr_id u0 =? usr_id u).
Qed.

(** ** Changing a password *)

Lemma changePassword_success ext req d s h c p :
  req_body req !! "password" = Some (JStr p) ->
  Users.changePassword ext req (mkWorld d [] s h c)
  = (Ok tt,
     mkWorld
       (set_Users
          (List.map (fun u =>
             if usr_id u =? u_id (req_user req)
             then mkUser (usr_id u)
                    ({[ "password" := JStr (bcrypt_hash ext p 10) ]} ∪ usr_values u)
             else u)) d)
       [] (s ++ [mkResponse 200 (message_body "password changed successfully")]) h c).
Proof.
  intros Hp. apply wp_run. repeat wp_step. rewrite Hp. repeat wp_step. reflexivity.
Qed.

Lemma changePassword_no_password ext req w :
  (forall p, req_body req !! "password" <> Some (JStr p)) ->
  Users.changePassword ext req w = (Throw, w).
Proof.
  intros Hp. apply wp_run. repeat wp_any.
  destruct (req_body req !! "password") as [[]|] eqn:E;
    try (exfalso; by eapply Hp); repeat wp_any; done.
Qed.

(** X22. When no call fails, a change-password request with a password
    that is a string is answered 200 'password changed successfully' and
    stores the bcrypt hash of the password on the rows of the requesting
    user, keeping their other attributes, and changes no other user row
    and no other table. A request whose password is absent or not a
    string is not answered at all: the exception of [bcrypt.hash] leaves
    the controller, and nothing is written. *)
Theorem changePassword_writes_only_the_row_of_the_user ext req :
  (forall d s h c p,
     req_body req !! "password" = Some (JStr p) ->
     exists users,
       Users.changePassword ext req (mkWorld d [] s h c)
       = (Ok tt, mkWorld (set_Users (fun _ => users) d) []
                   (s ++ [mkResponse 200 (message_body "password changed successfully")]) h c)
       /\ Forall2 (fun u u' =>
            usr_id u' = usr_id u
            /\ (usr_id u = u_id (req_user req) ->
                usr_values u' !! "password" = Some (JStr (bcrypt_hash ext p 10))
                /\ forall k, k <> "password" -> usr_values u' !! k = usr_values u !! k)
            /\ (usr_id u <> u_id (req_user req) -> u' = u))
            (Users_t d) users)
  /\ (forall w,
        (forall p, req_body req !! "password" <> Some (JStr p)) ->
        Users.changePassword ext req w = (Throw, w)).
Proof.
  split.
  - intros d s h c p Hp. eexists. split; [exact (changePassword_success ext req d s h c p Hp)|].
    induction (Users_t d) as [|u l IH]; [constructor|].
    cbn [List.map]. constructor; [|exact IH].
    destruct (Z.eqb_spec (usr_id u) (u_id (req_user req))) as [E|E]; cbn [usr_id usr_values].
    + split_and!; [done| |done]. intros _. split.
      * apply lookup_union_Some_l, lookup_singleton_eq.
      * intros k Hk. rewrite lookup_union_r; [done|]. by apply lookup_singleton_ne.
    + done.
  - apply changePassword_no_password.
Qed.

(** ** At most one reaction, whatever fails *)

Lemma at_most_one_articles f d : at_most_one d -> at_most_one (set_Articles f d).
Proof. intros H u aid. exact (H u aid). Qed.

Lemma at_most_one_drop_likes u aid d :
  at_most_one d ->
  at_most_one (set_Likes (List.filter (fun r => negb (reaction_where u "article" aid r))) d).
Proof.
  intros H u' aid'. specialize (H u' aid'). unfold held in *. tables_simpl.
  pose proof (held_drop_le (Likes_t d) u aid u' aid') as Hle. unfold drop_reactions in Hle. lia.
Qed.

Lemma at_most_one_drop_dislikes u aid d :
  at_most_one d ->
  at_most_one (set_Dislikes (List.filter (fun r => negb (reaction_where u "article" aid r))) d).
Proof.
  intros H u' aid'. specialize (H u' aid'). unfold held in *. tables_simpl.
  pose proof (held_drop_le (Dislikes_t d) u aid u' aid') as Hle. unfold drop_reactions in Hle.
  lia.
Qed.

Lemma at_most_one_put_like u aid d :
  held d u aid = 0%nat -> at_most_one d ->
  at_most_one (set_Likes (fun l => l ++ [mkReaction u "article" aid]) d).
Proof.
  intros H0 H u' aid'. specialize (H u' aid'). unfold held in *. tables_simpl.
  fold (put_reaction u aid (Likes_t d)).
  destruct (held_put_cases (Likes_t d) u aid u' aid') as [(-> & -> & ->)|[Hne ->]]; lia.
Qed.

Lemma at_most_one_put_dislike u aid d :
  held d u aid = 0%nat -> at_most_one d ->
  at_most_one (set_Dislikes (fun l => l ++ [mkReaction u "article" aid]) d).
Proof.
  intros H0 H u' aid'. specialize (H u' aid'). unfold held in *. tables_simpl.
  fold (put_reaction u aid (Dislikes_t d)).
  destruct (held_put_cases (Dislikes_t d) u aid u' aid') as [(-> & -> & ->)|[Hne ->]]; lia.
Qed.

Lemma not_held_yet t u aid :
  negb (Nat.eqb (length (List.filter (fun r => of_article aid r && (r_userId r =? u)) t)) 0)
  = false ->
  held_in t u aid = 0%nat.
Proof. unfold held_in. intros H. by apply negb_false_iff, Nat.eqb_eq in H. Qed.

Lemma like_controller_at_most_one o req w :
  at_most_one (db w) ->
  wp (like_controller o req) w (fun _ w' => at_most_one (db w')).
Proof.
  intros Hd. destruct o; cbn [like_controller]; wp_auto.
  all: repeat match goal with
       | H : negb (Nat.eqb _ 0) = false |- _ => apply not_held_yet in H
       end.
  all: repeat first
    [ assumption
    | apply at_most_one_articles
    | apply at_most_one_drop_likes
    | apply at_most_one_drop_dislikes
    | apply at_most_one_put_like
    | apply at_most_one_put_dislike ].
  all: unfold held; tables_simpl.
  all: match goal with
       | |- context [List.filter (fun r => negb (reaction_where ?u "article" ?aid r)) ?t] =>
           fold (drop_reactions u aid t); rewrite held_drop_same
       end.
  all: lia.
Qed.

(** X23. That every user holds at most one like or dislike row on every
    article needs no call to succeed: it is kept by every run of like,
    dislike, remove-like and remove-dislike requests, whichever of their
    calls fail. *)
Theorem at_most_one_reaction_is_kept_whatever_fails ops w :
  at_most_one (db w) -> at_most_one (db (serve_all ops w)).
Proof.
  revert w. induction ops as [|[o req] ops IH]; intros w Hd; [done|].
  cbn [serve_all List.fold_left]. apply IH. unfold serve. cbn [fst snd].
  exact (like_controller_at_most_one o req w Hd).
Qed.

(** ** Sending the verification email again *)

Lemma resendVerificationEmail_run ext req w :
  wp (Users.resendVerificationEmail ext req) w (fun _ w' =>
    db w' = db w
    /\ (next_fault w = false ->
        sent w' = sent w ++
          [match User.find_by "email" (Some (JStr (p_email (req_params req))))
                   (Users_t (db w)) with
           | Some _ => mkResponse 200 (message_body "email sent successfully")
           | None => mkResponse 404 (error_body "user not found")
           end])).
Proof.
  repeat wp_any; [split; [done|congruence]|].
  destruct (User.find_by _ _ _); repeat wp_any; done.
Qed.

(** X24. A request to send the verification email again changes no
    table, whatever calls fail; when the lookup does not fail it is
    answered with status 200 and the message 'email sent successfully'
    if the email of the request belongs to a user, and with status 404
    and the error 'user not found' if it does not. *)
Theorem resendVerificationEmail_answers_by_the_email ext req w :
  let w' := (Users.resendVerificationEmail ext req w).2 in
  db w' = db w
  /\ (next_fault w = false ->
      sent w' = sent w ++
        [match User.find_by "email" (Some (JStr (p_email (req_params req))))
                 (Users_t (db w)) with
         | Some _ => mkResponse 200 (message_body "email sent successfully")
         | None => mkResponse 404 (error_body "user not found")
         end]).
Proof. exact (resendVerificationEmail_run ext req w). Qed.

(** ** The further properties on the sample data *)

Lemma findUser_witness :
  next_fault (sample_world sample_db []) = false
  /\ at_dot_spec "ann@example.com"
  /\ (findUser "ann@example.com" (sample_world sample_db [])).1
     = Ok (User.find_by "email" (Some (JStr "ann@example.com"))
             (Users_t (db (sample_world sample_db []))))
  /\ db (findUser "ann@example.com" (sample_world sample_db [])).2
     = db (sample_world sample_db []).
Proof.
  assert (H1 : next_fault (sample_world sample_db []) = false) by (vm_compute; reflexivity).
  assert (H2 : at_dot_spec "ann@example.com").
  { exists "ann", "example", "com". split_and!; [reflexivity|cbn; lia|cbn; lia|].
    intros ch Hin. cbn in Hin. repeat destruct Hin as [<-|Hin]; try reflexivity. destruct Hin. }
  pose proof (findUser_by_email_iff_at_and_dot "ann@example.com" (sample_world sample_db []) H1)
    as (He & _ & Hdb).
  split_and!; [exact H1 | exact H2 | exact (He H2) | exact Hdb].
Defined.

Lemma like_frame_witness :
  target like_request (db (sample_world sample_db [false; false; true])) = Some sample_article
  /\ same_but_reactions 7 1 sample_db
       (db (like_controller AddLike like_request
              (sample_world sample_db [false; false; true])).2).
Proof.
  assert (Ht : target like_request (db (sample_world sample_db [false; false; true]))
               = Some sample_article) by (vm_compute; reflexivity).
  split; [exact Ht|].
  exact (like_operations_touch_only_their_own_rows AddLike like_request
           (sample_world sample_db [false; false; true]) sample_article Ht).
Defined.

Lemma missing_article_witness :
  target missing_request (db (sample_world sample_db [])) = None
  /\ next_fault (sample_world sample_db []) = false
  /\ db (like_controller RemoveLike missing_request (sample_world sample_db [])).2
     = db (sample_world sample_db [])
  /\ sent (like_controller RemoveLike missing_request (sample_world sample_db [])).2
     = sent (sample_world sample_db [])
       ++ [mkResponse 404 (error_body "article not found")].
Proof.
  assert (Ht : target missing_request (db (sample_world sample_db [])) = None)
    by (vm_compute; reflexivity).
  assert (Hf : next_fault (sample_world sample_db []) = false) by (vm_compute; reflexivity).
  pose proof (like_operations_on_a_missing_article RemoveLike missing_request
                (sample_world sample_db []) Ht) as [Hdb Hs].
  split_and!; [exact Ht | exact Hf | exact Hdb | exact (Hs Hf)].
Defined.

Lemma added_reaction_witness :
  target like_request sample_db = Some sample_article
  /\ held_in (Likes_t sample_db) (u_id (req_user like_request)) (a_id sample_article) = 0%nat
  /\ exists a',
       target like_request (like_db (u_id (req_user like_request)) (a_id sample_article) sample_db)
       = Some a'
       /\ a_id a' = a_id sample_article
       /\ counts_match (like_db (u_id (req_user like_request)) (a_id sample_article) sample_db) a'
       /\ Articles.addLike like_request (mkWorld sample_db [] [] [] 5000)
          = (Ok tt, mkWorld (like_db (u_id (req_user like_request)) (a_id sample_article) sample_db)
                      [] ([] ++ [mkResponse 201
               (JObj (<["article" :=
                          JObj (<["likes" := JArr [Article.reaction_json
                                   (mkReaction (u_id (req_user like_request)) "article"
                                      (a_id sample_article))]]>
                                  (Article.dataValues a'))]>
                        {[ "message" := JStr "like added successfully" ]}))]) [] 5000).
Proof.
  assert (Ht : target like_request sample_db = Some sample_article) by (vm_compute; reflexivity).
  assert (Hh : held_in (Likes_t sample_db) (u_id (req_user like_request)) (a_id sample_article)
               = 0%nat) by (vm_compute; reflexivity).
  split_and!; [exact Ht | exact Hh |].
  exact (proj1 (added_reaction_is_answered_with_the_recounted_article like_request sample_db
                  [] [] 5000 sample_article Ht) Hh).
Defined.

Lemma removing_not_held_witness :
  target like_request sample_db = Some sample_article
  /\ counts_consistent sample_db
  /\ held_in (Likes_t sample_db) (u_id (req_user like_request)) (a_id sample_article) = 0%nat
  /\ Articles.removeLike like_request (mkWorld sample_db [] [] [] 5000)
     = (Ok tt, mkWorld sample_db [] ([] ++ [mkResponse 200
          (JObj (<["article" := JObj (Article.dataValues sample_article)]>
                   {[ "message" := JStr "like removed successfully" ]}))]) [] 5000).
Proof.
  assert (Ht : target like_request sample_db = Some sample_article) by (vm_compute; reflexivity).
  assert (Hh : held_in (Likes_t sample_db) (u_id (req_user like_request)) (a_id sample_article)
               = 0%nat) by (vm_compute; reflexivity).
  split_and!; [exact Ht | exact sample_db_consistent | exact Hh |].
  exact (proj1 (removing_a_reaction_not_held_is_answered_as_a_success like_request sample_db
                  [] [] 5000 sample_article Ht sample_db_consistent) Hh).
Defined.

Lemma like_then_remove_witness :
  target like_request disliked_db = Some (Article.set_dislikesCount 1 sample_article)
  /\ held_in (Likes_t disliked_db) (u_id (req_user like_request))
       (a_id (Article.set_dislikesCount 1 sample_article)) = 0%nat
  /\ Likes_t (db (serve_all [(AddLike, like_request); (RemoveLike, like_request)]
                    (mkWorld disliked_db [] [] [] 5000)))
     = Likes_t disliked_db
  /\ held (db (serve_all [(AddLike, like_request); (RemoveLike, like_request)]
                 (mkWorld disliked_db [] [] [] 5000)))
       (u_id (req_user like_request)) (a_id (Article.set_dislikesCount 1 sample_article))
     = 0%nat.
Proof.
  assert (Ht : target like_request disliked_db
               = Some (Article.set_dislikesCount 1 sample_article)) by (vm_compute; reflexivity).
  assert (Hh : held_in (Likes_t disliked_db) (u_id (req_user like_request))
                 (a_id (Article.set_dislikesCount 1 sample_article)) = 0%nat)
    by (vm_compute; reflexivity).
  pose proof (like_then_remove_like_restores_the_likes like_request disliked_db [] [] 5000
                (Article.set_dislikesCount 1 sample_article) Ht Hh) as (HL & _ & Hheld).
  split_and!; [exact Ht | exact Hh | exact HL | exact Hheld].
Defined.

Lemma createArticle_without_category_witness :
  (forall c, req_body like_request !! "category" <> Some (JStr c))
  /\ Articles.createArticle sample_ext like_request (sample_world sample_db [true])
     = (Ok tt, mkWorld (db (sample_world sample_db [true])) (faults (sample_world sample_db [true]))
                 (sent (sample_world sample_db [true]) ++ [mkResponse 500 generic_error])
                 (headers (sample_world sample_db [true])) (clock (sample_world sample_db [true]))).
Proof.
  assert (Hc : forall c, req_body like_request !! "category" <> Some (JStr c))
    by (intros c; vm_compute; discriminate).
  split; [exact Hc|].
  exact (proj1 (createArticle_without_a_usable_category_answers_500 sample_ext like_request)
           (sample_world sample_db [true]) Hc).
Defined.

Lemma invalid_title_witness :
  (req_body short_title_request !! "title" = None
   \/ exists t, req_body short_title_request !! "title" = Some (JStr t)
                /\ (String.length t < 2 \/ 250 < String.length t)%nat)
  /\ Articles_t (db (Articles.createArticle sample_ext short_title_request
                       (sample_world sample_db [])).2)
     = Articles_t (db (sample_world sample_db [])).
Proof.
  assert (Ht : req_body short_title_request !! "title" = None
               \/ exists t, req_body short_title_request !! "title" = Some (JStr t)
                            /\ (String.length t < 2 \/ 250 < String.length t)%nat).
  { right. exists "x". split; [vm_compute; reflexivity|]. left. cbn. lia. }
  split; [exact Ht|].
  exact (proj1 (createArticle_with_an_invalid_title_stores_nothing sample_ext
                  short_title_request (sample_world sample_db []) Ht)).
Defined.

Lemma update_not_found_witness :
  (target missing_request (db (sample_world sample_db [])) = None
   \/ exists a, target missing_request (db (sample_world sample_db [])) = Some a
                /\ a_isArchived a = true)
  /\ next_fault (sample_world sample_db []) = false
  /\ db (Articles.update sample_ext missing_request (sample_world sample_db [])).2
     = db (sample_world sample_db [])
  /\ last (sent (Articles.update sample_ext missing_request (sample_world sample_db [])).2)
     = Some (mkResponse 404 (error_body "article not found")).
Proof.
  assert (Ht : target missing_request (db (sample_world sample_db [])) = None
               \/ exists a, target missing_request (db (sample_world sample_db [])) = Some a
                            /\ a_isArchived a = true)
    by (left; vm_compute; reflexivity).
  assert (Hf : next_fault (sample_world sample_db []) = false) by (vm_compute; reflexivity).
  pose proof (update_of_a_missing_or_archived_article_answers_404 sample_ext missing_request
                (sample_world sample_db []) Ht) as [Hdb Hs].
  split_and!; [exact Ht | exact Hf | exact Hdb | exact (proj1 (Hs Hf))].
Defined.

Lemma empty_update_witness :
  req_body like_request = ∅
  /\ target like_request sample_db = Some sample_article
  /\ a_isArchived sample_article = false
  /\ exists values,
       Articles_t (db (Articles.update sample_ext like_request
                         (mkWorld sample_db [] [] [] 5000)).2)
       = List.map (fun x => if own_article like_request x then Article.assign values x else x)
                  (Articles_t sample_db)
       /\ forall x, a_publishedAt (Article.assign values x) = None.
Proof.
  assert (Hb : req_body like_request = ∅) by reflexivity.
  assert (Ht : target like_request sample_db = Some sample_article) by (vm_compute; reflexivity).
  assert (Ha : a_isArchived sample_article = false) by reflexivity.
  split_and!; [exact Hb | exact Ht | exact Ha |].
  exact (proj2 (update_with_an_empty_body_still_unpublishes sample_ext like_request sample_db
                  [] [] 5000 sample_article Hb Ht Ha)).
Defined.

Lemma update_by_another_user_witness :
  (forall a, In a (Articles_t (db (sample_world sample_db []))) ->
             own_article other_user_request a = false)
  /\ Articles_t (db (Articles.update sample_ext other_user_request
                       (sample_world sample_db [])).2)
     = Articles_t (db (sample_world sample_db [])).
Proof.
  assert (Ho : forall a, In a (Articles_t (db (sample_world sample_db []))) ->
                         own_article other_user_request a = false).
  { intros a [<-|[]]. vm_compute. reflexivity. }
  split; [exact Ho|].
  exact (proj1 (update_by_another_user_changes_no_article sample_ext other_user_request
                  (sample_world sample_db []) Ho)).
Defined.


Lemma taken_username_witness :
  User.find_by "email" (req_body ann_again_request !! "email")
    (Users_t (db (sample_world sample_db []))) = None
  /\ User.find_by "userName" (req_body ann_again_request !! "userName")
       (Users_t (db (sample_world sample_db []))) = Some sample_user
  /\ faults (sample_world sample_db []) = []
  /\ db (Users.create sample_ext ann_again_request (sample_world sample_db [])).2
     = db (sample_world sample_db [])
  /\ sent (Users.create sample_ext ann_again_request (sample_world sample_db [])).2
     = sent (sample_world sample_db [])
       ++ [mkResponse 409 (error_body "username has already been taken")].
Proof.
  assert (H1 : User.find_by "email" (req_body ann_again_request !! "email")
                 (Users_t (db (sample_world sample_db []))) = None)
    by (vm_compute; reflexivity).
  assert (H2 : User.find_by "userName" (req_body ann_again_request !! "userName")
                 (Users_t (db (sample_world sample_db []))) = Some sample_user)
    by (vm_compute; reflexivity).
  assert (H3 : faults (sample_world sample_db []) = []) by reflexivity.
  pose proof (taken_username_is_answered_409 sample_ext (fun _ _ _ => mret tt)
                ann_again_request (sample_world sample_db []) sample_user H1 H2)
    as [[Hdb Hs] _].
  split_and!; [exact H1 | exact H2 | exact H3 | exact Hdb | exact (Hs H3)].
Defined.

Lemma created_session_witness :
  last (sent (Users.create sample_ext (signup_request "bob@example.com")
                (sample_world sample_db [])).2)
  = Some (mkResponse 201 signup_answer)
  /\ exists row,
       Users_t (db (Users.create sample_ext (signup_request "bob@example.com")
                      (sample_world sample_db [])).2)
       = Users_t (db (sample_world sample_db [])) ++ [row]
       /\ headers (Users.create sample_ext (signup_request "bob@example.com")
                     (sample_world sample_db [])).2
          = ("Authorization", generateToken sample_ext (usr_id row) "24h")
            :: headers (sample_world sample_db []).
Proof.
  assert (H : last (sent (Users.create sample_ext (signup_request "bob@example.com")
                            (sample_world sample_db [])).2)
              = Some (mkResponse 201 signup_answer)) by (vm_compute; reflexivity).
  split; [exact H|].
  destruct (created_user_gets_one_session_and_its_token sample_ext
              (signup_request "bob@example.com") (sample_world sample_db []) signup_answer H)
    as (row & Hu & _ & Hh & _).
  exists row. split; [exact Hu | exact Hh].
Defined.

Lemma verifyUserEmail_witness :
  u_verified (req_user verified_request) = true
  /\ Users.verifyUserEmail verified_request (sample_world sample_db [true])
     = (Ok tt, mkWorld (db (sample_world sample_db [true])) (faults (sample_world sample_db [true]))
                 (sent (sample_world sample_db [true])
                  ++ [mkResponse 200 (message_body "email already verified")])
                 (headers (sample_world sample_db [true]))
                 (clock (sample_world sample_db [true]))).
Proof.
  assert (Hv : u_verified (req_user verified_request) = true) by reflexivity.
  split; [exact Hv|].
  exact (proj1 (verifyUserEmail_marks_the_rows_of_the_email verified_request
                  (sample_world sample_db [true])) Hv).
Defined.

Lemma resetPassword_refusal_witness :
  verifyResetPasswordToken sample_ext (p_token (req_params missing_request)) = None
  /\ next_fault (sample_world reset_db []) = false
  /\ db (Users.resetPassword sample_ext missing_request (sample_world reset_db [])).2
     = db (sample_world reset_db [])
  /\ sent (Users.resetPassword sample_ext missing_request (sample_world reset_db [])).2
     = sent (sample_world reset_db [])
       ++ [mkResponse 401 (error_body "link has expired or is invalid")].
Proof.
  assert (Hv : verifyResetPasswordToken sample_ext (p_token (req_params missing_request)) = None)
    by (vm_compute; reflexivity).
  assert (Hf : next_fault (sample_world reset_db []) = false) by (vm_compute; reflexivity).
  pose proof (proj1 (resetPassword_refuses_invalid_and_used_links sample_ext missing_request
                       (sample_world reset_db [])) Hv) as [Hdb Hs].
  split_and!; [exact Hv | exact Hf | exact Hdb | exact (Hs Hf)].
Defined.

Lemma reset_link_witness :
  verifyResetPasswordToken sample_ext (p_token (req_params new_password_request)) = Some 7
  /\ List.find (fun r => String.eqb (rp_token r) (p_token (req_params new_password_request)))
       (ResetPasswords_t reset_db) = Some (mkResetPassword "reset-1" 7)
  /\ req_body new_password_request !! "password" = Some (JStr "new-secret")
  /\ sent (Users.resetPassword sample_ext new_password_request
             (Users.resetPassword sample_ext new_password_request
                (mkWorld reset_db [] [] [] 5000)).2).2
     = sent (Users.resetPassword sample_ext new_password_request
               (mkWorld reset_db [] [] [] 5000)).2
       ++ [mkResponse 401 (error_body "link has been used")].
Proof.
  assert (H1 : verifyResetPasswordToken sample_ext (p_token (req_params new_password_request))
               = Some 7) by (vm_compute; reflexivity).
  assert (H2 : List.find
                 (fun r => String.eqb (rp_token r) (p_token (req_params new_password_request)))
                 (ResetPasswords_t reset_db) = Some (mkResetPassword "reset-1" 7))
    by (vm_compute; reflexivity).
  assert (H3 : req_body new_password_request !! "password" = Some (JStr "new-secret"))
    by (vm_compute; reflexivity).
  pose proof (reset_link_works_once sample_ext new_password_request reset_db [] [] 5000 7
                (mkResetPassword "reset-1" 7) "new-secret" H1 H2 H3) as (_ & _ & _ & _ & Hs).
  split_and!; [exact H1 | exact H2 | exact H3 | exact Hs].
Defined.

Lemma requestPasswordResetLink_witness :
  User.find_by "email" (req_body link_request !! "email") (Users_t sample_db) = Some sample_user
  /\ ResetPasswords_t (db (Users.requestPasswordResetLink sample_ext link_request
                             (mkWorld sample_db [] [] [] 5000)).2)
     = ResetPasswords_t sample_db
       ++ [mkResetPassword (generateToken sample_ext (usr_id sample_user) "1h")
                           (usr_id sample_user)].
Proof.
  assert (Hu : User.find_by "email" (req_body link_request !! "email") (Users_t sample_db)
               = Some sample_user) by (vm_compute; reflexivity).
  split; [exact Hu|].
  exact (proj1 (proj2 (proj2 (requestPasswordResetLink_stores_a_token_for_a_known_email
                                sample_ext link_request)
                               sample_db [] [] 5000 sample_user Hu))).
Defined.

Lemma requested_link_witness :
  User.find_by "email" (req_body link_request !! "email") (Users_t sample_db) = Some sample_user
  /\ p_token (req_params use_link_request) = generateToken link_ext (usr_id sample_user) "1h"
  /\ verifyResetPasswordToken link_ext (generateToken link_ext (usr_id sample_user) "1h")
     = Some (usr_id sample_user)
  /\ req_body use_link_request !! "password" = Some (JStr "new-secret")
  /\ last (sent (Users.resetPassword link_ext use_link_request
                   (Users.requestPasswordResetLink link_ext link_request
                      (mkWorld sample_db [] [] [] 5000)).2).2)
     = Some (mkResponse 200 (message_body "password reset successful")).
Proof.
  assert (H1 : User.find_by "email" (req_body link_request !! "email") (Users_t sample_db)
               = Some sample_user) by (vm_compute; reflexivity).
  assert (H2 : p_token (req_params use_link_request)
               = generateToken link_ext (usr_id sample_user) "1h") by (vm_compute; reflexivity).
  assert (H3 : verifyResetPasswordToken link_ext
                 (generateToken link_ext (usr_id sample_user) "1h")
               = Some (usr_id sample_user)) by (vm_compute; reflexivity).
  assert (H4 : req_body use_link_request !! "password" = Some (JStr "new-secret"))
    by (vm_compute; reflexivity).
  split_and!; [exact H1 | exact H2 | exact H3 | exact H4 |].
  exact (proj1 (requested_link_resets_the_password link_ext link_request use_link_request
                  sample_db [] [] 5000 sample_user "new-secret" H1 H2 H3 H4)).
Defined.

Lemma changePassword_witness :
  (forall p, req_body like_request !! "password" <> Some (JStr p))
  /\ Users.changePassword sample_ext like_request (sample_world sample_db [])
     = (Throw, sample_world sample_db []).
Proof.
  assert (Hp : forall p, req_body like_request !! "password" <> Some (JStr p))
    by (intros p; vm_compute; discriminate).
  split; [exact Hp|].
  exact (proj2 (changePassword_writes_only_the_row_of_the_user sample_ext like_request)
           (sample_world sample_db []) Hp).
Defined.

Lemma at_most_one_whatever_fails_witness :
  at_most_one (db (sample_world sample_db [false; false; false; false; true]))
  /\ at_most_one
       (db (serve_all [(AddLike, like_request); (AddDislike, like_request)]
              (sample_world sample_db [false; false; false; false; true]))).
Proof.
  split; [exact sample_db_at_most_one|].
  exact (at_most_one_reaction_is_kept_whatever_fails
           [(AddLike, like_request); (AddDislike, like_request)]
           (sample_world sample_db [false; false; false; false; true]) sample_db_at_most_one).
Defined.

(** ** An update with an invalid title *)

Lemma updated_values_lookup k x y image (body : gmap string json) :
  k <> "categoryId" -> k <> "publishedAt" -> k <> "image" ->
  (<["categoryId" := x]> (Articles.with_image image (<["publishedAt" := y]> body))) !! k
  = body !! k.
Proof.
  intros. rewrite lookup_insert_ne by done. destruct image; cbn [Articles.with_image].
  - by rewrite !lookup_insert_ne.
  - rewrite lookup_delete_ne by done. by rewrite lookup_insert_ne.
Qed.

Lemma update_bad_title ext req w v :
  req_body req !! "title" = Some v -> Article.title_ok (Some v) = false ->
  wp (Articles.update ext req) w (fun _ w' =>
    Articles_t (db w') = Articles_t (db w)
    /\ forall b, last (sent w') <> Some (mkResponse 200 b)).
Proof.
  intros Hv Ht. wp_auto; tables_simpl.
  all: try match goal with
       | H : (is_undefined _ || Article.title_ok _) && _ && _ = true |- _ =>
           rewrite updated_values_lookup in H by done; rewrite Hv, Ht in H; discriminate H
       end.
  all: split; [done|]; not_last_response; try refused_by_canTag.
Qed.

(** X25. Whatever calls fail, an update request whose body carries a
    title that is a string of fewer than 2 or more than 250 characters
    changes no article and is never answered with status 200. *)
Theorem update_with_an_invalid_title_changes_no_article ext req w t :
  req_body req !! "title" = Some (JStr t) ->
  (String.length t < 2 \/ 250 < String.length t)%nat ->
  let w' := (Articles.update ext req w).2 in
  Articles_t (db w') = Articles_t (db w)
  /\ forall b, last (sent w') <> Some (mkResponse 200 b).
Proof.
  intros Hv Ht. apply (update_bad_title ext req w (JStr t) Hv). by apply bad_length_title.
Qed.

Lemma invalid_retitle_witness :
  req_body short_retitle_request !! "title" = Some (JStr "x")
  /\ (String.length "x" < 2 \/ 250 < String.length "x")%nat
  /\ Articles_t (db (Articles.update sample_ext short_retitle_request
                       (sample_world sample_db [])).2)
     = Articles_t (db (sample_world sample_db [])).
Proof.
  assert (Hv : req_body short_retitle_request !! "title" = Some (JStr "x"))
    by (vm_compute; reflexivity).
  assert (Ht : (String.length "x" < 2 \/ 250 < String.length "x")%nat) by (left; cbn; lia).
  split_and!; [exact Hv | exact Ht |].
  exact (proj1 (update_with_an_invalid_title_changes_no_article sample_ext
                  short_retitle_request (sample_world sample_db []) "x" Hv Ht)).
Defined.

(** ** One answer to a request *)

Ltac one_answer := eexists; reflexivity.

Lemma createArticle_answers_once ext req w :
  wp (Articles.createArticle ext req) w (fun _ w' => exists r, sent w' = sent w ++ [r]).
Proof. wp_auto; one_answer. Qed.

Lemma userArticles_answers_once ext req w :
  wp (Articles.userArticles ext req) w (fun _ w' => exists r, sent w' = sent w ++ [r]).
Proof. wp_auto; one_answer. Qed.

Lemma users_answer_once ext req w :
  wp (Users.create ext req) w (fun _ w' => exists r, sent w' = sent w ++ [r])
  /\ wp (Users.verifyUserEmail req) w (fun _ w' => exists r, sent w' = sent w ++ [r])
  /\ wp (Users.resendVerificationEmail ext req) w (fun _ w' => exists r, sent w' = sent w ++ [r])
  /\ wp (Users.requestPasswordResetLink ext req) w
        (fun _ w' => exists r, sent w' = sent w ++ [r])
  /\ wp (Users.resetPassword ext req) w (fun _ w' => exists r, sent w' = sent w ++ [r]).
Proof. split_and!; wp_auto; one_answer. Qed.

Lemma like_controller_answers_at_most_once o req w :
  wp (like_controller o req) w (fun _ w' =>
    sent w' = sent w \/ exists r, sent w' = sent w ++ [r]).
Proof.
  destruct o; cbn [like_controller]; wp_auto; first [by left | right; one_answer].
Qed.

Lemma like_controller_answers_once o req d s h c :
  wp (like_controller o req) (mkWorld d [] s h c) (fun _ w' => exists r, sent w' = s ++ [r]).
Proof.
  destruct o; cbn [like_controller]; repeat first [wp_step | wp_branch]; one_answer.
Qed.

(** X26. Whatever calls fail, each of the create-article,
    articles-of-the-user, create-user, verify-email, resend-verification,
    reset-link and reset-password requests is answered exactly once, a
    failure being answered by the generic status 500. A like, dislike,
    remove-like or remove-dislike request is answered at most once, and
    exactly once when no call fails: its last query is not awaited, so
    that a failure of it leaves the request without an answer. *)
Theorem requests_are_answered_once ext req w :
  (forall k,
     In k [CreateArticle; UserArticles; CreateUser; VerifyUserEmail;
           ResendVerificationEmail; RequestPasswordResetLink; ResetPassword] ->
     exists r, sent (operation ext k req w).2 = sent w ++ [r])
  /\ (forall o,
        (sent (like_controller o req w).2 = sent w
         \/ exists r, sent (like_controller o req w).2 = sent w ++ [r])
        /\ (faults w = [] -> exists r, sent (like_controller o req w).2 = sent w ++ [r])).
Proof.
  split.
  - intros k Hk. cbn [In] in Hk.
    destruct (users_answer_once ext req w) as (H1 & H2 & H3 & H4 & H5).
    destruct Hk as [<-|[<-|[<-|[<-|[<-|[<-|[<-|[]]]]]]]]; cbn [operation].
    + exact (createArticle_answers_once ext req w).
    + exact (userArticles_answers_once ext req w).
    + exact H1.
    + exact H2.
    + exact H3.
    + exact H4.
    + exact H5.
  - intros o. split; [exact (like_controller_answers_at_most_once o req w)|].
    intros Hf. destruct w as [d fs s h c]. cbn [faults] in Hf. subst fs.
    exact (like_controller_answers_once o req d s h c).
Qed.

Lemma answered_once_witness :
  In CreateArticle [CreateArticle; UserArticles; CreateUser; VerifyUserEmail;
                    ResendVerificationEmail; RequestPasswordResetLink; ResetPassword]
  /\ (exists r, sent (operation sample_ext CreateArticle sports_request
                        (sample_world sample_db [false; true])).2
                = sent (sample_world sample_db [false; true]) ++ [r])
  /\ faults (sample_world sample_db []) = []
  /\ (exists r, sent (like_controller AddLike like_request (sample_world sample_db [])).2
                = sent (sample_world sample_db []) ++ [r]).
Proof.
  assert (H1 : In CreateArticle [CreateArticle; UserArticles; CreateUser; VerifyUserEmail;
                                 ResendVerificationEmail; RequestPasswordResetLink;
                                 ResetPassword]) by (left; reflexivity).
  assert (H2 : faults (sample_world sample_db []) = []) by reflexivity.
  split_and!; [exact H1 | | exact H2 |].
  - exact (proj1 (requests_are_answered_once sample_ext sports_request
                    (sample_world sample_db [false; true])) CreateArticle H1).
  - exact (proj2 (proj2 (requests_are_answered_once sample_ext like_request
                           (sample_world sample_db [])) AddLike) H2).
Defined.
